(** * WhatsApp expense tracker: the conversational command engine

    A shallow embedding of the TypeScript sources of the engine
    (reply formatting, round-2 reply parsing, the expense service over the
    ledger store, the operation executor and the dispatch orchestrator),
    followed by the properties established about them.

    Conventions of the embedding.
    - A dynamically typed JavaScript value is a [JsVal]; an absent property
      reads as [JUndefined].
    - A JavaScript number is modelled by a rational [Q]; a rational that is
      not an IEEE double stands for the double nearest to it, the number
      [Number] and [parseFloat] read from its decimal text.  The sum of two
      numbers is the field [plus] of the [Host], the addition of doubles with
      its rounding; day numbers, counts and identifiers are integers well
      inside the range in which doubles are exact, and are added in [Z].
    - A rejected promise or a thrown exception is an [Outcome] [Thrown e].
    - Built-ins whose full behaviour is outside the repository ([String(v)],
      [JSON.parse], [Number(s)], [new Date(s)], the Unicode-aware [trim] and
      [toLowerCase], the database's reading of a date text, ...) are
      parameters (the fields of a [Host], or section
      variables): every theorem holds for all their behaviours. *)

From Stdlib Require Import ZArith QArith List String Ascii Bool Lia.
From Stdlib Require Import Sorting.Sorted Sorting.Permutation.
Import ListNotations.

Set Warnings "-register-all".

Open Scope string_scope.
Open Scope Z_scope.

(** ** Host-language values *)

Inductive JsVal : Type :=
| JUndefined
| JNull
| JBool (b : bool)
| JNum (q : Q)
| JStr (s : string)
| JArr (items : list JsVal)
| JObj (props : list (string * JsVal)).

(** Exceptions the engine can see. *)
Inductive Exn : Type :=
| TypeError
| SyntaxError
| RangeError
| StoreError
| ModelError
| ChartError (msg : string).

Inductive Outcome (A : Type) : Type :=
| Returned (a : A)
| Thrown (e : Exn).
Arguments Returned {A} a.
Arguments Thrown {A} e.

(** JavaScript truthiness ([!v] is [negb (truthy v)]). *)
Definition truthy (v : JsVal) : bool :=
  match v with
  | JUndefined | JNull => false
  | JBool b => b
  | JNum q => negb (Qeq_bool q 0)
  | JStr s => negb (String.eqb s "")
  | JArr _ | JObj _ => true
  end.

(** [a || b] *)
Definition js_or (a b : JsVal) : JsVal := if truthy a then a else b.

Fixpoint assoc {A : Type} (k : string) (l : list (string * A)) : option A :=
  match l with
  | [] => None
  | (k', v) :: l' => if String.eqb k k' then Some v else assoc k l'
  end.

(** Reading a property named [k], for the property names the engine uses
    (none of which is a built-in property of an array, a string, a number or
    a boolean).  The association list of a [JObj] lists the own properties
    in the order in which JavaScript enumerates them. *)
Definition getProp (v : JsVal) (k : string) : Outcome JsVal :=
  match v with
  | JUndefined | JNull => Thrown TypeError
  | JObj props => Returned (match assoc k props with Some x => x | None => JUndefined end)
  | _ => Returned JUndefined
  end.

(** Decimal text of a natural number (array indices as property keys). *)
Definition digit_of_nat (n : nat) : ascii :=
  ascii_of_nat (48 + n).

Fixpoint decimal_fuel (fuel n : nat) (acc : string) : string :=
  match fuel with
  | O => acc
  | S fuel' =>
      let acc' := String (digit_of_nat (Nat.modulo n 10)) acc in
      if Nat.ltb n 10 then acc' else decimal_fuel fuel' (Nat.div n 10) acc'
  end.

Definition string_of_nat (n : nat) : string := decimal_fuel (S n) n "".

Fixpoint indexed {A : Type} (i : nat) (l : list A) : list (string * A) :=
  match l with
  | [] => []
  | x :: l' => (string_of_nat i, x) :: indexed (S i) l'
  end.

Fixpoint chars (s : string) : list JsVal :=
  match s with
  | EmptyString => []
  | String c s' => JStr (String c EmptyString) :: chars s'
  end.

(** [Object.entries(v)] for a value that is neither [undefined] nor [null]. *)
Definition Object_entries (v : JsVal) : list (string * JsVal) :=
  match v with
  | JObj props => props
  | JArr items => indexed 0 items
  | JStr s => indexed 0 (chars s)
  | _ => []
  end.

(** [key.startsWith('_')] *)
Definition startsWith_underscore (key : string) : bool :=
  match key with
  | String c _ => Ascii.eqb c "_"%char
  | EmptyString => false
  end.

(** ** response-handler/types/response.types.ts *)

Inductive MessageFormat : Type := TEXT | TEMPLATE | MARKDOWN.

Definition MessageFormat_eqb (a b : MessageFormat) : bool :=
  match a, b with
  | TEXT, TEXT | TEMPLATE, TEMPLATE | MARKDOWN, MARKDOWN => true
  | _, _ => false
  end.

(** The union [TextResponse | TemplateResponse | ImageResponse] as one
    record; a property the object does not have is [JUndefined]. *)
Record PlatformResponse : Type := mkResponse {
  format : MessageFormat;
  content : JsVal;
  templateName : JsVal;
  templateParams : JsVal;
  imageUrl : JsVal;
  caption : JsVal
}.

Definition textResponse (c : JsVal) : PlatformResponse :=
  mkResponse TEXT c JUndefined JUndefined JUndefined JUndefined.

(** ** whatsapp/dto and response-handler/formatters/whatsapp.formatter.ts *)

Module WhatsAppFormatter.

Record TemplateParameter : Type := mkParameter { param_type : string; param_text : string }.
Record Component : Type := mkComponent { comp_type : string; parameters : list TemplateParameter }.

Record Template : Type := mkTemplate {
    name : JsVal;
    language_code : string;
    components : option (list Component)
  }.

  (** [messaging_product] is the constant ['whatsapp'] in every variant and
      is not repeated in the constructors. *)
Inductive WhatsAppMessage : Type :=
  | WhatsappTextMessage (to : string) (body : JsVal)
  | WhatsappTemplateMessage (to : string) (template : Template)
  | WhatsappImageMessage (to : string) (link caption : JsVal).

Section Formatter.
    (** [String(value)] *)
Variable String_of : JsVal -> string.

Definition formatText (response : PlatformResponse) (recipientId : string)
      : WhatsAppMessage :=
      WhatsappTextMessage recipientId (content response).

Definition buildTemplateComponents (params : JsVal) : option (list Component) :=
      if negb (truthy params) || (List.length (Object_entries params) =? 0)%nat
      then None
      else
        let bodyParams :=
          map (fun kv => mkParameter "text" (String_of (snd kv)))
              (filter (fun kv => negb (startsWith_underscore (fst kv)))
                      (Object_entries params)) in
        if (List.length bodyParams =? 0)%nat then None
        else Some [mkComponent "body" bodyParams].

Definition formatTemplate (response : PlatformResponse) (recipientId : string)
      : WhatsAppMessage :=
      if negb (truthy (templateName response))
      then formatText (textResponse (content response)) recipientId
      else
        let components := buildTemplateComponents (templateParams response) in
        WhatsappTemplateMessage recipientId
          (mkTemplate (templateName response) "en_US" components).

Definition format (response : PlatformResponse) (recipientId : string)
      : WhatsAppMessage :=
      if MessageFormat_eqb (format response) TEMPLATE
      then formatTemplate response recipientId
      else formatText response recipientId.

End Formatter.

End WhatsAppFormatter.

(** ** Round 2 of [OpenAIService.processMessageWithTools]: reading the reply *)

Module Round2.

Section Parse.
    (** [JSON.parse]: [None] when it throws a [SyntaxError]. *)
Variable JSON_parse : string -> option JsVal.

Definition fallbackContent : JsVal := JStr "Sorry, I encountered an error.".

    (** The body of the inner [try] once [JSON.parse] has returned. *)
Definition envelopeOfParsed (parsed : JsVal) : Outcome PlatformResponse :=
      match getProp parsed "format" with
      | Thrown e => Thrown e
      | Returned fmt =>
          let format :=
            match fmt with
            | JStr s => if String.eqb s "template" then TEMPLATE else TEXT
            | _ => TEXT
            end in
          match getProp parsed "content", getProp parsed "templateName",
                getProp parsed "templateParams", getProp parsed "imageUrl",
                getProp parsed "caption" with
          | Returned c, Returned tn, Returned tp, Returned img, Returned cap =>
              let response := mkResponse format (js_or c fallbackContent) tn tp
                                         JUndefined JUndefined in
              if truthy img
              then Returned (mkResponse format (js_or c fallbackContent) tn tp img cap)
              else Returned response
          | _, _, _, _, _ => Thrown TypeError
          end
      end.

    (** [try { parsed = JSON.parse(responseContent); ... } catch { text }] *)
Definition parseReply (responseContent : string) : PlatformResponse :=
      match JSON_parse responseContent with
      | None => textResponse (JStr responseContent)
      | Some parsed =>
          match envelopeOfParsed parsed with
          | Returned r => r
          | Thrown _ => textResponse (JStr responseContent)
          end
      end.

End Parse.

End Round2.

(** ** Strings: the built-in string methods the engine calls

    Strings are byte strings.  [String.prototype.trim] and
    [String.prototype.toLowerCase] follow the Unicode tables of the
    JavaScript engine (white space beyond ASCII, case mappings that depend
    on the context): they are fields of the [Host] below.  What they do on
    a text of ASCII characters is written out here: white space is TAB, LF,
    VT, FF, CR and SPACE, and the letters with a lower case are A-Z. *)

Definition is_space (c : ascii) : bool :=
  let n := nat_of_ascii c in
  ((9 <=? n)%nat && (n <=? 13)%nat) || (n =? 32)%nat.

Definition is_upper (c : ascii) : bool :=
  let n := nat_of_ascii c in (65 <=? n)%nat && (n <=? 90)%nat.

Definition toLowerChar (c : ascii) : ascii :=
  if is_upper c then ascii_of_nat (nat_of_ascii c + 32) else c.

Fixpoint asciiLowerCase (s : string) : string :=
  match s with
  | EmptyString => EmptyString
  | String c s' => String (toLowerChar c) (asciiLowerCase s')
  end.

Fixpoint asciiTrimStart (s : string) : string :=
  match s with
  | EmptyString => EmptyString
  | String c s' => if is_space c then asciiTrimStart s' else s
  end.

Fixpoint asciiTrimEnd (s : string) : string :=
  match s with
  | EmptyString => EmptyString
  | String c s' =>
      match asciiTrimEnd s' with
      | EmptyString => if is_space c then EmptyString else String c EmptyString
      | t => String c t
      end
  end.

Definition asciiTrim (s : string) : string := asciiTrimEnd (asciiTrimStart s).

(** A text of ASCII characters. *)
Fixpoint isAscii (s : string) : bool :=
  match s with
  | EmptyString => true
  | String c s' => (nat_of_ascii c <? 128)%nat && isAscii s'
  end.

(** [s.split(sep)] for a one-character separator. *)
Fixpoint split (sep : ascii) (s : string) : list string :=
  match s with
  | EmptyString => [EmptyString]
  | String c s' =>
      if Ascii.eqb c sep then EmptyString :: split sep s'
      else match split sep s' with
           | [] => [String c EmptyString]
           | w :: ws => String c w :: ws
           end
  end.

(** [String(n)] for an integer [n]. *)
Definition string_of_Z (z : Z) : string :=
  match z with
  | Z0 => "0"
  | Zpos p => string_of_nat (Pos.to_nat p)
  | Zneg p => "-" ++ string_of_nat (Pos.to_nat p)
  end.

(** [s.padStart(2, '0')] *)
Definition padStart2 (s : string) : string :=
  match s with
  | EmptyString => "00"
  | String c EmptyString => String "0"%char s
  | _ => s
  end.

(** [a.localeCompare(b)], as the order of the code units: the date keys it
    is applied to are made of digits and hyphens in a fixed layout, where
    the collation order and the code-unit order agree. *)
Definition localeCompare (a b : string) : Z :=
  match String.compare a b with
  | Lt => -1
  | Eq => 0
  | Gt => 1
  end.

(** ** Lists: [Array.prototype.sort], [slice], [Map] *)

Section Arrays.
Context {A : Type}.

  (** [Array.prototype.sort(cmp)] is stable; it is modelled by the stable
      insertion sort, which for a consistent comparator returns the one
      result the language specification allows. *)
Fixpoint sort_insert (cmp : A -> A -> Z) (x : A) (l : list A) : list A :=
    match l with
    | [] => [x]
    | y :: l' => if cmp x y <=? 0 then x :: l else y :: sort_insert cmp x l'
    end.

Definition sort (cmp : A -> A -> Z) (l : list A) : list A :=
    fold_right (sort_insert cmp) [] l.

  (** [l.slice(0, end)] with [end] already converted to an integer. *)
Definition slice0 (l : list A) (relEnd : Z) : list A :=
    let len := Z.of_nat (List.length l) in
    let final := if relEnd <? 0 then Z.max (len + relEnd) 0 else Z.min relEnd len in
    firstn (Z.to_nat final) l.

  (** A [Map<string, A>]: entries in the order of first insertion. *)
Definition map_get (k : string) (m : list (string * A)) : option A := assoc k m.

Fixpoint map_set (k : string) (v : A) (m : list (string * A)) : list (string * A) :=
    match m with
    | [] => [(k, v)]
    | (k', v') :: m' =>
        if String.eqb k k' then (k, v) :: m' else (k', v') :: map_set k v m'
    end.
End Arrays.

(** [ToIntegerOrInfinity] of a finite number: truncation toward zero. *)
Definition ToInteger (q : Q) : Z := Z.quot (Qnum q) (Zpos (Qden q)).

(** A number that is an integer, as the store requires for an integer
    column or a row limit. *)
Definition Q_to_int (q : Q) : option Z :=
  if (Qnum q) mod (Zpos (Qden q)) =? 0 then Some (Qnum q / Zpos (Qden q)) else None.

(** ** Dates

    A [Date] object is an invalid date or a local wall-clock instant: the
    day number of its local calendar day (days since 1970-01-01) and the
    milliseconds elapsed in that day.  Daylight-saving shifts are not
    modelled. *)

Inductive Date : Type :=
| InvalidDate
| LocalTime (day : Z) (ms : Z).

(** Day number of the civil date [y]-[m]-[d], [m] in 1..12 (proleptic
    Gregorian calendar). *)
Definition days_from_civil (y m d : Z) : Z :=
  let y' := if m <=? 2 then y - 1 else y in
  let era := y' / 400 in
  let yoe := y' - era * 400 in
  let doy := (153 * (if 2 <? m then m - 3 else m + 9) + 2) / 5 + d - 1 in
  let doe := yoe * 365 + yoe / 4 - yoe / 100 + doy in
  era * 146097 + doe - 719468.

(** Civil date (year, month 1..12, day of month) of a day number. *)
Definition civil_from_days (z : Z) : Z * Z * Z :=
  let z' := z + 719468 in
  let era := z' / 146097 in
  let doe := z' - era * 146097 in
  let yoe := (doe - doe / 1460 + doe / 36524 - doe / 146096) / 365 in
  let doy := doe - (365 * yoe + yoe / 4 - yoe / 100) in
  let mp := (5 * doy + 2) / 153 in
  let d := doy - (153 * mp + 2) / 5 + 1 in
  let m := if mp <? 10 then mp + 3 else mp - 9 in
  (if m <=? 2 then yoe + era * 400 + 1 else yoe + era * 400, m, d).

(** [TimeClip]: an instant more than 10^8 days from the epoch is invalid. *)
Definition timeClip (day ms : Z) : Date :=
  if (Z.abs (day * 86400000 + ms) <=? 8640000000000000) then LocalTime day ms
  else InvalidDate.

(** [new Date(year, monthIndex, day)] on integers. *)
Definition Date_ymd (year monthIndex day : Z) : Date :=
  let year' := if (0 <=? year) && (year <=? 99) then 1900 + year else year in
  let ym := year' + monthIndex / 12 in
  let mn := monthIndex mod 12 in
  timeClip (days_from_civil ym (mn + 1) 1 + day - 1) 0.

Definition getFullYear (d : Z) : Z := fst (fst (civil_from_days d)).
Definition getMonth (d : Z) : Z := snd (fst (civil_from_days d)) - 1.
Definition getDate (d : Z) : Z := snd (civil_from_days d).
(** 1970-01-01 was a Thursday (index 4). *)
Definition getDay (d : Z) : Z := (d + 4) mod 7.

(** [date.setHours(h, m, s, ms)] given the milliseconds it amounts to. *)
Definition setHours (t : Date) (msOfDay : Z) : Date :=
  match t with
  | InvalidDate => InvalidDate
  | LocalTime day _ => timeClip day msOfDay
  end.

(** [date.setDate(n)]: day [n] of the month of [date], counted from the
    first of that month. *)
Definition setDate (t : Date) (n : Z) : Date :=
  match t with
  | InvalidDate => InvalidDate
  | LocalTime day ms => timeClip (day - getDate day + n) ms
  end.

(** The shared body of [formatLocalDate] and of the [Date] branch of
    [formatDate]: [`${year}-${month}-${day}`] with month and day padded;
    the getters of an invalid date return [NaN]. *)
Definition formatLocalDate (t : Date) : string :=
  match t with
  | InvalidDate => "NaN-NaN-NaN"
  | LocalTime day _ =>
      string_of_Z (getFullYear day) ++ "-" ++
      padStart2 (string_of_Z (getMonth day + 1)) ++ "-" ++
      padStart2 (string_of_Z (getDate day))
  end.

(** The [date] property of an expense entity: the [Date] object it was
    saved with, or the text the driver reads from the DATE column. *)
Inductive DateValue : Type :=
| DObj (t : Date)
| DText (s : string).

Definition formatDate (d : DateValue) : string :=
  match d with
  | DText s => s
  | DObj t => formatLocalDate t
  end.


(** ** Entities and the ledger store

    [user/entity/user.entity.ts] and [expense/entity/expense.entity.ts].
    An absent (NULL) text column is [None]. *)

Record User : Type := mkUser {
  user_id : Z;
  user_name : string;
  phoneNumber : string
}.

Record Expense : Type := mkExpense {
  e_id : Z;
  e_amount : Q;
  e_description : option string;
  e_category : option string;
  e_date : DateValue;
  e_userId : Z;
  e_createdAt : Z
}.

(** The calls the services make on the TypeORM repositories; each of them
    can be rejected by the store. *)
Inductive RepoOp : Type :=
| FindUser
| FindExpense
| QueryExpenses
| SaveExpense
| RemoveExpense.

(** What an invocation can observe: the two tables (rows in insertion
    order), the local clock ([today] is the day number of the current local
    day, [timeOfDay] the milliseconds elapsed in it), the generators of the
    store and the operations the store currently rejects. *)
Record World : Type := mkWorld {
  users : list User;
  expenses : list Expense;
  today : Z;
  timeOfDay : Z;
  nextId : Z;
  stamp : Z;
  faulty : RepoOp -> bool
}.

(** Computations that read and write the world and may throw. *)
Definition M (A : Type) : Type := World -> Outcome A * World.

Definition ret {A : Type} (a : A) : M A := fun w => (Returned a, w).

Definition throw {A : Type} (e : Exn) : M A := fun w => (Thrown e, w).

Definition bind {A B : Type} (c : M A) (k : A -> M B) : M B :=
  fun w =>
    match c w with
    | (Returned a, w') => k a w'
    | (Thrown e, w') => (Thrown e, w')
    end.

(** [try { body } catch (error) { handler }] *)
Definition try_catch {A : Type} (body : M A) (handler : Exn -> M A) : M A :=
  fun w =>
    match body w with
    | (Returned a, w') => (Returned a, w')
    | (Thrown e, w') => handler e w'
    end.

Notation "x <- c ;; k" := (bind c (fun x => k))
  (at level 61, c at next level, right associativity).

(** [new Date()] *)
Definition Date_now : M Date := fun w => (Returned (LocalTime (today w) (timeOfDay w)), w).

(** Built-ins and collaborators whose behaviour lies outside the sources. *)
Record Host : Type := mkHost {
  (** [String(v)], also the conversion inside a template literal *)
  String_of : JsVal -> string;
  (** [Number(s)] of a text; [None] when the result is not finite *)
  Number_of_string : string -> option Q;
  (** [new Date(text)] *)
  Date_parse : string -> Date;
  (** the calendar day the database reads from a date text; [None] when it
      rejects the text *)
  sqlDate : string -> option Z;
  (** the chart label of a date key:
      [new Date(item.date)], then [`${month} ${day}`] with the short month name *)
  dayLabel : string -> string;
  (** [period.replace('_', ' ').replace(/\b\w/g, l => l.toUpperCase())] *)
  titleCase : string -> string;
  (** [((part / whole) * 100).toFixed(1)] *)
  percentage : Q -> Q -> string;
  (** [encodeURIComponent(JSON.stringify(chartConfig))] of the pie and of
      the bar chart built from labels, data, total and title *)
  encodePieConfig : list string -> list Q -> Q -> string -> string;
  encodeBarConfig : list string -> list Q -> Q -> string -> string;
  (** [ExpenseService.getExpensesByCategoryForDateRange], which the
      executor calls but which is not part of the service source at hand:
      taken as a parameter (user id, category, start, end) *)
  getExpensesByCategoryForDateRange :
    Z -> string -> Date -> Date -> World -> Outcome (Q * Z) * World;
  (** [s.trim()] and [s.toLowerCase()] *)
  trim : string -> string;
  toLowerCase : string -> string;
  (** [a + b] on numbers: the addition of IEEE doubles *)
  plus : Q -> Q -> Q
}.

(** [!!s] and [!!n] for an optional text and an optional number. *)
Definition truthyStr (o : option string) : bool :=
  match o with
  | Some s => negb (String.eqb s "")
  | None => false
  end.

Definition truthyNum (o : option Q) : bool :=
  match o with
  | Some q => negb (Qeq_bool q 0)
  | None => false
  end.

(** [expenses.reduce((sum, e) => sum + Number(e.amount), 0)] *)
Definition sumAmounts (H : Host) (l : list Expense) : Q :=
  fold_left (fun sum expense => plus H sum (e_amount expense)) l 0%Q.

(** ** user/user.service.ts *)

Definition findById (id : Z) : M (option User) :=
  fun w =>
    if faulty w FindUser then (Thrown StoreError, w)
    else (Returned (find (fun u => user_id u =? id) (users w)), w).

(** ** expense/expense.service.ts *)

Record CreateExpenseDto : Type := mkDto {
  dto_amount : option Q;
  dto_description : option string;
  dto_category : option string;
  dto_date : option Date;
  dto_user : User
}.

Record Bucket : Type := mkBucket { total : Q; count : Z }.

Record CategoryTotal : Type := mkCategoryTotal {
  c_category : string;
  c_total : Q;
  c_count : Z
}.

Record DailyTotal : Type := mkDailyTotal {
  d_date : string;
  d_total : Q;
  d_count : Z
}.

(** The loop both groupings run over the fetched expenses:
    [existing = map.get(key) || { total: 0, count: 0 }] and then
    [map.set(key, { total: existing.total + amount, count: existing.count + 1 })]. *)
Definition tally_step (H : Host) (key : Expense -> string)
  (m : list (string * Bucket)) (expense : Expense) : list (string * Bucket) :=
  let existing :=
    match map_get (key expense) m with
    | Some b => b
    | None => mkBucket 0%Q 0
    end in
  map_set (key expense)
          (mkBucket (plus H (total existing) (e_amount expense)) (count existing + 1)) m.

Definition tally (H : Host) (key : Expense -> string) (l : list Expense)
  : list (string * Bucket) :=
  fold_left (tally_step H key) l [].

(** [expense.category ? expense.category.trim().toLowerCase() : 'uncategorized'] *)
Definition normalizedCategory (H : Host) (expense : Expense) : string :=
  match e_category expense with
  | Some c => if String.eqb c "" then "uncategorized" else toLowerCase H (trim H c)
  | None => "uncategorized"
  end.

(** The grouping of [getExpensesByCategory] (the part after the fetch). *)
Definition groupByCategory (H : Host) (l : list Expense) : list CategoryTotal :=
  map (fun kv => mkCategoryTotal (fst kv) (total (snd kv)) (count (snd kv)))
      (tally H (normalizedCategory H) l).

(** The grouping and sorting of [getDailyExpenses] (the part after the fetch). *)
Definition groupByDay (H : Host) (l : list Expense) : list DailyTotal :=
  sort (fun a b => localeCompare (d_date a) (d_date b))
       (map (fun kv => mkDailyTotal (fst kv) (total (snd kv)) (count (snd kv)))
            (tally H (fun expense => formatDate (e_date expense)) l)).

Section ExpenseService.
Variable H : Host.

(** The calendar day of a row, as the database orders and compares it. *)
Definition rowDay (e : Expense) : option Z := sqlDate H (formatDate (e_date e)).

(** [ORDER BY date DESC, createdAt DESC] and [ORDER BY createdAt DESC]. *)
Definition byDateDesc (a b : Expense) : Z :=
  match rowDay a, rowDay b with
  | Some da, Some db => if da =? db then e_createdAt b - e_createdAt a else db - da
  | _, _ => 0
  end.

Definition byCreatedDesc (a b : Expense) : Z := e_createdAt b - e_createdAt a.

Definition inDays (lo hi : Z) (e : Expense) : bool :=
  match rowDay e with
  | Some d => (lo <=? d) && (d <=? hi)
  | None => false
  end.

(** [findOne({ where: { id: expenseId, user: { id: userId } } })] *)
Definition expense_findOne (expenseId : Q) (userId : Z) : M (option Expense) :=
  fun w =>
    if faulty w FindExpense then (Thrown StoreError, w)
    else match Q_to_int expenseId with
         | None => (Thrown StoreError, w)
         | Some n =>
             (Returned (find (fun e => (e_id e =? n) && (e_userId e =? userId))
                             (expenses w)), w)
         end.

(** [remove(expense)] *)
Definition expense_remove (expense : Expense) : M unit :=
  fun w =>
    if faulty w RemoveExpense then (Thrown StoreError, w)
    else (Returned tt,
          mkWorld (users w)
                  (filter (fun e => negb (e_id e =? e_id expense)) (expenses w))
                  (today w) (timeOfDay w) (nextId w) (stamp w) (faulty w)).

(** [create] and [save]: the amount column is NOT NULL (entity and initial
    migration give it no default) and the date must be one the database
    accepts.  The entity that comes back keeps the
    [Date] object it was given; the row holds the date text.  The rounding
    of the amount to the two places of the column is left out. *)
Definition expense_save (amount : option Q) (description category : option string)
  (dateToSave : Date) (user : User) : M Expense :=
  fun w =>
    if faulty w SaveExpense then (Thrown StoreError, w)
    else match amount, sqlDate H (formatLocalDate dateToSave) with
         | Some a, Some _ =>
             let saved := mkExpense (nextId w) a description category
                                    (DObj dateToSave) (user_id user) (stamp w) in
             let row := mkExpense (nextId w) a description category
                                  (DText (formatLocalDate dateToSave)) (user_id user)
                                  (stamp w) in
             (Returned saved,
              mkWorld (users w) (expenses w ++ [row]) (today w) (timeOfDay w)
                      (nextId w + 1) (stamp w + 1) (faulty w))
         | _, _ => (Thrown StoreError, w)
         end.

(** [find({ where: { user }, order: { createdAt: 'DESC' }, take })]; a row
    limit that is not a non-negative integer is rejected. *)
Definition expense_find_latest (userId : Z) (take : Q) : M (list Expense) :=
  fun w =>
    if faulty w QueryExpenses then (Thrown StoreError, w)
    else match Q_to_int take with
         | Some n =>
             if n <? 0 then (Thrown StoreError, w)
             else (Returned (firstn (Z.to_nat n)
                              (sort byCreatedDesc
                                 (filter (fun e => e_userId e =? userId) (expenses w)))), w)
         | None => (Thrown StoreError, w)
         end.

(** [find({ where: { user }, order: { date: 'DESC', createdAt: 'DESC' } })] *)
Definition expense_find_all (userId : Z) : M (list Expense) :=
  fun w =>
    if faulty w QueryExpenses then (Thrown StoreError, w)
    else (Returned (sort byDateDesc
                      (filter (fun e => e_userId e =? userId) (expenses w))), w).

(** The query builder of [getExpensesByUserAndDateRange]:
    [userId = :userId AND date >= :startDate AND date <= :endDate],
    ordered by date and creation, newest first. *)
Definition expense_query_range (userId : Z) (startDateStr endDateStr : string)
  : M (list Expense) :=
  fun w =>
    if faulty w QueryExpenses then (Thrown StoreError, w)
    else match sqlDate H startDateStr, sqlDate H endDateStr with
         | Some lo, Some hi =>
             (Returned (sort byDateDesc
                          (filter (fun e => (e_userId e =? userId) && inDays lo hi e)
                                  (expenses w))), w)
         | _, _ => (Thrown StoreError, w)
         end.

(** The query builder of [getTotalExpensesByUserToday]: [date = :today]. *)
Definition expense_query_day (userId : Z) (todayStr : string) : M (list Expense) :=
  fun w =>
    if faulty w QueryExpenses then (Thrown StoreError, w)
    else match sqlDate H todayStr with
         | Some d =>
             (Returned (sort byDateDesc
                          (filter (fun e => (e_userId e =? userId) && inDays d d e)
                                  (expenses w))), w)
         | None => (Thrown StoreError, w)
         end.

(** [SELECT SUM(amount)]: the text of the sum, which the database computes
    in exact decimal arithmetic; absent when there is no row. *)
Definition expense_query_sum (userId : Z) : M (option Q) :=
  fun w =>
    if faulty w QueryExpenses then (Thrown StoreError, w)
    else match filter (fun e => e_userId e =? userId) (expenses w) with
         | [] => (Returned None, w)
         | rows => (Returned (Some (fold_left Qplus (map e_amount rows) 0%Q)), w)
         end.

Definition deleteExpense (expenseId : Q) (userId : Z) : M bool :=
  expense <- expense_findOne expenseId userId ;;
  match expense with
  | None => ret false
  | Some e => _ <- expense_remove e ;; ret true
  end.

(** [new Date(date.getFullYear(), date.getMonth(), date.getDate())] *)
Definition dateOnly (date : Date) : Date :=
  match date with
  | InvalidDate => InvalidDate
  | LocalTime d _ => Date_ymd (getFullYear d) (getMonth d) (getDate d)
  end.

Definition createExpense (dto : CreateExpenseDto) : M Expense :=
  now <- Date_now ;;
  let dateToSave :=
    match dto_date dto with
    | Some date => dateOnly date
    | None => dateOnly now
    end in
  let normalizedCategory :=
    match dto_category dto with
    | Some c => if String.eqb c "" then None else Some (toLowerCase H (trim H c))
    | None => None
    end in
  saved <- expense_save (dto_amount dto) (dto_description dto) normalizedCategory
                        dateToSave (dto_user dto) ;;
  (* the log line calls [saved.date.toISOString()] *)
  match dateToSave with
  | InvalidDate => throw RangeError
  | LocalTime _ _ => ret saved
  end.

Definition getExpensesByUser (userId : Z) (limit : option Q) : M (list Expense) :=
  rows <- expense_find_all userId ;;
  if truthyNum limit
  then match limit with
       | Some n => ret (slice0 rows (ToInteger n))
       | None => ret rows
       end
  else ret rows.

Definition getLatestExpenses (userId : Z) (limit : Q) : M (list Expense) :=
  expense_find_latest userId limit.

Definition getExpensesByUserAndDateRange (userId : Z) (startDate endDate : Date)
  : M (list Expense) :=
  let startDateStr := formatLocalDate startDate in
  let endDateStr := formatLocalDate endDate in
  expense_query_range userId startDateStr endDateStr.

(** [parseFloat(result?.total || '0')] *)
Definition getTotalExpensesByUser (userId : Z) : M Q :=
  result <- expense_query_sum userId ;;
  match result with
  | Some q => ret q
  | None => ret 0%Q
  end.

Definition getTotalExpensesByUserToday (userId : Z) : M Bucket :=
  today <- Date_now ;;
  let todayStr := formatLocalDate today in
  expenses <- expense_query_day userId todayStr ;;
  ret (mkBucket (sumAmounts H expenses) (Z.of_nat (List.length expenses))).

(** [startOfWeek = new Date(today); startOfWeek.setDate(today.getDate() - dayOfWeek)] *)
Definition weekStart (today : Date) : Date :=
  match today with
  | InvalidDate => InvalidDate
  | LocalTime day _ => setDate today (getDate day - getDay day)
  end.

(** [d = new Date(t); d.setDate(t.getDate() + k)] *)
Definition addDays (t : Date) (k : Z) : Date :=
  match t with
  | InvalidDate => InvalidDate
  | LocalTime day _ => setDate t (getDate day + k)
  end.

Definition getTotalExpensesByUserThisWeek (userId : Z) : M Bucket :=
  now <- Date_now ;;
  let today := setHours now 0 in
  let startOfWeek := weekStart today in
  let endOfWeek := addDays startOfWeek 7 in
  expenses <- getExpensesByUserAndDateRange userId startOfWeek endOfWeek ;;
  ret (mkBucket (sumAmounts H expenses) (Z.of_nat (List.length expenses))).

(** [new Date(y, m, 1)] and [new Date(y, m + 1, 0)] of the month of a day. *)
Definition firstOfMonth (day : Z) : Date :=
  Date_ymd (getFullYear day) (getMonth day) 1.

Definition lastOfMonth (day : Z) : Date :=
  Date_ymd (getFullYear day) (getMonth day + 1) 0.

Definition getTotalExpensesByUserThisMonth (userId : Z) : M Bucket :=
  fun w =>
    let startOfMonth := firstOfMonth (today w) in
    let endOfMonth := setHours (lastOfMonth (today w)) 86399999 in
    (expenses <- getExpensesByUserAndDateRange userId startOfMonth endOfMonth ;;
     ret (mkBucket (sumAmounts H expenses) (Z.of_nat (List.length expenses)))) w.

(** [period === text] for an optional text. *)
Definition is_text (period : option string) (text : string) : bool :=
  match period with
  | Some p => String.eqb p text
  | None => false
  end.

Definition getExpensesByCategory (userId : Z) (period : option string)
  : M (list CategoryTotal) :=
  expenses <-
    (if is_text period "this_month" then
       fun w =>
         let startOfMonth := firstOfMonth (today w) in
         let endOfMonth := setHours (lastOfMonth (today w)) 86399999 in
         getExpensesByUserAndDateRange userId startOfMonth endOfMonth w
     else if is_text period "this_week" then
       now <- Date_now ;;
       let today := setHours now 0 in
       let startOfWeek := weekStart today in
       let endOfWeek := addDays startOfWeek 7 in
       getExpensesByUserAndDateRange userId startOfWeek endOfWeek
     else getExpensesByUser userId None) ;;
  ret (groupByCategory H expenses).

Definition getDailyExpenses (userId : Z) (startDate endDate : Date)
  : M (list DailyTotal) :=
  expenses <- getExpensesByUserAndDateRange userId startDate endDate ;;
  ret (groupByDay H expenses).

End ExpenseService.

(** ** chart/chart.service.ts *)

Section ChartService.
Variable H : Host.

Definition quickChartUrl : string := "https://quickchart.io/chart".

(** [data.total || numericData.reduce((sum, val) => sum + val, 0)] *)
Definition chartTotal (data : list Q) (total : Q) : Q :=
  if Qeq_bool total 0 then fold_left (plus H) data 0%Q else total.

Definition generatePieChartUrl (labels : list string) (data : list Q) (total : Q)
  (title : string) : M string :=
  if (List.length labels =? 0)%nat || (List.length data =? 0)%nat
  then throw (ChartError "Chart data is empty or invalid")
  else ret (quickChartUrl ++ "?c=" ++
            encodePieConfig H labels data (chartTotal data total) title).

Definition generateBarChartUrl (labels : list string) (data : list Q) (total : Q)
  (title : string) : M string :=
  if (List.length labels =? 0)%nat || (List.length data =? 0)%nat
  then throw (ChartError "Bar chart data is empty or invalid")
  else ret (quickChartUrl ++ "?c=" ++
            encodeBarConfig H labels data (chartTotal data total) title).

End ChartService.

(** ** expense-handler/expense-handler.service.ts *)

(** The argument bag, read at the types the executor casts it to; a field
    the bag does not carry is [None], fields the executor never reads are
    not represented. *)
Module Args.
Record t : Type := mk {
  amount : option Q;
  description : option string;
  category : option string;
  date : option string;
  expenseId : option Q;
  limit : option Q;
  startDate : option string;
  endDate : option string;
  period : option string
}.
Definition empty : t := mk None None None None None None None None None.
End Args.

(** The capability names declared by [getAvailableTools]. *)
Definition capabilityNames : list string :=
  [ "add_expense"; "delete_expense"; "get_total_expenses_today";
    "get_total_expenses_this_week"; "get_total_expenses_this_month";
    "get_latest_expenses"; "get_total_expenses_all_time"; "get_all_expenses";
    "get_expenses_by_date_range"; "get_total_expenses_by_date_range";
    "generate_expense_report"; "generate_daily_expense_chart" ].

(** The fields [required] by the declared argument schema of a capability. *)
Definition requiredArguments (functionName : string) : list string :=
  if String.eqb functionName "add_expense" then ["amount"]
  else if String.eqb functionName "get_expenses_by_date_range" then ["startDate"]
  else if String.eqb functionName "get_total_expenses_by_date_range" then ["startDate"]
  else [].

(** An absent text is rendered as [null], the value read from the store. *)
Definition optText (o : option string) : JsVal :=
  match o with
  | Some s => JStr s
  | None => JNull
  end.

Definition failure (reason : string) : JsVal :=
  JObj [("success", JBool false); ("error", JStr reason)].

(** [{ amount, description, category, date: this.formatDate(exp.date) }] *)
Definition expenseView (exp : Expense) : JsVal :=
  JObj [("amount", JNum (e_amount exp));
        ("description", optText (e_description exp));
        ("category", optText (e_category exp));
        ("date", JStr (formatDate (e_date exp)))].

Definition dailyView (item : DailyTotal) : JsVal :=
  JObj [("date", JStr (d_date item)); ("total", JNum (d_total item));
        ("count", JNum (inject_Z (d_count item)))].

Definition countOf {A : Type} (l : list A) : JsVal :=
  JNum (inject_Z (Z.of_nat (List.length l))).

(** The value of an optional field on a branch where it is truthy. *)
Definition textOf (o : option string) : string :=
  match o with
  | Some s => s
  | None => ""
  end.

Definition numOf (o : option Q) : Q :=
  match o with
  | Some q => q
  | None => 0%Q
  end.

Definition isEmpty {A : Type} (l : list A) : bool := (List.length l =? 0)%nat.

Section ExpenseHandler.
Variable H : Host.

(** [dateStr.split('-').map(Number)] destructured into year, month, day,
    then [new Date(year, month - 1, day)]. *)
Definition parseLocalDate (dateStr : string) : Date :=
  match map (Number_of_string H) (split "-"%char dateStr) with
  | Some year :: Some month :: Some day :: _ =>
      Date_ymd (ToInteger year) (ToInteger (month - 1)%Q) (ToInteger day)
  | _ => InvalidDate
  end.

(** [date.toISOString()] inside a log line: a [RangeError] on an invalid date. *)
Definition log_toISOString (d : Date) : M unit :=
  match d with
  | InvalidDate => throw RangeError
  | LocalTime _ _ => ret tt
  end.

(** The four cases whose body sits in a [try]: the body of the [try]
    first, then the case with its [catch]. *)
Definition try_add_expense (args : Args.t) (user : User) (userId : Z) : M JsVal :=
  date <- (if truthyStr (Args.date args)
           then ret (Date_parse H (textOf (Args.date args)))
           else Date_now) ;;
  expense <- createExpense H (mkDto (Args.amount args) (Args.description args)
                                    (Args.category args) (Some date) user) ;;
  monthlyData <- getTotalExpensesByUserThisMonth H userId ;;
  ret (JObj [("success", JBool true);
             ("expense", expenseView expense);
             ("monthlyTotal", JNum (total monthlyData));
             ("monthlyCount", JNum (inject_Z (count monthlyData)))]).

Definition case_add_expense (args : Args.t) (user : User) (userId : Z) : M JsVal :=
  try_catch (try_add_expense args user userId)
            (fun _ => ret (failure "Failed to save expense")).

(** The tail of the [delete_expense] case once [expenseId] is resolved. *)
Definition delete_resolved (expenseId : Q) (userId : Z) : M JsVal :=
  deleted <- deleteExpense expenseId userId ;;
  if negb deleted
  then ret (failure "Expense not found or you do not have permission to delete it")
  else ret (JObj [("success", JBool true);
                  ("message", JStr ("Expense " ++ String_of H (JNum expenseId)
                                    ++ " deleted successfully"));
                  ("expenseId", JNum expenseId)]).

Definition try_delete_expense (args : Args.t) (userId : Z) : M JsVal :=
  if negb (truthyNum (Args.expenseId args))
  then
    latestExpenses <- getLatestExpenses userId 1 ;;
    match latestExpenses with
    | [] => ret (failure "No expenses found to delete")
    | latest :: _ => delete_resolved (inject_Z (e_id latest)) userId
    end
  else delete_resolved (numOf (Args.expenseId args)) userId.

Definition case_delete_expense (args : Args.t) (userId : Z) : M JsVal :=
  try_catch (try_delete_expense args userId)
            (fun _ => ret (failure "Failed to delete expense")).

Definition periodResult (data : Bucket) (period : string) : JsVal :=
  JObj [("total", JNum (total data)); ("count", JNum (inject_Z (count data)));
        ("period", JStr period)].

Definition case_get_total_expenses_today (userId : Z) : M JsVal :=
  data <- getTotalExpensesByUserToday H userId ;;
  ret (periodResult data "today").

Definition case_get_total_expenses_this_week (userId : Z) : M JsVal :=
  data <- getTotalExpensesByUserThisWeek H userId ;;
  ret (periodResult data "this week").

Definition case_get_total_expenses_this_month (userId : Z) : M JsVal :=
  data <- getTotalExpensesByUserThisMonth H userId ;;
  ret (periodResult data "this month").

Definition case_get_latest_expenses (args : Args.t) (userId : Z) : M JsVal :=
  let limit := if truthyNum (Args.limit args) then numOf (Args.limit args) else 5%Q in
  expenses <- getLatestExpenses userId limit ;;
  ret (JObj [("expenses", JArr (map expenseView expenses));
             ("count", countOf expenses)]).

Definition case_get_total_expenses_all_time (userId : Z) : M JsVal :=
  total <- getTotalExpensesByUser userId ;;
  ret (JObj [("total", JNum total); ("period", JStr "all time")]).

Definition case_get_all_expenses (args : Args.t) (userId : Z) : M JsVal :=
  expenses <- getExpensesByUser H userId (Args.limit args) ;;
  let total := sumAmounts H expenses in
  ret (JObj [("expenses", JArr (map expenseView expenses));
             ("total", JNum total);
             ("count", countOf expenses)]).

(** [rangeArgs.endDate ? parseLocalDate(rangeArgs.endDate) : new Date()] *)
Definition endDateOf (args : Args.t) : M Date :=
  if truthyStr (Args.endDate args)
  then ret (parseLocalDate (textOf (Args.endDate args)))
  else Date_now.

(** [rangeArgs.endDate || this.formatDate(new Date())] *)
Definition endDateText (args : Args.t) : M string :=
  if truthyStr (Args.endDate args)
  then ret (textOf (Args.endDate args))
  else (now <- Date_now ;; ret (formatLocalDate now)).

Definition case_get_expenses_by_date_range (args : Args.t) (userId : Z) : M JsVal :=
  match Args.startDate args with
  | None => throw TypeError (* [undefined.split] *)
  | Some startText =>
      let startDate := parseLocalDate startText in
      endDate <- endDateOf args ;;
      _ <- log_toISOString startDate ;;
      _ <- log_toISOString endDate ;;
      expenses <- getExpensesByUserAndDateRange H userId startDate endDate ;;
      let limitedExpenses :=
        if truthyNum (Args.limit args)
        then slice0 expenses (ToInteger (numOf (Args.limit args)))
        else expenses in
      let total := sumAmounts H limitedExpenses in
      endText <- endDateText args ;;
      ret (JObj [("expenses", JArr (map expenseView limitedExpenses));
                 ("total", JNum total);
                 ("count", countOf limitedExpenses);
                 ("startDate", JStr startText);
                 ("endDate", JStr endText)])
  end.

Definition case_get_total_expenses_by_date_range (args : Args.t) (userId : Z)
  : M JsVal :=
  match Args.startDate args with
  | None => throw TypeError (* [undefined.split] *)
  | Some startText =>
      let startDate := parseLocalDate startText in
      endDate <- endDateOf args ;;
      if truthyStr (Args.category args)
      then
        categoryData <-
          getExpensesByCategoryForDateRange H userId (textOf (Args.category args))
                                            startDate endDate ;;
        endText <- endDateText args ;;
        ret (JObj [("total", JNum (fst categoryData));
                   ("count", JNum (inject_Z (snd categoryData)));
                   ("category", JStr (textOf (Args.category args)));
                   ("startDate", JStr startText);
                   ("endDate", JStr endText)])
      else
        expenses <- getExpensesByUserAndDateRange H userId startDate endDate ;;
        let total := sumAmounts H expenses in
        endText <- endDateText args ;;
        ret (JObj [("total", JNum total);
                   ("count", countOf expenses);
                   ("startDate", JStr startText);
                   ("endDate", JStr endText)])
  end.

(** [new Date(t.getFullYear(), t.getMonth() + k, d)] *)
Definition monthDay (t : Date) (k d : Z) : Date :=
  match t with
  | InvalidDate => InvalidDate
  | LocalTime day _ => Date_ymd (getFullYear day) (getMonth day + k) d
  end.

(** The start and end dates the daily chart is drawn for. *)
Definition chartRange (args : Args.t) : M (Date * Date) :=
  if truthyStr (Args.startDate args) && truthyStr (Args.endDate args)
  then ret (parseLocalDate (textOf (Args.startDate args)),
            parseLocalDate (textOf (Args.endDate args)))
  else if truthyStr (Args.period args)
  then
    today <- Date_now ;;
    if is_text (Args.period args) "this_month"
    then ret (monthDay today 0 1, monthDay today 1 0)
    else if is_text (Args.period args) "this_week"
    then
      let today := setHours today 0 in
      ret (weekStart today, today)
    else if is_text (Args.period args) "last_month"
    then
      let lastMonth := monthDay today (-1) 1 in
      ret (monthDay lastMonth 0 1, monthDay lastMonth 1 0)
    else
      let today := setHours today 0 in
      let endDate :=
        match today with
        | InvalidDate => InvalidDate
        | LocalTime day _ => setDate today (getDate day - getDay day - 1)
        end in
      let startDate := addDays endDate (-6) in
      ret (startDate, endDate)
  else
    today <- Date_now ;;
    ret (monthDay today 0 1, monthDay today 1 0).

Definition try_generate_daily_expense_chart (args : Args.t) (userId : Z)
  : M JsVal :=
  range <- chartRange args ;;
  let startDate := fst range in
  let endDate := snd range in
  dailyData <- getDailyExpenses H userId startDate endDate ;;
  if isEmpty dailyData
  then ret (failure "No expenses found for the selected period")
  else
    let labels := map (fun item => dayLabel H (d_date item)) dailyData in
    let data := map d_total dailyData in
    let total := fold_left (fun sum item => plus H sum (d_total item)) dailyData 0%Q in
    let periodTitle :=
      if truthyStr (Args.period args)
      then titleCase H (textOf (Args.period args))
      else "Selected Period" in
    chartUrl <- generateBarChartUrl H labels data total
                  ("Daily Expenses - " ++ periodTitle) ;;
    ret (JObj [("success", JBool true);
               ("chartUrl", JStr chartUrl);
               ("dailyData", JArr (map dailyView dailyData));
               ("total", JNum total);
               ("startDate", JStr (formatLocalDate startDate));
               ("endDate", JStr (formatLocalDate endDate))]).

Definition case_generate_daily_expense_chart (args : Args.t) (userId : Z) : M JsVal :=
  try_catch (try_generate_daily_expense_chart args userId)
            (fun _ => ret (failure "Failed to generate chart")).

Definition try_generate_expense_report (args : Args.t) (userId : Z) : M JsVal :=
  let period :=
    if truthyStr (Args.period args) then textOf (Args.period args)
    else "this_month" in
  categoryData <- getExpensesByCategory H userId (Some period) ;;
  if isEmpty categoryData
  then ret (failure "No expenses found for the selected period")
  else
    let labels :=
      map (fun item => if String.eqb (c_category item) "" then "Uncategorized"
                       else c_category item) categoryData in
    let data := map c_total categoryData in
    let total := fold_left (fun sum item => plus H sum (c_total item)) categoryData 0%Q in
    let totalCount := fold_left (fun sum item => sum + c_count item) categoryData 0 in
    let periodTitle :=
      if String.eqb period "this_month" then "This Month"
      else if String.eqb period "this_week" then "This Week"
      else "All Time" in
    chartUrl <- generatePieChartUrl H labels data total
                  ("Expense Report - " ++ periodTitle) ;;
    ret (JObj [("success", JBool true);
               ("chartUrl", JStr chartUrl);
               ("period", JStr period);
               ("categoryData",
                JArr (map (fun item =>
                             JObj [("category", JStr (c_category item));
                                   ("total", JNum (c_total item));
                                   ("count", JNum (inject_Z (c_count item)));
                                   ("percentage",
                                    JStr (percentage H (c_total item) total))])
                          categoryData));
               ("total", JNum total);
               ("totalCount", JNum (inject_Z totalCount))]).

Definition case_generate_expense_report (args : Args.t) (userId : Z) : M JsVal :=
  try_catch (try_generate_expense_report args userId)
            (fun _ => ret (failure "Failed to generate report")).

Definition executeFunction (functionName : string) (args : Args.t) (userId : Z)
  : M JsVal :=
  user <- findById userId ;;
  match user with
  | None => ret (JObj [("error", JStr "Couldn't find your user account")])
  | Some user =>
      if String.eqb functionName "add_expense"
      then case_add_expense args user userId
      else if String.eqb functionName "delete_expense"
      then case_delete_expense args userId
      else if String.eqb functionName "get_total_expenses_today"
      then case_get_total_expenses_today userId
      else if String.eqb functionName "get_total_expenses_this_week"
      then case_get_total_expenses_this_week userId
      else if String.eqb functionName "get_total_expenses_this_month"
      then case_get_total_expenses_this_month userId
      else if String.eqb functionName "get_latest_expenses"
      then case_get_latest_expenses args userId
      else if String.eqb functionName "get_total_expenses_all_time"
      then case_get_total_expenses_all_time userId
      else if String.eqb functionName "get_all_expenses"
      then case_get_all_expenses args userId
      else if String.eqb functionName "get_expenses_by_date_range"
      then case_get_expenses_by_date_range args userId
      else if String.eqb functionName "get_total_expenses_by_date_range"
      then case_get_total_expenses_by_date_range args userId
      else if String.eqb functionName "generate_daily_expense_chart"
      then case_generate_daily_expense_chart args userId
      else if String.eqb functionName "generate_expense_report"
      then case_generate_expense_report args userId
      else ret (JObj [("error", JStr ("Unknown function: " ++ functionName))])
  end.

End ExpenseHandler.

(** ** openai/openai.service.ts: [processMessageWithTools] *)

Record ToolCall : Type := mkToolCall {
  tc_id : string;
  tc_type : string;
  tc_name : string;
  tc_arguments : string
}.

(** [completion.choices[0]?.message] of a completion that has one. *)
Record ChatMessage : Type := mkChatMessage {
  m_content : option string;
  m_tool_calls : option (list ToolCall)
}.

(** [{ role: 'tool', tool_call_id, content }] *)
Record ToolMessage : Type := mkToolMessage {
  tool_call_id : string;
  tool_content : string
}.

Definition quote : string := String "034"%char EmptyString.

(** The reply text used when the second completion carries no content. *)
Definition defaultReplyText : string :=
  "{" ++ quote ++ "format" ++ quote ++ ":" ++ quote ++ "text" ++ quote ++ ","
      ++ quote ++ "content" ++ quote ++ ":" ++ quote
      ++ "Sorry, I encountered an error." ++ quote ++ "}".

Definition noToolsText : string :=
  "I'm not sure how to help with that. Try asking about your expenses or adding a new expense.".

Definition fallbackText : string :=
  "Sorry, I encountered an error processing your request. Please try again.".

Definition lift {A : Type} (o : Outcome A) : M A := fun w => (o, w).

Section Orchestrator.
(** [JSON.parse] of the reply and of the arguments of a tool call (read as
    an argument bag), [None] on a [SyntaxError]; [JSON.stringify]. *)
Variable JSON_parse : string -> option JsVal.
Variable parseArguments : string -> option Args.t.
Variable JSON_stringify : JsVal -> string.
(** The two completions of the language model: the first answers the user
    message, the second the tool results; either call can be rejected. *)
Variable round1 : Outcome (option ChatMessage).
Variable round2 : list ToolMessage -> Outcome (option string).
Variable executeFunction : string -> Args.t -> M JsVal.

Definition runToolCall (toolCall : ToolCall) : M (option ToolMessage) :=
  if String.eqb (tc_type toolCall) "function"
  then
    let functionName := tc_name toolCall in
    match parseArguments (if String.eqb (tc_arguments toolCall) "" then "{}"
                          else tc_arguments toolCall) with
    | None => throw SyntaxError
    | Some args =>
        result <- executeFunction functionName args ;;
        ret (Some (mkToolMessage (tc_id toolCall) (JSON_stringify result)))
    end
  else ret None.

(** [Promise.all(toolCalls.map(async toolCall => ...))]: [map] starts every
    call, and every call runs to its end whether or not another one is
    rejected.  The calls are taken in the order of the list; how their
    accesses to the store interleave is not modelled.  The whole is rejected
    as soon as one call is, with the exception of the first call of the list
    that threw; otherwise it gives the results in the order of the list. *)
Fixpoint runToolCalls (toolCalls : list ToolCall) : M (list (option ToolMessage)) :=
  match toolCalls with
  | [] => ret []
  | toolCall :: rest =>
      fun w =>
        let (r, w1) := runToolCall toolCall w in
        let (rs, w2) := runToolCalls rest w1 in
        (match r, rs with
         | Thrown e, _ => Thrown e
         | Returned _, Thrown e => Thrown e
         | Returned m, Returned ms => Returned (m :: ms)
         end, w2)
  end.

Definition validResults (results : list (option ToolMessage)) : list ToolMessage :=
  flat_map (fun r => match r with Some m => [m] | None => [] end) results.

Definition toolCallsOf (messageResponse : option ChatMessage) : list ToolCall :=
  match messageResponse with
  | Some m => match m_tool_calls m with Some l => l | None => [] end
  | None => []
  end.

Definition processMessageWithTools : M PlatformResponse :=
  try_catch
    (messageResponse <- lift round1 ;;
     let toolCalls := toolCallsOf messageResponse in
     if negb (isEmpty toolCalls)
     then
       results <- runToolCalls toolCalls ;;
       final <- lift (round2 (validResults results)) ;;
       let responseContent :=
         if truthyStr final then textOf final else defaultReplyText in
       ret (Round2.parseReply JSON_parse responseContent)
     else
       let content :=
         match messageResponse with
         | Some m => if truthyStr (m_content m) then textOf (m_content m)
                     else noToolsText
         | None => noToolsText
         end in
       ret (textResponse (JStr content)))
    (fun _ => ret (textResponse (JStr fallbackText))).

End Orchestrator.

(** ** A reference host and a sample ledger

    One concrete choice of the built-ins, used to run the engine on sample
    inputs: it agrees with the built-ins on the texts and numbers of the
    samples (decimal integers, ISO dates, category texts of ASCII
    characters, amounts that are small integers, whose sums are exact). *)

Fixpoint parse_digits (s : string) (acc : Z) : option Z :=
  match s with
  | EmptyString => Some acc
  | String c s' =>
      let n := Z.of_nat (nat_of_ascii c) in
      if (48 <=? n) && (n <=? 57) then parse_digits s' (acc * 10 + (n - 48)) else None
  end.

Definition decimalNumber (s : string) : option Z :=
  match s with
  | EmptyString => None
  | _ => parse_digits s 0
  end.

(** The day number of an ISO date text [YYYY-MM-DD] of a real calendar day. *)
Definition isoDay (s : string) : option Z :=
  match map decimalNumber (split "-"%char s) with
  | [Some y; Some m; Some d] =>
      let n := days_from_civil y m d in
      if (1 <=? m) && (m <=? 12) && (1 <=? d)
         && (let '(y', m', d') := civil_from_days n in
             (y' =? y) && (m' =? m) && (d' =? d))
      then Some n else None
  | _ => None
  end.

Definition refString (v : JsVal) : string :=
  match v with
  | JStr s => s
  | JNum q => string_of_Z (ToInteger q)
  | _ => ""
  end.

Definition refHost : Host :=
  mkHost refString
         (fun s => option_map inject_Z (decimalNumber s))
         (fun s => match isoDay s with Some d => LocalTime d 0 | None => InvalidDate end)
         isoDay
         (fun s => s)
         (fun s => s)
         (fun _ _ => "")
         (fun _ _ _ title => title)
         (fun _ _ _ title => title)
         (fun _ _ _ _ w => (Thrown StoreError, w))
         asciiTrim
         asciiLowerCase
         Qplus.

Definition healthy : RepoOp -> bool := fun _ => false.

Definition alice : User := mkUser 1 "Alice" "15550001".

(** Wednesday 2025-11-05 is day 20397. *)
Definition wednesday : Z := 20397.

Definition sampleWorld (rows : list Expense) (faults : RepoOp -> bool) : World :=
  mkWorld [alice] rows wednesday 36000000 100 100 faults.

(** Sample rows of the owner: two on Monday 2025-11-03, one on Saturday
    2025-11-01 and one on Sunday 2025-11-09. *)
Definition lunch : Expense :=
  mkExpense 7 25 (Some "lunch") (Some "Food") (DText "2025-11-03") 1 50.

Definition snack : Expense :=
  mkExpense 8 10 None (Some " food ") (DText "2025-11-01") 1 51.

Definition taxi : Expense :=
  mkExpense 9 4 None None (DText "2025-11-03") 1 52.

Definition brunch : Expense :=
  mkExpense 10 25 (Some "brunch") (Some "food") (DText "2025-11-09") 1 53.

(** ** Vocabulary of the properties *)

(** A structured failure result carrying [reason] in its [error] field. *)
Definition hasError (reason : string) (v : JsVal) : Prop :=
  getProp v "error" = Returned (JStr reason).

(** An invocation that ends in a failure: an exception, or a result with
    an [error] field. *)
Definition failed (o : Outcome JsVal) : Prop :=
  match o with
  | Thrown _ => True
  | Returned v => getProp v "error" <> Returned JUndefined
  end.

(** The store answers every call. *)
Definition Healthy (w : World) : Prop := forall op, faulty w op = false.

(** Two characters that are the same letter in different case. *)
Definition caseVariant (a b : ascii) : Prop :=
  (65 <= nat_of_ascii a <= 90)%nat /\ nat_of_ascii b = (nat_of_ascii a + 32)%nat.

(** One elementary difference in case or in surrounding white space. *)
Inductive categoryEdit : string -> string -> Prop :=
| edit_pad_left : forall c s, is_space c = true -> categoryEdit s (String c s)
| edit_pad_right : forall c s,
    is_space c = true -> categoryEdit s (s ++ String c EmptyString)
| edit_case : forall pre a b post,
    caseVariant a b -> categoryEdit (pre ++ String a post) (pre ++ String b post).

(** Category texts that differ only by letter case and by leading or
    trailing white space. *)
Inductive SameCategoryText : string -> string -> Prop :=
| same_refl : forall s, SameCategoryText s s
| same_edit : forall s t, categoryEdit s t -> SameCategoryText s t
| same_sym : forall s t, SameCategoryText s t -> SameCategoryText t s
| same_trans : forall s t u,
    SameCategoryText s t -> SameCategoryText t u -> SameCategoryText s u.

(** The expenses a grouping key selects, and what their bucket holds. *)
Definition selected (key : Expense -> string) (k : string) (l : list Expense)
  : list Expense :=
  filter (fun e => String.eqb (key e) k) l.


(** What one expense adds to its bucket. *)
Definition bump (H : Host) (b : Bucket) (e : Expense) : Bucket :=
  mkBucket (plus H (total b) (e_amount e)) (count b + 1).

Definition orZero (o : option Bucket) : Bucket :=
  match o with
  | Some b => b
  | None => mkBucket 0%Q 0
  end.

(** Texts that agree character by character up to case, with white space
    in the same places. *)
Inductive caseEq : string -> string -> Prop :=
| caseEq_nil : caseEq EmptyString EmptyString
| caseEq_cons : forall a b s t,
    toLowerChar a = toLowerChar b -> is_space a = is_space b ->
    caseEq s t -> caseEq (String a s) (String b t).

(** The rows of an owner, and the world once the row with an id is removed. *)
Definition ownedBy (userId : Z) (w : World) : list Expense :=
  filter (fun e => e_userId e =? userId) (expenses w).

Definition withoutId (n : Z) (w : World) : World :=
  mkWorld (users w) (filter (fun e => negb (e_id e =? n)) (expenses w))
          (today w) (timeOfDay w) (nextId w) (stamp w) (faulty w).

(** The success result of [delete_expense] for the expense with id [n]. *)
Definition deleted (H : Host) (n : Z) : JsVal :=
  JObj [("success", JBool true);
        ("message", JStr ("Expense " ++ String_of H (JNum (inject_Z n))
                          ++ " deleted successfully"));
        ("expenseId", JNum (inject_Z n))].

(** The two not-found results of [delete_expense]. *)
Definition notFound (v : JsVal) : Prop :=
  hasError "No expenses found to delete" v
  \/ hasError "Expense not found or you do not have permission to delete it" v.

(** The argument bag without its [expenseId]. *)
Definition withoutExpenseId (args : Args.t) : Args.t :=
  Args.mk (Args.amount args) (Args.description args) (Args.category args)
          (Args.date args) None (Args.limit args) (Args.startDate args)
          (Args.endDate args) (Args.period args).

(** [new Date()] as a value of the world. *)
Definition nowOf (w : World) : Date := LocalTime (today w) (timeOfDay w).

(** The end date a range operation uses, and the end text it reports. *)
Definition rangeEnd (H : Host) (args : Args.t) (w : World) : Date :=
  if truthyStr (Args.endDate args)
  then parseLocalDate H (textOf (Args.endDate args))
  else nowOf w.

Definition rangeEndText (args : Args.t) (w : World) : string :=
  if truthyStr (Args.endDate args)
  then textOf (Args.endDate args)
  else formatLocalDate (nowOf w).

(** A range whose start is nine days after its end. *)
Definition reversedArgs : Args.t :=
  Args.mk None None None None None None (Some "2025-11-10") (Some "2025-11-01") None.






Definition usersDown : RepoOp -> bool :=
  fun op => match op with FindUser => true | _ => false end.

(** The result of the executor when the account is not found. *)
Definition accountNotFound : JsVal :=
  JObj [("error", JStr "Couldn't find your user account")].

(** A host whose [trim] and [toLowerCase] act on the texts of ASCII
    characters as the language specification says. *)
Definition asciiHost (H : Host) : Prop :=
  forall s, isAscii s = true ->
            trim H s = asciiTrim s /\ toLowerCase H s = asciiLowerCase s.

(** A day number whose instant [Date] can represent, in the year 100 or
    later (the [Date] constructor reads the years 0 to 99 as 1900 to 1999). *)
Definition representable (d : Z) : Prop := -100000000 <= d <= 100000000.







(** ** Further parts of the sources

    The Telegram formatter and the response handler service, the colour
    palette of the chart service, the user service and the WhatsApp webhook
    service. *)

(** *** response-handler/formatters/telegram.formatter.ts *)

Module TelegramFormatter.

(** [parse_mode] and [reply_markup] are never set. *)
Record TelegramMessage : Type := mkTelegramMessage {
  chat_id : string;
  text : JsVal
}.

(** Both branches of the switch ([TEXT] and [default]) build the same message. *)
Definition format (response : PlatformResponse) (chatId : string) : TelegramMessage :=
  mkTelegramMessage chatId (content response).

End TelegramFormatter.

(** *** response-handler/response-handler.service.ts *)

Inductive Platform : Type := WHATSAPP | TELEGRAM.

Inductive PlatformMessage : Type :=
| ForWhatsApp (m : WhatsAppFormatter.WhatsAppMessage)
| ForTelegram (m : TelegramFormatter.TelegramMessage).

(** The [default] branch of the switch throws; no value of the enumeration
    reaches it. *)
Definition formatForPlatform (String_of : JsVal -> string)
  (response : PlatformResponse) (platform : Platform) (recipientId : string)
  : PlatformMessage :=
  match platform with
  | WHATSAPP => ForWhatsApp (WhatsAppFormatter.format String_of response recipientId)
  | TELEGRAM => ForTelegram (TelegramFormatter.format response recipientId)
  end.

Definition createTextResponse (content : string) : PlatformResponse :=
  mkResponse TEXT (JStr content) JUndefined JUndefined JUndefined JUndefined.

Definition createTemplateResponse (content templateName : string)
  (templateParams : JsVal) : PlatformResponse :=
  mkResponse TEMPLATE (JStr content) (JStr templateName) templateParams
             JUndefined JUndefined.

(** *** chart/chart.service.ts: [generateColors] *)

Definition colors : list string :=
  [ "#FF6384"; "#36A2EB"; "#FFCE56"; "#4BC0C0"; "#9966FF"; "#FF9F40";
    "#FF6384"; "#C9CBCF"; "#4BC0C0"; "#FF6384"; "#36A2EB"; "#FFCE56" ].

(** The loop [for (let i = 0; i < count; i++) result.push(colors[i % colors.length])],
    with [todo] iterations left. *)
Fixpoint generateColors_from (i todo : nat) (result : list string) : list string :=
  match todo with
  | O => result
  | S todo' =>
      generateColors_from (S i) todo'
        (result ++ [nth (Nat.modulo i (List.length colors)) colors ""])
  end.

Definition generateColors (count : nat) : list string :=
  generateColors_from 0 count [].

(** *** The webhook service and the user service

    What these two services add to the world: the generator of user ids,
    whether the store rejects the insertion of a user, and the messages
    posted to the WhatsApp API (each with the phone-number id it is posted
    through). *)

Record Outbound : Type := mkOutbound {
  via : string;
  message : WhatsAppFormatter.WhatsAppMessage
}.

Record Service : Type := mkService {
  world : World;
  nextUserId : Z;
  userSaveFails : bool;
  outbox : list Outbound
}.

Definition Svc (A : Type) : Type := Service -> Outcome A * Service.

(** A computation on the world, run inside the service state. *)
Definition onWorld {A : Type} (c : M A) : Svc A :=
  fun s =>
    let (o, w') := c (world s) in
    (o, mkService w' (nextUserId s) (userSaveFails s) (outbox s)).

Definition s_ret {A : Type} (a : A) : Svc A := fun s => (Returned a, s).

Definition s_bind {A B : Type} (c : Svc A) (k : A -> Svc B) : Svc B :=
  fun s =>
    match c s with
    | (Returned a, s') => k a s'
    | (Thrown e, s') => (Thrown e, s')
    end.

Definition s_try_catch {A : Type} (body : Svc A) (handler : Exn -> Svc A) : Svc A :=
  fun s =>
    match body s with
    | (Returned a, s') => (Returned a, s')
    | (Thrown e, s') => handler e s'
    end.

(** *** user/user.service.ts: [findOrCreateByPhoneNumber] *)

Definition withUsers (us : list User) (w : World) : World :=
  mkWorld us (expenses w) (today w) (timeOfDay w) (nextId w) (stamp w) (faulty w).

Definition findOrCreateByPhoneNumber (phone : string) (name : option string)
  : Svc User :=
  fun s =>
    if faulty (world s) FindUser then (Thrown StoreError, s)
    else match find (fun u => String.eqb (phoneNumber u) phone) (users (world s)) with
         | Some user => (Returned user, s)
         | None =>
             if userSaveFails s then (Thrown StoreError, s)
             else
               let user :=
                 mkUser (nextUserId s)
                        (if truthyStr name then textOf name else "User " ++ phone)
                        phone in
               (Returned user,
                mkService (withUsers (users (world s) ++ [user]) (world s))
                          (nextUserId s + 1) (userSaveFails s) (outbox s))
         end.

(** *** whatsapp/dto/whatsapp-message.dto.ts *)

Record Metadata : Type := mkMetadata {
  display_phone_number : string;
  phone_number_id : string
}.

Record Contact : Type := mkContact { wa_id : string }.

(** [msg_body] is [message.text?.body]. *)
Record InboundMessage : Type := mkInbound {
  msg_from : string;
  msg_type : string;
  msg_body : option string
}.

Record ChangeValue : Type := mkChangeValue {
  metadata : Metadata;
  contacts : option (list Contact);
  messages : option (list InboundMessage)
}.

(** The body of the webhook call: its entries, each with the values of its
    changes. *)
Definition WhatsappMessageDto : Type := list (list ChangeValue).

Inductive HandlingStatus : Type :=
| StatusIgnored
| StatusProcessed
| StatusError.

(** [list?.[0]] *)
Definition firstOf {A : Type} (l : option (list A)) : option A :=
  match l with
  | Some (x :: _) => Some x
  | _ => None
  end.

Definition errorReplyText : string :=
  "Sorry, I encountered an error processing your message. Please try again.".

Section WhatsappService.
Variable H : Host.
Variable JSON_parse : string -> option JsVal.
Variable parseArguments : string -> option Args.t.
Variable JSON_stringify : JsVal -> string.
(** The two completions of the language model for a given user message. *)
Variable round1 : string -> Outcome (option ChatMessage).
Variable round2 : string -> list ToolMessage -> Outcome (option string).

(** [ExpenseHandlerService.processMessage] *)
Definition processMessage (messageText : string) (userId : Z) : M PlatformResponse :=
  processMessageWithTools JSON_parse parseArguments JSON_stringify
    (round1 messageText) (round2 messageText)
    (fun functionName args => executeFunction H functionName args userId).

(** [sendWhatsappMessage]: the POST is attempted; its failure is logged and
    not thrown. *)
Definition sendWhatsappMessage (phoneNumberId : string)
  (m : WhatsAppFormatter.WhatsAppMessage) : Svc unit :=
  fun s =>
    (Returned tt,
     mkService (world s) (nextUserId s) (userSaveFails s)
               (outbox s ++ [mkOutbound phoneNumberId m])).

(** The part of [handleIncomingMessage] after the guards. *)
Definition replyTo (contact : Contact) (phoneNumberId messageText : string)
  : Svc HandlingStatus :=
  s_try_catch
    (s_bind (findOrCreateByPhoneNumber (wa_id contact) None) (fun user =>
     s_bind (onWorld (processMessage messageText (user_id user))) (fun response =>
     if truthy (imageUrl response)
     then
       s_bind (sendWhatsappMessage phoneNumberId
                 (WhatsAppFormatter.WhatsappImageMessage (wa_id contact)
                    (imageUrl response)
                    (js_or (caption response) (content response))))
              (fun _ => s_ret StatusProcessed)
     else
       s_bind (sendWhatsappMessage phoneNumberId
                 (WhatsAppFormatter.WhatsappTextMessage (wa_id contact)
                    (content response)))
              (fun _ => s_ret StatusProcessed))))
    (fun _ =>
       s_bind (sendWhatsappMessage phoneNumberId
                 (WhatsAppFormatter.WhatsappTextMessage (wa_id contact)
                    (JStr errorReplyText)))
              (fun _ => s_ret StatusError)).

Definition handleIncomingMessage (body : WhatsappMessageDto) : Svc HandlingStatus :=
  match body with
  | (changeValue :: _) :: _ =>
      let message := firstOf (messages changeValue) in
      let myNumber := display_phone_number (metadata changeValue) in
      let contact := firstOf (contacts changeValue) in
      match message, contact with
      | Some message, Some contact =>
          let sender := msg_from message in
          if String.eqb sender "" then s_ret StatusIgnored
          else if String.eqb sender myNumber then s_ret StatusIgnored
          else if negb (String.eqb (msg_type message) "text")
                  || negb (truthyStr (msg_body message))
          then s_ret StatusIgnored
          else replyTo contact (phone_number_id (metadata changeValue))
                       (textOf (msg_body message))
      | _, _ => s_ret StatusIgnored
      end
  | _ => fun s => (Thrown TypeError, s)
  end.

End WhatsappService.

(** ** Vocabulary of the further properties *)

(** A computation that leaves the world as it found it, whatever its outcome. *)
Definition preserves_world {A : Type} (c : M A) : Prop :=
  forall w o w', c w = (o, w') -> w' = w.

(** The capabilities other than [add_expense] and [delete_expense]. *)
Definition queryCapabilities : list string :=
  [ "get_total_expenses_today"; "get_total_expenses_this_week";
    "get_total_expenses_this_month"; "get_latest_expenses";
    "get_total_expenses_all_time"; "get_all_expenses";
    "get_expenses_by_date_range"; "get_total_expenses_by_date_range";
    "generate_expense_report"; "generate_daily_expense_chart" ].

(** The sum of a list of counts. *)
Definition sumZ (l : list Z) : Z := fold_right Z.add 0 l.



(** A row of a second owner. *)
Definition bobsRow : Expense :=
  mkExpense 11 30 None (Some "rent") (DText "2025-11-02") 2 54.


(** The [to] field of an outgoing message. *)
Definition recipient (m : WhatsAppFormatter.WhatsAppMessage) : string :=
  match m with
  | WhatsAppFormatter.WhatsappTextMessage to _ => to
  | WhatsAppFormatter.WhatsappTemplateMessage to _ => to
  | WhatsAppFormatter.WhatsappImageMessage to _ _ => to
  end.

(** A webhook call that passes the guards of [handleIncomingMessage]: a
    first message and a first contact, a sender that is not the business
    number itself, and a text message with a body. *)
Definition accepted (changeValue : ChangeValue) (message : InboundMessage)
  (contact : Contact) : Prop :=
  firstOf (messages changeValue) = Some message
  /\ firstOf (contacts changeValue) = Some contact
  /\ msg_from message <> ""
  /\ msg_from message <> display_phone_number (metadata changeValue)
  /\ msg_type message = "text"
  /\ truthyStr (msg_body message) = true.

(** Whether the user store fails to find or to insert the user of [phone]. *)
Definition userLookupFails (phone : string) (s : Service) : bool :=
  faulty (world s) FindUser
  || match find (fun u => String.eqb (phoneNumber u) phone) (users (world s)) with
     | Some _ => false
     | None => userSaveFails s
     end.

(** The state after one more message was posted. *)
Definition posted (phoneNumberId : string) (m : WhatsAppFormatter.WhatsAppMessage)
  (s : Service) : Service :=
  mkService (world s) (nextUserId s) (userSaveFails s)
            (outbox s ++ [mkOutbound phoneNumberId m]).

(** The phone numbers of the registered users. *)
Definition phoneNumbers (s : Service) : list string :=
  map phoneNumber (users (world s)).

(** * Properties *)

(** ** The monad *)

Lemma try_catch_returns : forall (A : Type) (body : M A) (h : Exn -> A) (w : World),
  exists a w', try_catch body (fun e => ret (h e)) w = (Returned a, w').
Proof.
  intros A body h w. unfold try_catch, ret.
  destruct (body w) as [[a|e] w']; eauto.
Qed.

(** ** Sorting *)

Section SortFacts.
Context {A : Type}.
Variable cmp : A -> A -> Z.

Lemma sort_insert_perm : forall x l, Permutation (sort_insert cmp x l) (x :: l).
Proof.
  intros x l. induction l as [|y l IH]; simpl.
  - apply Permutation_refl.
  - destruct (cmp x y <=? 0).
    + apply Permutation_refl.
    + apply Permutation_trans with (y :: x :: l).
      * apply perm_skip. exact IH.
      * apply perm_swap.
Qed.

Lemma sort_perm : forall l, Permutation (sort cmp l) l.
Proof.
  induction l as [|x l IH]; simpl.
  - apply perm_nil.
  - apply Permutation_trans with (x :: sort cmp l).
    + apply sort_insert_perm.
    + apply perm_skip. exact IH.
Qed.

Hypothesis cmp_total : forall a b, cmp a b <= 0 \/ cmp b a <= 0.
Hypothesis cmp_trans : forall a b c, cmp a b <= 0 -> cmp b c <= 0 -> cmp a c <= 0.

Lemma sort_insert_sorted : forall x l,
  StronglySorted (fun a b => cmp a b <= 0) l ->
  StronglySorted (fun a b => cmp a b <= 0) (sort_insert cmp x l).
Proof.
  intros x l Hs. induction Hs as [|y l Hs IH Hall]; simpl.
  - constructor; constructor.
  - destruct (Z.leb_spec (cmp x y) 0) as [Hle|Hgt].
    + constructor.
      * constructor; assumption.
      * constructor; [exact Hle|].
        eapply Forall_impl; [|exact Hall].
        intros z Hz. eapply cmp_trans; eassumption.
    + constructor; [exact IH|].
      apply (Permutation_Forall (Permutation_sym (sort_insert_perm x l))).
      constructor; [|exact Hall].
      destruct (cmp_total x y) as [Hxy|Hyx]; [lia|exact Hyx].
Qed.

Lemma sort_sorted : forall l, StronglySorted (fun a b => cmp a b <= 0) (sort cmp l).
Proof.
  induction l as [|x l IH]; simpl.
  - constructor.
  - apply sort_insert_sorted. exact IH.
Qed.

End SortFacts.

(** ** The WhatsApp formatter *)

(** C1: a reply envelope with [format = template] and no [templateName] is
    formatted exactly like a [format = text] envelope with the same content,
    namely as the plain-text message whose body is the content; and whenever
    the formatter produces a template message, the envelope was a template
    envelope with a (truthy) template name, which is the name sent. *)
Theorem template_without_name_formats_as_text :
  forall (String_of : JsVal -> string) (r t : PlatformResponse) (recipientId : string),
    format r = TEMPLATE -> templateName r = JUndefined ->
    format t = TEXT -> content t = content r ->
    WhatsAppFormatter.format String_of r recipientId
      = WhatsAppFormatter.format String_of t recipientId
    /\ WhatsAppFormatter.format String_of r recipientId
      = WhatsAppFormatter.WhatsappTextMessage recipientId (content r)
    /\ (forall r' to' tpl,
          WhatsAppFormatter.format String_of r' recipientId
            = WhatsAppFormatter.WhatsappTemplateMessage to' tpl ->
          format r' = TEMPLATE /\ truthy (templateName r') = true
          /\ WhatsAppFormatter.name tpl = templateName r').
Proof.
  intros S r t to Hf Hn Ht Hc.
  unfold WhatsAppFormatter.format, WhatsAppFormatter.formatTemplate,
    WhatsAppFormatter.formatText.
  rewrite Hf, Hn, Ht, Hc. simpl.
  repeat split; try reflexivity.
  - destruct (format r') eqn:E; simpl in H; try discriminate. reflexivity.
  - destruct (format r'); simpl in H; try discriminate.
    destruct (truthy (templateName r')); simpl in H; [reflexivity|discriminate].
  - destruct (format r'); simpl in H; try discriminate.
    destruct (truthy (templateName r')); simpl in H; [|discriminate].
    inversion H. reflexivity.
Qed.

(** The statement of C1 on a sample envelope. *)
Lemma template_without_name_witness :
  WhatsAppFormatter.format refString
    (mkResponse TEMPLATE (JStr "Saved.") JUndefined JUndefined JUndefined JUndefined)
    "15550001"
  = WhatsAppFormatter.WhatsappTextMessage "15550001" (JStr "Saved.").
Proof.
  apply (proj1 (proj2 (template_without_name_formats_as_text refString
           (mkResponse TEMPLATE (JStr "Saved.") JUndefined JUndefined JUndefined JUndefined)
           (textResponse (JStr "Saved.")) "15550001"
           eq_refl eq_refl eq_refl eq_refl))).
Defined.

(** ** Reading the round-2 reply *)

Lemma getProp_format_returns : forall parsed fmt k,
  getProp parsed "format" = Returned fmt -> exists v, getProp parsed k = Returned v.
Proof.
  intros parsed fmt k H. destruct parsed; simpl in *; try discriminate; eauto.
Qed.

Lemma envelopeOfParsed_format : forall parsed fmt,
  getProp parsed "format" = Returned fmt ->
  exists r, Round2.envelopeOfParsed parsed = Returned r
    /\ format r = match fmt with
                  | JStr s => if String.eqb s "template" then TEMPLATE else TEXT
                  | _ => TEXT
                  end.
Proof.
  intros parsed fmt H. unfold Round2.envelopeOfParsed. rewrite H.
  destruct (getProp_format_returns parsed fmt "content" H) as [c ->].
  destruct (getProp_format_returns parsed fmt "templateName" H) as [tn ->].
  destruct (getProp_format_returns parsed fmt "templateParams" H) as [tp ->].
  destruct (getProp_format_returns parsed fmt "imageUrl" H) as [img ->].
  destruct (getProp_format_returns parsed fmt "caption" H) as [cap ->].
  destruct (truthy img); eexists; split; reflexivity.
Qed.

(** C10: the envelope read from the round-2 output has format [template]
    exactly when the output parses and its [format] field is the text
    "template"; in every other case (another text such as "markdown", a
    value that is not a text, a missing field, output that does not parse)
    the envelope has format [text]: the format is never [markdown]. *)
Theorem reply_format_is_template_only_for_exact_text :
  forall (JSON_parse : string -> option JsVal) (responseContent : string),
    let r := Round2.parseReply JSON_parse responseContent in
    (format r = TEMPLATE <->
       exists parsed, JSON_parse responseContent = Some parsed
                      /\ getProp parsed "format" = Returned (JStr "template"))
    /\ (format r = TEMPLATE \/ format r = TEXT).
Proof.
  intros JSON_parse text r. subst r. unfold Round2.parseReply.
  destruct (JSON_parse text) as [parsed|] eqn:Hp.
  - destruct (getProp parsed "format") as [fmt|e] eqn:Hf.
    + destruct (envelopeOfParsed_format parsed fmt Hf) as [r [Hr Hfmt]].
      rewrite Hr, Hfmt. split.
      * split.
        -- intro Ht. exists parsed. split; [reflexivity|].
           destruct fmt; try discriminate.
           destruct (String.eqb_spec s "template"); [subst; exact Hf|discriminate].
        -- intros [p [Hp' Hf']]. inversion Hp'; subst p. rewrite Hf in Hf'.
           inversion Hf'. reflexivity.
      * destruct fmt; try (right; reflexivity).
        destruct (String.eqb s "template"); [left|right]; reflexivity.
    + unfold Round2.envelopeOfParsed. rewrite Hf. simpl. split.
      * split; [discriminate|].
        intros [p [Hp' Hf']]. inversion Hp'; subst p. rewrite Hf in Hf'. discriminate.
      * right. reflexivity.
  - simpl. split.
    + split; [discriminate|]. intros [p [Hp' _]]. discriminate.
    + right. reflexivity.
Qed.

(** ** The operation executor *)

(** C9 (as amended): the user lookup comes before the switch and outside
    any [try].  For a function name that is not one of the declared
    capability names the executor returns the structured result
    [{ error: "Unknown function: <name>" }] when the lookup finds the
    account, the result [{ error: "Couldn't find your user account" }] when
    it finds none, and throws the exception of the store when the lookup is
    rejected; the world is left as it was in all three cases. *)
Theorem unknown_function_is_reported :
  forall (H : Host) (functionName : string) (args : Args.t) (userId : Z) (w : World),
    ~ In functionName capabilityNames ->
    (forall user,
        findById userId w = (Returned (Some user), w) ->
        executeFunction H functionName args userId w
        = (Returned (JObj [("error", JStr ("Unknown function: " ++ functionName))]), w))
    /\ (findById userId w = (Returned None, w) ->
        executeFunction H functionName args userId w = (Returned accountNotFound, w))
    /\ (forall e,
          findById userId w = (Thrown e, w) ->
          executeFunction H functionName args userId w = (Thrown e, w))
    /\ (exists o, findById userId w = (o, w)).
Proof.
  intros H f args uid w Hn. split; [|split; [|split]].
  - intros user Hu. unfold executeFunction, bind. rewrite Hu.
    unfold capabilityNames in Hn. simpl in Hn.
    repeat match goal with
    | |- context [String.eqb f ?s] =>
        destruct (String.eqb_spec f s) as [->|_]; [exfalso; apply Hn; tauto|]
    end.
    reflexivity.
  - intro Hu. unfold executeFunction, bind. rewrite Hu. reflexivity.
  - intros e Hu. unfold executeFunction, bind. rewrite Hu. reflexivity.
  - unfold findById. destruct (faulty w FindUser); eexists; reflexivity.
Qed.

(** C9 as stated fails: when the user store rejects the lookup, the executor
    throws on a name that is no capability; and for an id without account
    the result is not the unknown-function result. *)
Lemma unknown_function_counterexample :
  ~ In "transfer_money" capabilityNames
  /\ executeFunction refHost "transfer_money" Args.empty 1 (sampleWorld [] usersDown)
     = (Thrown StoreError, sampleWorld [] usersDown)
  /\ executeFunction refHost "transfer_money" Args.empty 99 (sampleWorld [] healthy)
     = (Returned accountNotFound, sampleWorld [] healthy)
  /\ ~ hasError "Unknown function: transfer_money" accountNotFound.
Proof.
  split; [vm_compute; intuition discriminate|].
  split; [vm_compute; reflexivity|]. split; [vm_compute; reflexivity|].
  vm_compute. intro Hx. discriminate Hx.
Qed.

(** The statement of C9 (as amended) on a sample call. *)
Lemma unknown_function_witness :
  executeFunction refHost "transfer_money" Args.empty 1 (sampleWorld [] healthy)
  = (Returned (JObj [("error", JStr "Unknown function: transfer_money")]),
     sampleWorld [] healthy).
Proof.
  apply (proj1 (unknown_function_is_reported refHost "transfer_money" Args.empty 1
                  (sampleWorld [] healthy)
                  ltac:(vm_compute; intuition discriminate)) alice).
  reflexivity.
Defined.

(** ** The order of texts *)








(** ** Maps and the tally loop *)

Lemma assoc_map_set : forall (A : Type) (k k' : string) (v : A) m,
  assoc k (map_set k' v m) = if String.eqb k k' then Some v else assoc k m.
Proof.
  intros A k k' v m. induction m as [|[k0 v0] m IH]; simpl.
  - reflexivity.
  - destruct (String.eqb_spec k' k0) as [->|Hne]; simpl.
    + destruct (String.eqb k k0); reflexivity.
    + destruct (String.eqb_spec k k0) as [->|Hne2].
      * destruct (String.eqb_spec k0 k') as [->|_]; [contradiction|reflexivity].
      * exact IH.
Qed.

Lemma map_set_keys : forall (A : Type) (k k' : string) (v : A) m,
  In k (map fst (map_set k' v m)) <-> k = k' \/ In k (map fst m).
Proof.
  intros A k k' v m. induction m as [|[k0 v0] m IH]; simpl.
  - intuition.
  - destruct (String.eqb_spec k' k0) as [->|Hne]; simpl.
    + intuition.
    + rewrite IH. intuition.
Qed.

Lemma map_set_NoDup : forall (A : Type) (k : string) (v : A) m,
  NoDup (map fst m) -> NoDup (map fst (map_set k v m)).
Proof.
  intros A k v m. induction m as [|[k0 v0] m IH]; simpl; intro Hnd.
  - constructor; [intros []|constructor].
  - destruct (String.eqb_spec k k0) as [->|Hne]; simpl.
    + exact Hnd.
    + inversion Hnd as [|? ? Hnotin Hnd']; subst.
      constructor; [|apply IH; exact Hnd'].
      rewrite map_set_keys. intros [Heq|Hin]; [congruence|contradiction].
Qed.

Lemma assoc_In : forall (A : Type) (k : string) (v : A) m,
  assoc k m = Some v -> In (k, v) m.
Proof.
  intros A k v m. induction m as [|[k0 v0] m IH]; simpl; [discriminate|].
  destruct (String.eqb_spec k k0) as [->|Hne].
  - intro H. inversion H. left. reflexivity.
  - intro H. right. apply IH. exact H.
Qed.

Lemma In_assoc : forall (A : Type) (k : string) (v : A) m,
  NoDup (map fst m) -> In (k, v) m -> assoc k m = Some v.
Proof.
  intros A k v m. induction m as [|[k0 v0] m IH]; simpl; intros Hnd Hin; [contradiction|].
  inversion Hnd as [|? ? Hnotin Hnd']; subst.
  destruct Hin as [Heq|Hin].
  - inversion Heq. subst. rewrite String.eqb_refl. reflexivity.
  - destruct (String.eqb_spec k k0) as [->|Hne].
    + exfalso. apply Hnotin. change k0 with (fst (k0, v)). apply in_map. exact Hin.
    + apply IH; assumption.
Qed.

Lemma tally_step_assoc : forall H key m e k,
  assoc k (tally_step H key m e)
  = if String.eqb k (key e) then Some (bump H (orZero (assoc (key e) m)) e)
    else assoc k m.
Proof.
  intros H key m e k. unfold tally_step, map_get. rewrite assoc_map_set.
  destruct (String.eqb k (key e)); [|reflexivity].
  destruct (assoc (key e) m); reflexivity.
Qed.

Lemma tally_assoc_from : forall H key l m k,
  assoc k (fold_left (tally_step H key) l m)
  = match selected key k l with
    | [] => assoc k m
    | sel => Some (fold_left (bump H) sel (orZero (assoc k m)))
    end.
Proof.
  intros H key l. induction l as [|e l IH]; intros m k; simpl.
  - reflexivity.
  - rewrite IH. rewrite tally_step_assoc. unfold selected. simpl.
    rewrite (String.eqb_sym k (key e)).
    destruct (String.eqb_spec (key e) k) as [Heq|Hne].
    + subst k. destruct (filter _ l); reflexivity.
    + reflexivity.
Qed.

Lemma bump_total : forall H sel b,
  total (fold_left (bump H) sel b)
  = fold_left (fun sum expense => plus H sum (e_amount expense)) sel (total b).
Proof.
  induction sel as [|e sel IH]; intro b; simpl; [reflexivity|].
  rewrite IH. reflexivity.
Qed.

Lemma bump_count : forall H sel b,
  count (fold_left (bump H) sel b) = count b + Z.of_nat (List.length sel).
Proof.
  induction sel as [|e sel IH]; intro b; simpl List.length; simpl fold_left.
  - simpl. lia.
  - rewrite IH. simpl. lia.
Qed.

Lemma tally_NoDup : forall H key l, NoDup (map fst (tally H key l)).
Proof.
  intros H key l. unfold tally.
  assert (G : forall m, NoDup (map fst m) ->
                        NoDup (map fst (fold_left (tally_step H key) l m))).
  { induction l as [|e l IH]; intros m Hm; simpl; [exact Hm|].
    apply IH. unfold tally_step. apply map_set_NoDup. exact Hm. }
  apply G. constructor.
Qed.

Lemma tally_assoc : forall H key l k,
  assoc k (tally H key l)
  = match selected key k l with
    | [] => None
    | sel => Some (fold_left (bump H) sel (mkBucket 0%Q 0))
    end.
Proof.
  intros H key l k. unfold tally. rewrite tally_assoc_from. reflexivity.
Qed.

Lemma bump_all : forall H sel,
  total (fold_left (bump H) sel (mkBucket 0%Q 0)) = sumAmounts H sel
  /\ count (fold_left (bump H) sel (mkBucket 0%Q 0)) = Z.of_nat (List.length sel).
Proof.
  intros H sel. rewrite bump_total, bump_count. split; [reflexivity|apply Z.add_0_l].
Qed.

(** The bucket the tally holds under a key: present exactly when some
    expense has that key, and then it is the sum and the number of the
    expenses with that key, taken in the order of the list. *)
Lemma tally_entry : forall H key l k b,
  In (k, b) (tally H key l) <->
  selected key k l <> []
  /\ total b = sumAmounts H (selected key k l)
  /\ count b = Z.of_nat (List.length (selected key k l)).
Proof.
  intros H key l k b. split.
  - intro Hin. apply (In_assoc _ _ _ _ (tally_NoDup H key l)) in Hin.
    rewrite tally_assoc in Hin.
    destruct (selected key k l) as [|e sel] eqn:Hsel; [discriminate|].
    injection Hin as <-. split; [discriminate|]. exact (bump_all H (e :: sel)).
  - intros [Hne [Ht Hc]]. apply assoc_In. rewrite tally_assoc.
    destruct (selected key k l) as [|e sel] eqn:Hsel; [contradiction|].
    f_equal. destruct (bump_all H (e :: sel)) as [Ht' Hc'].
    destruct (fold_left (bump H) (e :: sel) (mkBucket 0%Q 0)) as [t' c'].
    destruct b as [t c]. simpl in *. congruence.
Qed.


(** ** Dates and their texts *)

Lemma civil_from_days_parts :
  forall z, exists era yoe doy mp,
    0 <= yoe <= 399 /\ 0 <= mp <= 11
    /\ (153 * mp + 2) / 5 <= doy
    /\ (mp <= 10 -> doy < (153 * (mp + 1) + 2) / 5)
    /\ (yoe < 399 ->
        365 * yoe + yoe / 4 - yoe / 100 + doy
        < 365 * (yoe + 1) + (yoe + 1) / 4 - (yoe + 1) / 100)
    /\ 365 * yoe + yoe / 4 - yoe / 100 + doy <= 146096
    /\ z = era * 146097 + (365 * yoe + yoe / 4 - yoe / 100 + doy) - 719468
    /\ civil_from_days z
       = (yoe + era * 400 + (if mp <? 10 then 0 else 1),
          if mp <? 10 then mp + 3 else mp - 9,
          doy - (153 * mp + 2) / 5 + 1).
Proof.
  intro z. unfold civil_from_days. cbv zeta.
  set (z' := z + 719468).
  set (era := z' / 146097).
  set (doe := z' - era * 146097).
  assert (Hdoe : 0 <= doe <= 146096)
    by (subst doe era; Z.div_mod_to_equations; lia).
  set (yoe := (doe - doe / 1460 + doe / 36524 - doe / 146096) / 365).
  assert (Hyoe : 0 <= yoe <= 399
                 /\ 0 <= doe - (365 * yoe + yoe / 4 - yoe / 100) <= 365)
    by (subst yoe; Z.div_mod_to_equations; lia).
  destruct Hyoe as [Hyoe Hdoy].
  assert (Hnext : yoe < 399 ->
            doe < 365 * (yoe + 1) + (yoe + 1) / 4 - (yoe + 1) / 100)
    by (subst yoe; Z.div_mod_to_equations; lia).
  set (doy := doe - (365 * yoe + yoe / 4 - yoe / 100)) in *.
  set (mp := (5 * doy + 2) / 153).
  exists era, yoe, doy, mp.
  assert (Hmp : 0 <= mp <= 11) by (subst mp; Z.div_mod_to_equations; lia).
  split; [exact Hyoe|]. split; [exact Hmp|].
  split; [subst mp; Z.div_mod_to_equations; lia|].
  split; [subst mp; Z.div_mod_to_equations; lia|].
  split; [intro Hlt; specialize (Hnext Hlt); subst doy; lia|].
  split; [subst doy; lia|].
  split; [subst doy doe z'; lia|].
  destruct (Z.ltb_spec mp 10).
  - destruct (Z.leb_spec (mp + 3) 2); [lia|].
    f_equal. f_equal. lia.
  - destruct (Z.leb_spec (mp - 9) 2); [|lia]. reflexivity.
Qed.

Lemma days_from_civil_parts :
  forall era yoe mp d,
    0 <= yoe <= 399 -> 0 <= mp <= 11 ->
    days_from_civil (yoe + era * 400 + (if mp <? 10 then 0 else 1))
                    (if mp <? 10 then mp + 3 else mp - 9) d
    = era * 146097 + (365 * yoe + yoe / 4 - yoe / 100 + (153 * mp + 2) / 5 + d - 1)
      - 719468.
Proof.
  intros era yoe mp d Hyoe Hmp. unfold days_from_civil. cbv zeta.
  assert (Hera : (yoe + era * 400) / 400 = era) by (Z.div_mod_to_equations; lia).
  destruct (Z.ltb_spec mp 10).
  - destruct (Z.leb_spec (mp + 3) 2); [lia|].
    destruct (Z.ltb_spec 2 (mp + 3)); [|lia].
    replace (yoe + era * 400 + 0) with (yoe + era * 400) by lia.
    rewrite Hera.
    replace (yoe + era * 400 - era * 400) with yoe by lia.
    replace (mp + 3 - 3) with mp by lia. lia.
  - destruct (Z.leb_spec (mp - 9) 2); [|lia].
    destruct (Z.ltb_spec 2 (mp - 9)); [lia|].
    replace (yoe + era * 400 + 1 - 1) with (yoe + era * 400) by lia.
    rewrite Hera.
    replace (yoe + era * 400 - era * 400) with yoe by lia.
    replace (mp - 9 + 9) with mp by lia. lia.
Qed.

Lemma civil_from_days_spec :
  forall z,
    1 <= snd (fst (civil_from_days z)) <= 12
    /\ 1 <= snd (civil_from_days z)
    /\ days_from_civil (fst (fst (civil_from_days z)))
                       (snd (fst (civil_from_days z)))
                       (snd (civil_from_days z)) = z.
Proof.
  intro z.
  destruct (civil_from_days_parts z)
    as [era [yoe [doy [mp [Hyoe [Hmp [Hlo [_ [_ [_ [Hz Hc]]]]]]]]]]].
  rewrite Hc. cbn [fst snd].
  rewrite (days_from_civil_parts era yoe mp _ Hyoe Hmp).
  split; [destruct (Z.ltb_spec mp 10); lia|]. split; lia.
Qed.











(** ** Grouping by day *)









(** ** Grouping by category *)

Lemma caseEq_refl : forall s, caseEq s s.
Proof. induction s; constructor; auto. Qed.

Lemma caseEq_lower : forall s t, caseEq s t -> asciiLowerCase s = asciiLowerCase t.
Proof. induction 1; simpl; congruence. Qed.

Lemma caseEq_trimStart : forall s t, caseEq s t -> caseEq (asciiTrimStart s) (asciiTrimStart t).
Proof.
  induction 1 as [|a b s t Hl Hs Hst IH]; simpl.
  - constructor.
  - rewrite <- Hs. destruct (is_space a) eqn:Ea; [exact IH|].
    constructor; congruence.
Qed.

Lemma caseEq_trimEnd : forall s t, caseEq s t -> caseEq (asciiTrimEnd s) (asciiTrimEnd t).
Proof.
  induction 1 as [|a b s t Hl Hs Hst IH]; simpl.
  - constructor.
  - destruct (asciiTrimEnd s) as [|x s'] eqn:Es; destruct (asciiTrimEnd t) as [|y t'] eqn:Et;
      inversion IH; subst.
    + rewrite <- Hs. destruct (is_space a) eqn:Ea; repeat (constructor; try congruence).
    + repeat (constructor; try congruence).
Qed.

Lemma caseVariant_facts : forall a b,
  caseVariant a b -> toLowerChar a = toLowerChar b /\ is_space a = is_space b.
Proof.
  intros a b [[Hlo Hhi] Hb].
  assert (Hua : is_upper a = true).
  { unfold is_upper. apply andb_true_iff. split; apply Nat.leb_le; assumption. }
  assert (Hub : is_upper b = false).
  { unfold is_upper. rewrite Hb. apply andb_false_iff. right.
    apply Nat.leb_gt. lia. }
  split.
  - unfold toLowerChar. rewrite Hua, Hub. rewrite <- Hb.
    apply ascii_nat_embedding.
  - unfold is_space. rewrite Hb.
    replace (nat_of_ascii a <=? 13)%nat with false by (symmetry; apply Nat.leb_gt; lia).
    replace (nat_of_ascii a + 32 <=? 13)%nat with false by (symmetry; apply Nat.leb_gt; lia).
    replace (nat_of_ascii a =? 32)%nat with false by (symmetry; apply Nat.eqb_neq; lia).
    replace (nat_of_ascii a + 32 =? 32)%nat with false by (symmetry; apply Nat.eqb_neq; lia).
    rewrite !andb_false_r. reflexivity.
Qed.

Lemma caseEq_edit : forall pre a b post,
  caseVariant a b -> caseEq (pre ++ String a post) (pre ++ String b post).
Proof.
  intros pre a b post Hv. destruct (caseVariant_facts a b Hv) as [Hl Hs].
  induction pre as [|c pre IH]; simpl.
  - constructor; auto. apply caseEq_refl.
  - constructor; auto.
Qed.

Lemma trimStart_app_blank : forall s t,
  asciiTrimStart s = EmptyString -> asciiTrimStart (s ++ t) = asciiTrimStart t.
Proof.
  induction s as [|c s IH]; simpl; intros t Hs; [reflexivity|].
  destruct (is_space c); [apply IH; exact Hs|discriminate].
Qed.

Lemma trimStart_app_text : forall s t,
  asciiTrimStart s <> EmptyString -> asciiTrimStart (s ++ t) = asciiTrimStart s ++ t.
Proof.
  induction s as [|c s IH]; simpl; intros t Hs; [contradiction|].
  destruct (is_space c); [apply IH; exact Hs|reflexivity].
Qed.

Lemma trimEnd_pad : forall s c,
  is_space c = true -> asciiTrimEnd (s ++ String c EmptyString) = asciiTrimEnd s.
Proof.
  intros s c Hc. induction s as [|a s IH]; simpl.
  - rewrite Hc. reflexivity.
  - rewrite IH. reflexivity.
Qed.

Lemma trim_pad_left : forall c s, is_space c = true -> asciiTrim (String c s) = asciiTrim s.
Proof. intros c s Hc. unfold asciiTrim. simpl. rewrite Hc. reflexivity. Qed.

Lemma trim_pad_right : forall c s,
  is_space c = true -> asciiTrim (s ++ String c EmptyString) = asciiTrim s.
Proof.
  intros c s Hc. unfold asciiTrim.
  destruct (asciiTrimStart s) as [|a r] eqn:Hs.
  - rewrite trimStart_app_blank by exact Hs. simpl. rewrite Hc. reflexivity.
  - rewrite trimStart_app_text by (rewrite Hs; discriminate).
    rewrite Hs. apply trimEnd_pad. exact Hc.
Qed.

Lemma categoryEdit_normal : forall s t,
  categoryEdit s t -> asciiLowerCase (asciiTrim s) = asciiLowerCase (asciiTrim t).
Proof.
  intros s t He. destruct He as [c s Hc|c s Hc|pre a b post Hv].
  - rewrite trim_pad_left by exact Hc. reflexivity.
  - rewrite trim_pad_right by exact Hc. reflexivity.
  - apply caseEq_lower. unfold asciiTrim. apply caseEq_trimEnd, caseEq_trimStart.
    apply caseEq_edit. exact Hv.
Qed.

Lemma SameCategoryText_normal : forall s t,
  SameCategoryText s t -> asciiLowerCase (asciiTrim s) = asciiLowerCase (asciiTrim t).
Proof.
  induction 1 as [s|s t He|s t _ IH|s t u _ IH1 _ IH2].
  - reflexivity.
  - apply categoryEdit_normal. exact He.
  - symmetry. exact IH.
  - congruence.
Qed.

Lemma isAscii_trimStart : forall s, isAscii s = true -> isAscii (asciiTrimStart s) = true.
Proof.
  induction s as [|c s IH]; simpl; intro Hs; [reflexivity|].
  apply andb_true_iff in Hs. destruct Hs as [Hc Hs].
  destruct (is_space c); [apply IH; exact Hs|].
  simpl. rewrite Hc, Hs. reflexivity.
Qed.

Lemma isAscii_trimEnd : forall s, isAscii s = true -> isAscii (asciiTrimEnd s) = true.
Proof.
  induction s as [|c s IH]; simpl; intro Hs; [reflexivity|].
  apply andb_true_iff in Hs. destruct Hs as [Hc Hs]. specialize (IH Hs).
  destruct (asciiTrimEnd s) as [|x t].
  - destruct (is_space c); [reflexivity|]. simpl. rewrite Hc. reflexivity.
  - change (isAscii (String c (String x t))) with
      ((nat_of_ascii c <? 128)%nat && isAscii (String x t)).
    rewrite Hc, IH. reflexivity.
Qed.

(** On a host that follows the specification on ASCII texts, the normal
    form of an ASCII category text is its ASCII normal form. *)
Lemma asciiHost_normal : forall H s,
  asciiHost H -> isAscii s = true ->
  toLowerCase H (trim H s) = asciiLowerCase (asciiTrim s).
Proof.
  intros H s Hh Hs. rewrite (proj1 (Hh s Hs)).
  apply (Hh (asciiTrim s)). unfold asciiTrim.
  apply isAscii_trimEnd, isAscii_trimStart. exact Hs.
Qed.

Lemma groupByCategory_spec : forall H rows entry,
  In entry (groupByCategory H rows) <->
  selected (normalizedCategory H) (c_category entry) rows <> []
  /\ c_total entry
     = sumAmounts H (selected (normalizedCategory H) (c_category entry) rows)
  /\ c_count entry
     = Z.of_nat (List.length (selected (normalizedCategory H) (c_category entry) rows)).
Proof.
  intros H rows entry. unfold groupByCategory. split.
  - intro Hin. apply in_map_iff in Hin. destruct Hin as [[k b] [Heq Hin]].
    subst entry. simpl. apply (tally_entry H (normalizedCategory H) rows k b). exact Hin.
  - intro Hspec. apply in_map_iff.
    exists (c_category entry, mkBucket (c_total entry) (c_count entry)).
    split; [destruct entry; reflexivity|].
    apply (tally_entry H (normalizedCategory H) rows). exact Hspec.
Qed.

(** C7 (as amended): two records whose category texts are both non-empty
    have the same grouping key exactly when [trim()] followed by
    [toLowerCase()] gives the same text for both.  On a host that follows
    the specification on ASCII texts this is so for every two texts of
    ASCII characters that differ only by letter case and by leading or
    trailing white space.  When the keys agree, [getExpensesByCategory]
    holds exactly one bucket under that key and both records are among the
    records it sums and counts; when they differ, no bucket holds both. *)
Theorem same_category_text_same_bucket :
  forall (H : Host) (rows : list Expense) (e1 e2 : Expense) (c1 c2 : string),
    In e1 rows -> In e2 rows ->
    e_category e1 = Some c1 -> e_category e2 = Some c2 ->
    c1 <> "" -> c2 <> "" ->
    (normalizedCategory H e2 = normalizedCategory H e1
     <-> toLowerCase H (trim H c2) = toLowerCase H (trim H c1))
    /\ (asciiHost H -> isAscii c1 = true -> isAscii c2 = true ->
        SameCategoryText c1 c2 ->
        normalizedCategory H e2 = normalizedCategory H e1)
    /\ (normalizedCategory H e2 = normalizedCategory H e1 ->
        exists entry,
          In entry (groupByCategory H rows)
          /\ c_category entry = normalizedCategory H e1
          /\ (forall other, In other (groupByCategory H rows) ->
                c_category other = c_category entry -> other = entry)
          /\ In e1 (selected (normalizedCategory H) (c_category entry) rows)
          /\ In e2 (selected (normalizedCategory H) (c_category entry) rows)
          /\ c_total entry
             = sumAmounts H (selected (normalizedCategory H) (c_category entry) rows)
          /\ c_count entry
             = Z.of_nat (List.length
                           (selected (normalizedCategory H) (c_category entry) rows)))
    /\ (normalizedCategory H e2 <> normalizedCategory H e1 ->
        forall entry,
          In entry (groupByCategory H rows) ->
          In e1 (selected (normalizedCategory H) (c_category entry) rows) ->
          ~ In e2 (selected (normalizedCategory H) (c_category entry) rows)).
Proof.
  intros H rows e1 e2 c1 c2 Hin1 Hin2 Hc1 Hc2 Hn1 Hn2.
  assert (Hk1 : normalizedCategory H e1 = toLowerCase H (trim H c1)).
  { unfold normalizedCategory. rewrite Hc1.
    destruct (String.eqb_spec c1 ""); [contradiction|reflexivity]. }
  assert (Hk2 : normalizedCategory H e2 = toLowerCase H (trim H c2)).
  { unfold normalizedCategory. rewrite Hc2.
    destruct (String.eqb_spec c2 ""); [contradiction|reflexivity]. }
  split; [rewrite Hk1, Hk2; tauto|]. split; [|split].
  - intros Hh Ha1 Ha2 Hsame. rewrite Hk1, Hk2.
    rewrite (asciiHost_normal H c1 Hh Ha1), (asciiHost_normal H c2 Hh Ha2).
    symmetry. apply SameCategoryText_normal. exact Hsame.
  - intro Hkey.
    set (k := normalizedCategory H e1) in *.
    set (sel := selected (normalizedCategory H) k rows).
    assert (Hs1 : In e1 sel).
    { unfold sel, selected. apply filter_In. split; [exact Hin1|].
      apply String.eqb_eq. reflexivity. }
    assert (Hs2 : In e2 sel).
    { unfold sel, selected. apply filter_In. split; [exact Hin2|].
      apply String.eqb_eq. exact Hkey. }
    exists (mkCategoryTotal k (sumAmounts H sel) (Z.of_nat (List.length sel))).
    simpl. repeat split; try assumption.
    + apply groupByCategory_spec. simpl. fold sel. repeat split.
      intro Hnil. rewrite Hnil in Hs1. contradiction.
    + intros other Hin Hk. apply groupByCategory_spec in Hin.
      destruct Hin as [_ [Ht Hc]]. rewrite Hk in Ht, Hc. fold sel in Ht, Hc.
      destruct other as [k' t' c']. simpl in *. congruence.
  - intros Hkey entry _ Hs1 Hs2. apply Hkey.
    unfold selected in Hs1, Hs2.
    apply filter_In in Hs1. apply filter_In in Hs2.
    destruct Hs1 as [_ Hs1]. destruct Hs2 as [_ Hs2].
    apply String.eqb_eq in Hs1. apply String.eqb_eq in Hs2. congruence.
Qed.

(** C7 as stated fails when one of the texts is empty: the empty text and a
    blank differ only by white space, yet the record with the empty text is
    grouped under "uncategorized" and the record with the blank under the
    empty key. *)
Lemma blank_category_counterexample :
  let e1 := mkExpense 1 5 None (Some "") (DText "2025-11-03") 1 1 in
  let e2 := mkExpense 2 7 None (Some " ") (DText "2025-11-03") 1 2 in
  SameCategoryText "" " "
  /\ normalizedCategory refHost e1 <> normalizedCategory refHost e2
  /\ groupByCategory refHost [e1; e2]
     = [mkCategoryTotal "uncategorized" (0 + 5)%Q 1; mkCategoryTotal "" (0 + 7)%Q 1].
Proof.
  simpl. split; [|split].
  - apply same_edit. apply (edit_pad_left " "%char ""). reflexivity.
  - vm_compute. discriminate.
  - reflexivity.
Qed.

Lemma Food_food_same : SameCategoryText "Food" " food ".
Proof.
  apply same_trans with "food".
  - apply same_edit. apply (edit_case "" "F"%char "f"%char "ood").
    split; [split; apply Nat.leb_le; reflexivity|reflexivity].
  - apply same_trans with " food".
    + apply same_edit. apply edit_pad_left. reflexivity.
    + apply same_edit. apply (edit_pad_right " "%char " food"). reflexivity.
Qed.

Lemma refHost_ascii : asciiHost refHost.
Proof. intros s _. split; reflexivity. Qed.

(** The statement of C7 on the sample rows: "Food" and " food " share the
    bucket "food". *)
Lemma same_category_witness :
  normalizedCategory refHost snack = normalizedCategory refHost lunch
  /\ exists entry,
       In entry (groupByCategory refHost [lunch; snack; taxi])
       /\ c_category entry = "food"
       /\ In lunch (selected (normalizedCategory refHost) (c_category entry)
                             [lunch; snack; taxi])
       /\ In snack (selected (normalizedCategory refHost) (c_category entry)
                             [lunch; snack; taxi]).
Proof.
  destruct (same_category_text_same_bucket refHost [lunch; snack; taxi] lunch snack
              "Food" " food ")
    as [_ [Hascii [Hbucket _]]].
  - simpl. tauto.
  - simpl. tauto.
  - reflexivity.
  - reflexivity.
  - discriminate.
  - discriminate.
  - assert (Hkey : normalizedCategory refHost snack = normalizedCategory refHost lunch)
      by (apply Hascii; [exact refHost_ascii|reflexivity|reflexivity
                         |exact Food_food_same]).
    split; [exact Hkey|].
    destruct (Hbucket Hkey) as [entry [Hin [Hc [_ [Hl [Hs _]]]]]].
    exists entry. repeat split; assumption.
Defined.

(** ** Deleting *)

Lemma Q_to_int_inject : forall n, Q_to_int (inject_Z n) = Some n.
Proof.
  intro n. unfold Q_to_int, inject_Z. simpl.
  rewrite Z.mod_1_r, Z.div_1_r. reflexivity.
Qed.

Lemma byCreatedDesc_total : forall a b,
  byCreatedDesc a b <= 0 \/ byCreatedDesc b a <= 0.
Proof. intros a b. unfold byCreatedDesc. lia. Qed.

Lemma byCreatedDesc_trans : forall a b c,
  byCreatedDesc a b <= 0 -> byCreatedDesc b c <= 0 -> byCreatedDesc a c <= 0.
Proof. intros a b c. unfold byCreatedDesc. lia. Qed.

(** The first row of the newest-first order is one of the rows and no row
    was created later. *)
Lemma latest_first : forall rows,
  rows <> [] ->
  exists latest rest,
    sort byCreatedDesc rows = latest :: rest
    /\ In latest rows
    /\ forall e, In e rows -> e_createdAt e <= e_createdAt latest.
Proof.
  intros rows Hne.
  assert (Hperm := sort_perm byCreatedDesc rows).
  assert (Hsorted := sort_sorted byCreatedDesc byCreatedDesc_total
                                 byCreatedDesc_trans rows).
  destruct (sort byCreatedDesc rows) as [|latest rest] eqn:Hs.
  - apply Permutation_nil in Hperm. contradiction.
  - exists latest, rest. split; [reflexivity|]. split.
    + apply (Permutation_in _ Hperm). left. reflexivity.
    + intros e He. apply (Permutation_in _ (Permutation_sym Hperm)) in He.
      destruct He as [<-|He]; [lia|].
      inversion Hsorted as [|? ? _ Hall]; subst.
      rewrite Forall_forall in Hall. specialize (Hall e He).
      unfold byCreatedDesc in Hall. lia.
Qed.

Lemma getLatestExpenses_one : forall userId w,
  Healthy w ->
  getLatestExpenses userId 1 w
  = (Returned (firstn 1 (sort byCreatedDesc (ownedBy userId w))), w).
Proof.
  intros userId w Hw. unfold getLatestExpenses, expense_find_latest.
  rewrite Hw. reflexivity.
Qed.

Lemma delete_resolved_owned : forall H userId w e,
  Healthy w -> In e (ownedBy userId w) ->
  delete_resolved H (inject_Z (e_id e)) userId w
  = (Returned (deleted H (e_id e)), withoutId (e_id e) w).
Proof.
  intros H userId w e Hw Hin.
  unfold delete_resolved, deleteExpense, expense_findOne, bind.
  rewrite Hw, Q_to_int_inject.
  destruct (find (fun e0 => (e_id e0 =? e_id e) && (e_userId e0 =? userId))
                 (expenses w)) as [found|] eqn:Hf.
  - apply find_some in Hf. destruct Hf as [_ Hp].
    apply andb_true_iff in Hp. destruct Hp as [Hid _]. apply Z.eqb_eq in Hid.
    unfold expense_remove. rewrite Hw. simpl. rewrite Hid. reflexivity.
  - exfalso. unfold ownedBy in Hin. apply filter_In in Hin. destruct Hin as [Hin Hu].
    apply (find_none _ _ Hf) in Hin. rewrite Z.eqb_refl, Hu in Hin. discriminate.
Qed.

Lemma delete_resolved_other : forall H userId w q,
  Healthy w ->
  (forall v w', delete_resolved H q userId w = (Returned v, w') ->
     notFound v ->
     forall e, In e (ownedBy userId w) -> Q_to_int q <> Some (e_id e)).
Proof.
  intros H userId w q Hw v w' Hr Hnf e Hin Hq.
  unfold delete_resolved, deleteExpense, expense_findOne, bind in Hr.
  rewrite Hw, Hq in Hr.
  destruct (find (fun e0 => (e_id e0 =? e_id e) && (e_userId e0 =? userId))
                 (expenses w)) as [found|] eqn:Hf.
  - unfold expense_remove in Hr. rewrite Hw in Hr. simpl in Hr.
    inversion Hr; subst. destruct Hnf as [Hnf|Hnf]; inversion Hnf.
  - unfold ownedBy in Hin. apply filter_In in Hin. destruct Hin as [Hin Hu].
    apply (find_none _ _ Hf) in Hin. rewrite Z.eqb_refl, Hu in Hin. discriminate.
Qed.

Lemma dispatch_delete : forall H args userId user w,
  findById userId w = (Returned (Some user), w) ->
  executeFunction H "delete_expense" args userId w = case_delete_expense H args userId w.
Proof.
  intros H args userId user w Hu. unfold executeFunction, bind. rewrite Hu. reflexivity.
Qed.

(** C8: for an owner whose account is found and a store that answers,
    [delete_expense] with a falsy [expenseId] (0 as well as an absent id)
    behaves as without the id: if the owner has no expense it reports that
    there is nothing to delete, otherwise it deletes an expense of the owner
    that no other expense of the owner was created after, and reports its
    id.  Whatever the id, a not-found result is returned only when the owner
    has no expense at all or no expense of the owner has the requested id. *)
Theorem delete_without_id_removes_latest :
  forall (H : Host) (args : Args.t) (userId : Z) (user : User) (w : World),
    Healthy w ->
    findById userId w = (Returned (Some user), w) ->
    (truthyNum (Args.expenseId args) = false ->
       executeFunction H "delete_expense" args userId w
       = executeFunction H "delete_expense" (withoutExpenseId args) userId w
       /\ (ownedBy userId w = [] ->
          executeFunction H "delete_expense" args userId w
          = (Returned (failure "No expenses found to delete"), w))
       /\ (ownedBy userId w <> [] ->
           exists latest,
             In latest (ownedBy userId w)
             /\ (forall e, In e (ownedBy userId w) ->
                   e_createdAt e <= e_createdAt latest)
             /\ executeFunction H "delete_expense" args userId w
                = (Returned (deleted H (e_id latest)), withoutId (e_id latest) w)))
    /\ (forall v w',
          executeFunction H "delete_expense" args userId w = (Returned v, w') ->
          notFound v ->
          ownedBy userId w = []
          \/ (truthyNum (Args.expenseId args) = true
              /\ forall e, In e (ownedBy userId w) ->
                   Q_to_int (numOf (Args.expenseId args)) <> Some (e_id e))).
Proof.
  intros H args userId user w Hw Hu.
  rewrite (dispatch_delete H args userId user w Hu).
  rewrite (dispatch_delete H (withoutExpenseId args) userId user w Hu).
  assert (Hfalsy : truthyNum (Args.expenseId args) = false ->
       case_delete_expense H args userId w
       = case_delete_expense H (withoutExpenseId args) userId w
       /\ (ownedBy userId w = [] ->
          case_delete_expense H args userId w
          = (Returned (failure "No expenses found to delete"), w))
       /\ (ownedBy userId w <> [] ->
           exists latest,
             In latest (ownedBy userId w)
             /\ (forall e, In e (ownedBy userId w) ->
                   e_createdAt e <= e_createdAt latest)
             /\ case_delete_expense H args userId w
                = (Returned (deleted H (e_id latest)), withoutId (e_id latest) w))).
  { intro Hf. split.
    { unfold case_delete_expense, try_delete_expense. rewrite Hf. reflexivity. }
    unfold case_delete_expense, try_delete_expense, try_catch, bind. rewrite Hf.
    change (negb false) with true. cbv beta iota.
    rewrite (getLatestExpenses_one userId w Hw). split.
    - intros ->. reflexivity.
    - intro Hne. destruct (latest_first _ Hne) as [latest [rest [Hs [Hin Hmax]]]].
      exists latest. split; [exact Hin|]. split; [exact Hmax|].
      rewrite Hs. change (firstn 1 (latest :: rest)) with [latest]. cbv beta iota.
      rewrite (delete_resolved_owned H userId w latest Hw Hin). reflexivity. }
  split; [exact Hfalsy|].
  intros v w' Hr Hnf.
  destruct (truthyNum (Args.expenseId args)) eqn:Ht.
  - right. split; [reflexivity|].
    unfold case_delete_expense, try_delete_expense, try_catch in Hr. rewrite Ht in Hr.
    change (negb true) with false in Hr. cbv beta iota in Hr.
    destruct (delete_resolved H (numOf (Args.expenseId args)) userId w)
      as [[v0|ex] w0] eqn:Hd.
    + inversion Hr; subst. eapply delete_resolved_other; eassumption.
    + unfold ret in Hr. inversion Hr; subst.
      destruct Hnf as [Hnf|Hnf]; inversion Hnf.
  - destruct (Hfalsy eq_refl) as [_ [_ Hsome]].
    destruct (ownedBy userId w) as [|e0 rest0] eqn:Hown; [left; reflexivity|].
    exfalso. destruct Hsome as [latest [_ [_ Heq]]]; [discriminate|].
    rewrite Heq in Hr. inversion Hr; subst.
    destruct Hnf as [Hnf|Hnf]; inversion Hnf.
Qed.

(** The statement of C8 on the sample rows, with [expenseId = 0]: the taxi
    expense, created last, is the one deleted. *)
Lemma delete_without_id_witness :
  let args := Args.mk None None None None (Some 0%Q) None None None None in
  let w := sampleWorld [lunch; snack; taxi] healthy in
  executeFunction refHost "delete_expense" args 1 w
  = (Returned (deleted refHost 9), sampleWorld [lunch; snack] healthy).
Proof.
  intros args w.
  destruct (delete_without_id_removes_latest refHost args 1 alice w
              (fun op => eq_refl) eq_refl) as [Hfalsy _].
  destruct (Hfalsy eq_refl) as [_ [_ Hsome]].
  destruct Hsome as [latest [Hin [Hmax Heq]]]; [discriminate|].
  rewrite Heq.
  assert (Ht : In taxi (ownedBy 1 w)) by (right; right; left; reflexivity).
  apply Hmax in Ht.
  assert (Hid : e_id latest = 9).
  { simpl in Hin. destruct Hin as [<-|[<-|[<-|[]]]]; simpl in Ht; [lia|lia|reflexivity]. }
  rewrite Hid. reflexivity.
Defined.

(** ** Date ranges *)

Lemma reversed_days_select_nothing : forall H userId lo hi rows,
  hi < lo ->
  filter (fun e => (e_userId e =? userId) && inDays H lo hi e) rows = [].
Proof.
  intros H userId lo hi rows Hlt. induction rows as [|e rows IH]; simpl.
  - reflexivity.
  - rewrite IH. unfold inDays. destruct (rowDay H e) as [d|].
    + replace ((lo <=? d) && (d <=? hi)) with false.
      * rewrite andb_false_r. reflexivity.
      * symmetry. apply andb_false_iff.
        destruct (Z.leb_spec lo d); [right; apply Z.leb_gt; lia|left; reflexivity].
    + rewrite andb_false_r. reflexivity.
Qed.

Lemma reversed_range_query : forall H userId startDate endDate lo hi w,
  Healthy w ->
  sqlDate H (formatLocalDate startDate) = Some lo ->
  sqlDate H (formatLocalDate endDate) = Some hi ->
  hi < lo ->
  getExpensesByUserAndDateRange H userId startDate endDate w = (Returned [], w).
Proof.
  intros H userId startDate endDate lo hi w Hw Hlo Hhi Hlt.
  unfold getExpensesByUserAndDateRange, expense_query_range.
  rewrite Hw, Hlo, Hhi. rewrite reversed_days_select_nothing by exact Hlt.
  reflexivity.
Qed.

Lemma endDateOf_value : forall H args w,
  endDateOf H args w = (Returned (rangeEnd H args w), w).
Proof.
  intros H args w. unfold endDateOf, rangeEnd.
  destruct (truthyStr (Args.endDate args)); reflexivity.
Qed.

Lemma endDateText_value : forall args w,
  endDateText args w = (Returned (rangeEndText args w), w).
Proof.
  intros args w. unfold endDateText, rangeEndText.
  destruct (truthyStr (Args.endDate args)); reflexivity.
Qed.

Lemma log_toISOString_valid : forall d w,
  d <> InvalidDate -> log_toISOString d w = (Returned tt, w).
Proof. intros [|day ms] w Hd; [contradiction|reflexivity]. Qed.

(** C3 (as amended): for an owner whose account is found and a store that
    answers, when the start date the operation parses is later, as the
    database reads the two dates, than the end date (the one given, or today
    when none is given), [get_expenses_by_date_range] returns the normal
    result with no expense, total 0 and count 0, and
    [get_total_expenses_by_date_range] without a category returns total 0
    and count 0; both echo the start text and the end text. *)
Theorem reversed_range_returns_empty_result :
  forall (H : Host) (args : Args.t) (userId : Z) (user : User) (w : World)
         (startText : string) (lo hi : Z),
    Healthy w ->
    findById userId w = (Returned (Some user), w) ->
    Args.startDate args = Some startText ->
    parseLocalDate H startText <> InvalidDate ->
    rangeEnd H args w <> InvalidDate ->
    sqlDate H (formatLocalDate (parseLocalDate H startText)) = Some lo ->
    sqlDate H (formatLocalDate (rangeEnd H args w)) = Some hi ->
    hi < lo ->
    executeFunction H "get_expenses_by_date_range" args userId w
    = (Returned (JObj [("expenses", JArr []);
                       ("total", JNum 0);
                       ("count", JNum (inject_Z 0));
                       ("startDate", JStr startText);
                       ("endDate", JStr (rangeEndText args w))]), w)
    /\ (truthyStr (Args.category args) = false ->
        executeFunction H "get_total_expenses_by_date_range" args userId w
        = (Returned (JObj [("total", JNum 0);
                           ("count", JNum (inject_Z 0));
                           ("startDate", JStr startText);
                           ("endDate", JStr (rangeEndText args w))]), w)).
Proof.
  intros H args userId user w startText lo hi Hw Hu Hs Hvs Hve Hlo Hhi Hlt.
  split.
  - unfold executeFunction, bind. rewrite Hu. simpl.
    unfold case_get_expenses_by_date_range, bind. rewrite Hs.
    rewrite endDateOf_value.
    rewrite (log_toISOString_valid _ w Hvs), (log_toISOString_valid _ w Hve).
    rewrite (reversed_range_query H userId _ _ lo hi w Hw Hlo Hhi Hlt).
    rewrite endDateText_value.
    destruct (truthyNum (Args.limit args)); [|reflexivity].
    unfold slice0. rewrite firstn_nil. reflexivity.
  - intro Hc. unfold executeFunction, bind. rewrite Hu. simpl.
    unfold case_get_total_expenses_by_date_range, bind. rewrite Hs.
    rewrite endDateOf_value. rewrite Hc.
    rewrite (reversed_range_query H userId _ _ lo hi w Hw Hlo Hhi Hlt).
    rewrite endDateText_value. reflexivity.
Qed.

(** C3 as stated fails: with start 2025-11-10 and end 2025-11-01 the
    operation returns a normal, empty result and no failure. *)
Lemma reversed_range_counterexample :
  executeFunction refHost "get_expenses_by_date_range" reversedArgs 1
                  (sampleWorld [lunch; snack; taxi] healthy)
  = (Returned (JObj [("expenses", JArr []);
                     ("total", JNum 0);
                     ("count", JNum (inject_Z 0));
                     ("startDate", JStr "2025-11-10");
                     ("endDate", JStr "2025-11-01")]),
     sampleWorld [lunch; snack; taxi] healthy)
  /\ ~ failed (fst (executeFunction refHost "get_expenses_by_date_range" reversedArgs 1
                      (sampleWorld [lunch; snack; taxi] healthy))).
Proof.
  split.
  - vm_compute. reflexivity.
  - vm_compute. intro Hf. apply Hf. reflexivity.
Qed.

(** The statement of C3 (as amended) on the sample ledger. *)
Lemma reversed_range_witness :
  executeFunction refHost "get_expenses_by_date_range" reversedArgs 1
                  (sampleWorld [lunch; snack; taxi] healthy)
  = (Returned (JObj [("expenses", JArr []);
                     ("total", JNum 0);
                     ("count", JNum (inject_Z 0));
                     ("startDate", JStr "2025-11-10");
                     ("endDate", JStr "2025-11-01")]),
     sampleWorld [lunch; snack; taxi] healthy).
Proof.
  apply (proj1 (reversed_range_returns_empty_result refHost reversedArgs 1 alice
           (sampleWorld [lunch; snack; taxi] healthy) "2025-11-10" 20402 20393
           (fun op => eq_refl) eq_refl eq_refl
           ltac:(vm_compute; discriminate) ltac:(vm_compute; discriminate)
           ltac:(vm_compute; reflexivity) ltac:(vm_compute; reflexivity)
           ltac:(lia))).
Defined.

(** ** Missing arguments *)

Lemma save_without_amount : forall H description category dateToSave user w,
  expense_save H None description category dateToSave user w = (Thrown StoreError, w).
Proof.
  intros. unfold expense_save. destruct (faulty w SaveExpense); reflexivity.
Qed.

Lemma add_without_amount : forall H args user userId w,
  Args.amount args = None ->
  case_add_expense H args user userId w
  = (Returned (failure "Failed to save expense"), w).
Proof.
  intros H args user userId w Ha.
  unfold case_add_expense, try_add_expense, try_catch, bind, createExpense, bind.
  simpl dto_amount.
  rewrite Ha.
  destruct (truthyStr (Args.date args)); unfold ret, Date_now;
    rewrite save_without_amount; reflexivity.
Qed.

Lemma bind_returned : forall (A B : Type) (c : M A) (k : A -> M B) w v w',
  bind c k w = (Returned v, w') ->
  exists a w1, c w = (Returned a, w1) /\ k a w1 = (Returned v, w').
Proof.
  intros A B c k w v w' Hr. unfold bind in Hr.
  destruct (c w) as [[a|e] w1]; [|discriminate]. eauto.
Qed.

Lemma try_catch_returned : forall (A : Type) (body : M A) (h : Exn -> M A) w v w',
  try_catch body h w = (Returned v, w') ->
  body w = (Returned v, w')
  \/ exists e w1, body w = (Thrown e, w1) /\ h e w1 = (Returned v, w').
Proof.
  intros A body h w v w' Hr. unfold try_catch in Hr.
  destruct (body w) as [[a|e] w1]; [left; exact Hr|right; eauto].
Qed.

(** Following a run that returned through binds, handlers and branches,
    down to the [ret] that produced the result. *)
Ltac invert_run Hr :=
  cbv beta zeta in Hr;
  lazymatch type of Hr with
  | bind _ _ _ = (Returned _, _) =>
      apply bind_returned in Hr; destruct Hr as [? [? [_ Hr]]]; invert_run Hr
  | try_catch _ _ _ = (Returned _, _) =>
      apply try_catch_returned in Hr;
      destruct Hr as [Hr|[? [? [_ Hr]]]]; invert_run Hr
  | ret _ _ = (Returned _, _) => unfold ret in Hr; injection Hr as <- _
  | throw _ _ = (Returned _, _) => discriminate Hr
  | (if ?b then _ else _) _ = (Returned _, _) => destruct b; invert_run Hr
  | (match ?x with _ => _ end) _ = (Returned _, _) => destruct x; invert_run Hr
  end.

Ltac no_such_error :=
  unfold hasError, failure, periodResult, getProp; simpl;
  let Hx := fresh in intro Hx; discriminate Hx.

Lemma never_missing_argument : forall H functionName args userId w v w',
  executeFunction H functionName args userId w = (Returned v, w') ->
  ~ hasError "missing_argument" v.
Proof.
  intros H f args userId w v w' Hr.
  unfold executeFunction in Hr.
  apply bind_returned in Hr. destruct Hr as [[user|] [w0 [_ Hr]]].
  - repeat match type of Hr with
    | context [String.eqb f ?s] => destruct (String.eqb f s)
    end.
    + unfold case_add_expense, try_add_expense in Hr. invert_run Hr; no_such_error.
    + unfold case_delete_expense, try_delete_expense, delete_resolved in Hr.
      invert_run Hr; no_such_error.
    + unfold case_get_total_expenses_today in Hr. invert_run Hr; no_such_error.
    + unfold case_get_total_expenses_this_week in Hr. invert_run Hr; no_such_error.
    + unfold case_get_total_expenses_this_month in Hr. invert_run Hr; no_such_error.
    + unfold case_get_latest_expenses in Hr. invert_run Hr; no_such_error.
    + unfold case_get_total_expenses_all_time in Hr. invert_run Hr; no_such_error.
    + unfold case_get_all_expenses in Hr. invert_run Hr; no_such_error.
    + unfold case_get_expenses_by_date_range in Hr. invert_run Hr; no_such_error.
    + unfold case_get_total_expenses_by_date_range in Hr. invert_run Hr; no_such_error.
    + unfold case_generate_daily_expense_chart, try_generate_daily_expense_chart in Hr.
      invert_run Hr; no_such_error.
    + unfold case_generate_expense_report, try_generate_expense_report in Hr.
      invert_run Hr; no_such_error.
    + invert_run Hr; no_such_error.
  - invert_run Hr; no_such_error.
Qed.

(** C2 (as amended): the executor has no validation step and no result of
    it, for any function name and argument bag, is a failure with reason
    "missing_argument".  For an owner whose account is found, [add_expense]
    without [amount] passes the missing amount on to the store, whose
    rejection it reports as the failure "Failed to save expense"; the two
    date-range operations without [startDate] throw a [TypeError], which
    leaves the executor. *)
Theorem missing_required_argument_is_not_validated :
  forall (H : Host) (functionName : string) (args : Args.t) (userId : Z)
         (user : User) (w : World),
    findById userId w = (Returned (Some user), w) ->
    (forall v w',
        executeFunction H functionName args userId w = (Returned v, w') ->
        ~ hasError "missing_argument" v)
    /\ (Args.amount args = None ->
        executeFunction H "add_expense" args userId w
        = (Returned (failure "Failed to save expense"), w))
    /\ (Args.startDate args = None ->
        executeFunction H "get_expenses_by_date_range" args userId w
        = (Thrown TypeError, w)
        /\ executeFunction H "get_total_expenses_by_date_range" args userId w
           = (Thrown TypeError, w)).
Proof.
  intros H f args userId user w Hu. split; [|split].
  - intros v w'. apply never_missing_argument.
  - intro Ha. unfold executeFunction, bind. rewrite Hu. simpl.
    apply add_without_amount. exact Ha.
  - intro Hs. split; unfold executeFunction, bind; rewrite Hu; simpl.
    + unfold case_get_expenses_by_date_range. rewrite Hs. reflexivity.
    + unfold case_get_total_expenses_by_date_range. rewrite Hs. reflexivity.
Qed.

(** C2 as stated fails on the empty argument bag: [get_expenses_by_date_range]
    throws, and [add_expense] returns a failure whose reason is not
    "missing_argument". *)
Lemma missing_argument_counterexample :
  In "startDate" (requiredArguments "get_expenses_by_date_range")
  /\ Args.startDate Args.empty = None
  /\ executeFunction refHost "get_expenses_by_date_range" Args.empty 1
                     (sampleWorld [lunch] healthy)
     = (Thrown TypeError, sampleWorld [lunch] healthy)
  /\ In "amount" (requiredArguments "add_expense")
  /\ Args.amount Args.empty = None
  /\ executeFunction refHost "add_expense" Args.empty 1 (sampleWorld [lunch] healthy)
     = (Returned (failure "Failed to save expense"), sampleWorld [lunch] healthy)
  /\ ~ hasError "missing_argument" (failure "Failed to save expense").
Proof.
  repeat split; try (vm_compute; reflexivity); try (left; reflexivity).
  vm_compute. intro Hx. discriminate Hx.
Qed.

(** The statement of C2 (as amended) on the empty argument bag. *)
Lemma missing_argument_witness :
  executeFunction refHost "add_expense" Args.empty 1 (sampleWorld [lunch] healthy)
  = (Returned (failure "Failed to save expense"), sampleWorld [lunch] healthy).
Proof.
  apply (proj1 (proj2 (missing_required_argument_is_not_validated refHost "add_expense"
           Args.empty 1 alice (sampleWorld [lunch] healthy) eq_refl))).
  reflexivity.
Defined.

(** ** Collaborator failures *)






Section OrchestratorFacts.
Variable JSON_parse : string -> option JsVal.
Variable parseArguments : string -> option Args.t.
Variable JSON_stringify : JsVal -> string.
Variable round2 : list ToolMessage -> Outcome (option string).
Variable exec : string -> Args.t -> M JsVal.

Lemma orchestrator_returns : forall round1 w,
  exists reply w',
    processMessageWithTools JSON_parse parseArguments JSON_stringify round1 round2
                            exec w
    = (Returned reply, w').
Proof.
  intros round1 w. unfold processMessageWithTools.
  apply (try_catch_returns PlatformResponse _
           (fun _ => textResponse (JStr fallbackText))).
Qed.




End OrchestratorFacts.




(** ** The current week *)

Lemma timeClip_in_range : forall day ms,
  Z.abs (day * 86400000 + ms) <= 8640000000000000 ->
  timeClip day ms = LocalTime day ms.
Proof.
  intros day ms Hr. unfold timeClip.
  destruct (Z.leb_spec (Z.abs (day * 86400000 + ms)) 8640000000000000);
    [reflexivity|lia].
Qed.

(** The days [getTotalExpensesByUserThisWeek] asks the store for: from the
    most recent day with day-of-week index 0 to the day seven days later,
    both included. *)
Lemma this_week_window : forall H userId w,
  Healthy w ->
  let s := today w - getDay (today w) in
  -99999000 <= today w <= 99999000 ->
  sqlDate H (formatLocalDate (LocalTime s 0)) = Some s ->
  sqlDate H (formatLocalDate (LocalTime (s + 7) 0)) = Some (s + 7) ->
  let rows := sort (byDateDesc H)
                   (filter (fun e => (e_userId e =? userId) && inDays H s (s + 7) e)
                           (expenses w)) in
  getDay s = 0
  /\ s <= today w < s + 7
  /\ getTotalExpensesByUserThisWeek H userId w
     = (Returned (mkBucket (sumAmounts H rows) (Z.of_nat (List.length rows))), w).
Proof.
  intros H userId w Hw s Hrange Hlo Hhi rows.
  assert (Hd : 0 <= getDay (today w) < 7).
  { unfold getDay. apply Z.mod_pos_bound. lia. }
  split; [|split].
  - unfold s, getDay.
    replace (today w - (today w + 4) mod 7 + 4) with ((today w + 4) / 7 * 7)
      by (pose proof (Z.div_mod (today w + 4) 7); lia).
    apply Z.mod_mul. lia.
  - unfold s. lia.
  - unfold getTotalExpensesByUserThisWeek, bind, Date_now.
    unfold setHours. rewrite timeClip_in_range by lia.
    unfold weekStart, setDate.
    replace (today w - getDate (today w) + (getDate (today w) - getDay (today w)))
      with s by (unfold s; lia).
    rewrite timeClip_in_range by (unfold s; lia).
    unfold addDays, setDate.
    replace (s - getDate s + (getDate s + 7)) with (s + 7) by lia.
    rewrite timeClip_in_range by (unfold s; lia).
    unfold getExpensesByUserAndDateRange, expense_query_range.
    rewrite Hw, Hlo, Hhi. reflexivity.
Qed.

(** C5, the code at the failing input: on Wednesday 2025-11-05 the current
    week starts on Sunday 2025-11-02 and its seven days end on Saturday
    2025-11-08, yet the expense dated Sunday 2025-11-09 (seven days after
    the start of the week) is summed and counted by "this week". *)
Theorem this_week_counts_the_next_sunday :
  getDay wednesday = 3
  /\ isoDay "2025-11-09" = Some (wednesday - getDay wednesday + 7)
  /\ getTotalExpensesByUserThisWeek refHost 1 (sampleWorld [brunch] healthy)
     = (Returned (mkBucket (0 + 25)%Q 1), sampleWorld [brunch] healthy).
Proof.
  split; [reflexivity|]. split; [vm_compute; reflexivity|].
  vm_compute. reflexivity.
Qed.

(** * Further properties *)

(** ** Formatting for a platform *)

(** X1: the components built from template parameters, when there are any,
    are one body component whose parameters are text parameters, one for
    each key that does not start with an underscore, in the order of the
    keys; the list of parameters is never empty. *)
Theorem template_components_skip_metadata :
  forall (String_of : JsVal -> string) (params : JsVal)
         (comps : list WhatsAppFormatter.Component),
    WhatsAppFormatter.buildTemplateComponents String_of params = Some comps ->
    let kept := filter (fun kv => negb (startsWith_underscore (fst kv)))
                       (Object_entries params) in
    kept <> []
    /\ comps = [WhatsAppFormatter.mkComponent "body"
                  (map (fun kv => WhatsAppFormatter.mkParameter "text"
                                     (String_of (snd kv))) kept)]
    /\ Forall (fun c => Forall (fun p => WhatsAppFormatter.param_type p = "text")
                               (WhatsAppFormatter.parameters c)) comps.
Proof.
  intros S params comps Hb kept.
  unfold WhatsAppFormatter.buildTemplateComponents in Hb.
  destruct (negb (truthy params) || (List.length (Object_entries params) =? 0)%nat);
    [discriminate|].
  fold kept in Hb. rewrite length_map in Hb.
  destruct kept as [|kv rest] eqn:Hk; [discriminate|].
  simpl in Hb. injection Hb as <-.
  split; [discriminate|]. split; [reflexivity|].
  repeat constructor. simpl. apply Forall_forall.
  intros p Hp. apply in_map_iff in Hp. destruct Hp as [x [<- _]]. reflexivity.
Qed.

Lemma template_components_witness :
  WhatsAppFormatter.buildTemplateComponents refString
    (JObj [("_note", JStr "internal"); ("name", JStr "Ann"); ("total", JNum 12)])
  = Some [WhatsAppFormatter.mkComponent "body"
            [WhatsAppFormatter.mkParameter "text" "Ann";
             WhatsAppFormatter.mkParameter "text" "12"]].
Proof.
  destruct (template_components_skip_metadata refString
              (JObj [("_note", JStr "internal"); ("name", JStr "Ann");
                     ("total", JNum 12)])
              [WhatsAppFormatter.mkComponent "body"
                 [WhatsAppFormatter.mkParameter "text" "Ann";
                  WhatsAppFormatter.mkParameter "text" "12"]]
              eq_refl) as [_ [Hc _]].
  reflexivity.
Defined.

(** X2: the WhatsApp formatter addresses its message to the recipient it is
    given and never produces an image message, whatever [imageUrl] the
    envelope carries: the message is the text message of the content or a
    template message. *)
Theorem formatter_never_sends_image :
  forall (String_of : JsVal -> string) (r : PlatformResponse) (recipientId : string),
    match WhatsAppFormatter.format String_of r recipientId with
    | WhatsAppFormatter.WhatsappTextMessage to body =>
        to = recipientId /\ body = content r
    | WhatsAppFormatter.WhatsappTemplateMessage to tpl =>
        to = recipientId /\ WhatsAppFormatter.name tpl = templateName r
        /\ WhatsAppFormatter.language_code tpl = "en_US"
    | WhatsAppFormatter.WhatsappImageMessage _ _ _ => False
    end.
Proof.
  intros S r to.
  unfold WhatsAppFormatter.format, WhatsAppFormatter.formatTemplate,
    WhatsAppFormatter.formatText.
  destruct (MessageFormat_eqb (format r) TEMPLATE); [|split; reflexivity].
  destruct (truthy (templateName r)); simpl; repeat split; reflexivity.
Qed.

(** X3: a template response created with an empty template name is
    formatted, on either platform, exactly like the text response created
    with the same content. *)
Theorem unnamed_template_response_is_text :
  forall (String_of : JsVal -> string) (text : string) (params : JsVal)
         (platform : Platform) (recipientId : string),
    formatForPlatform String_of (createTemplateResponse text "" params) platform
                      recipientId
    = formatForPlatform String_of (createTextResponse text) platform recipientId.
Proof.
  intros S text params platform to. destruct platform; reflexivity.
Qed.

(** ** The colours of a chart *)

Lemma generateColors_from_spec : forall todo i result,
  generateColors_from i todo result
  = (result ++ map (fun j => nth (Nat.modulo j 12) colors "") (seq i todo))%list.
Proof.
  induction todo as [|todo IH]; intros i result; simpl.
  - rewrite app_nil_r. reflexivity.
  - rewrite IH. rewrite <- app_assoc. reflexivity.
Qed.

(** X4: [generateColors(count)] returns [count] colours, the colour at
    index [i] being the palette colour at index [i mod 12]: the palette is
    repeated as often as needed. *)
Theorem generateColors_cycles_palette :
  forall count : nat,
    List.length (generateColors count) = count
    /\ generateColors count
       = map (fun i => nth (Nat.modulo i 12) colors "") (seq 0 count)
    /\ Forall (fun c => In c colors) (generateColors count).
Proof.
  intro count.
  assert (Heq : generateColors count
                = map (fun i => nth (Nat.modulo i 12) colors "") (seq 0 count)).
  { unfold generateColors. rewrite generateColors_from_spec. reflexivity. }
  rewrite Heq.
  split; [rewrite length_map, length_seq; reflexivity|].
  split; [reflexivity|].
  apply Forall_forall. intros c Hc. apply in_map_iff in Hc.
  destruct Hc as [i [Hi _]]. rewrite <- Hi. apply nth_In.
  change (List.length colors) with 12%nat. apply Nat.mod_upper_bound. discriminate.
Qed.

(** ** The reply of the orchestrator *)

Lemma js_or_truthy : forall a b, truthy b = true -> truthy (js_or a b) = true.
Proof.
  intros a b Hb. unfold js_or. destruct (truthy a) eqn:Ha; assumption.
Qed.

Lemma envelopeOfParsed_fields : forall parsed r,
  Round2.envelopeOfParsed parsed = Returned r ->
  truthy (content r) = true
  /\ (truthy (imageUrl r) = true
      \/ (imageUrl r = JUndefined /\ caption r = JUndefined)).
Proof.
  intros parsed r Hr. unfold Round2.envelopeOfParsed in Hr.
  destruct (getProp parsed "format") as [fmt|]; [|discriminate].
  destruct (getProp parsed "content") as [c|]; [|discriminate].
  destruct (getProp parsed "templateName") as [tn|]; [|discriminate].
  destruct (getProp parsed "templateParams") as [tp|]; [|discriminate].
  destruct (getProp parsed "imageUrl") as [img|]; [|discriminate].
  destruct (getProp parsed "caption") as [cap|]; [|discriminate].
  destruct (truthy img) eqn:Hi; injection Hr as <-; simpl;
    (split; [apply js_or_truthy; reflexivity|]); [left; exact Hi|right; split; reflexivity].
Qed.

Lemma parseReply_fields : forall JSON_parse text,
  text <> "" ->
  truthy (content (Round2.parseReply JSON_parse text)) = true
  /\ (truthy (imageUrl (Round2.parseReply JSON_parse text)) = true
      \/ (imageUrl (Round2.parseReply JSON_parse text) = JUndefined
          /\ caption (Round2.parseReply JSON_parse text) = JUndefined)).
Proof.
  intros JSON_parse text Hne.
  assert (Hraw : truthy (JStr text) = true).
  { simpl. destruct (String.eqb_spec text ""); [contradiction|reflexivity]. }
  unfold Round2.parseReply.
  destruct (JSON_parse text) as [parsed|].
  - destruct (Round2.envelopeOfParsed parsed) as [r|e] eqn:Hr.
    + apply (envelopeOfParsed_fields parsed r Hr).
    + simpl. split; [exact Hraw|right; split; reflexivity].
  - simpl. split; [exact Hraw|right; split; reflexivity].
Qed.

Lemma truthyStr_text : forall o, truthyStr o = true -> textOf o <> "".
Proof.
  intros [s|] Ht; simpl in *; [|discriminate].
  destruct (String.eqb_spec s ""); [discriminate|assumption].
Qed.

(** X5: whatever the language model, the parsers and the executor do,
    [processMessageWithTools] returns a reply whose content is truthy (never
    missing, never the empty text), and the reply carries a caption only
    together with an image URL. *)
Theorem orchestrator_reply_has_content :
  forall (JSON_parse : string -> option JsVal)
         (parseArguments : string -> option Args.t)
         (JSON_stringify : JsVal -> string)
         (round1 : Outcome (option ChatMessage))
         (round2 : list ToolMessage -> Outcome (option string))
         (exec : string -> Args.t -> M JsVal) (w : World),
    exists reply w',
      processMessageWithTools JSON_parse parseArguments JSON_stringify round1 round2
                              exec w
      = (Returned reply, w')
      /\ truthy (content reply) = true
      /\ (truthy (imageUrl reply) = true
          \/ (imageUrl reply = JUndefined /\ caption reply = JUndefined)).
Proof.
  intros JSON_parse parseArguments JSON_stringify round1 round2 exec w.
  assert (Hfallback : forall w1 : World,
    exists reply w',
      (Returned (textResponse (JStr fallbackText)), w1) = (Returned reply, w')
      /\ truthy (content reply) = true
      /\ (truthy (imageUrl reply) = true
          \/ (imageUrl reply = JUndefined /\ caption reply = JUndefined))).
  { intro w1. eexists; eexists. split; [reflexivity|].
    simpl. split; [reflexivity|right; split; reflexivity]. }
  unfold processMessageWithTools, try_catch, bind, lift, ret.
  destruct round1 as [messageResponse|e]; [|apply Hfallback].
  destruct (negb (isEmpty (toolCallsOf messageResponse))).
  - destruct (runToolCalls parseArguments JSON_stringify exec
                (toolCallsOf messageResponse) w) as [[results|e] w1];
      [|apply Hfallback].
    destruct (round2 (validResults results)) as [final|e]; [|apply Hfallback].
    eexists; eexists. split; [reflexivity|].
    apply parseReply_fields.
    destruct (truthyStr final) eqn:Hf; [apply truthyStr_text; exact Hf|].
    vm_compute. discriminate.
  - eexists; eexists. split; [reflexivity|].
    simpl. split; [|right; split; reflexivity].
    destruct messageResponse as [m|]; [|reflexivity].
    destruct (truthyStr (m_content m)) eqn:Hc; [|reflexivity].
    destruct (String.eqb_spec (textOf (m_content m)) ""); [|reflexivity].
    exfalso. apply (truthyStr_text _ Hc). assumption.
Qed.

(** X6: when the first completion of the language model asks for no tool
    call, the reply is the plain-text envelope of its content (or of the
    fixed help text when it has no content); the second completion is not
    requested, the executor is not run and the world is left as it was. *)
Theorem no_tool_call_skips_round_two :
  forall (JSON_parse : string -> option JsVal)
         (parseArguments : string -> option Args.t)
         (JSON_stringify : JsVal -> string)
         (messageResponse : option ChatMessage)
         (round2 : list ToolMessage -> Outcome (option string))
         (exec : string -> Args.t -> M JsVal) (w : World),
    toolCallsOf messageResponse = [] ->
    processMessageWithTools JSON_parse parseArguments JSON_stringify
                            (Returned messageResponse) round2 exec w
    = (Returned (textResponse
                   (JStr match messageResponse with
                         | Some m => if truthyStr (m_content m)
                                     then textOf (m_content m) else noToolsText
                         | None => noToolsText
                         end)), w).
Proof.
  intros JSON_parse parseArguments JSON_stringify messageResponse round2 exec w Hc.
  unfold processMessageWithTools, try_catch, bind, lift, ret. rewrite Hc.
  reflexivity.
Qed.

Lemma no_tool_call_witness :
  processMessageWithTools (fun _ => None) (fun _ => None) (fun _ => "")
    (Returned (Some (mkChatMessage (Some "Hello! Tell me what you spent.") None)))
    (fun _ => Thrown ModelError)
    (fun _ _ => throw ModelError) (sampleWorld [lunch] healthy)
  = (Returned (textResponse (JStr "Hello! Tell me what you spent.")),
     sampleWorld [lunch] healthy).
Proof.
  apply (no_tool_call_skips_round_two (fun _ => None) (fun _ => None) (fun _ => "")
           (Some (mkChatMessage (Some "Hello! Tell me what you spent.") None))
           (fun _ => Thrown ModelError) (fun _ _ => throw ModelError)
           (sampleWorld [lunch] healthy)).
  reflexivity.
Defined.

(** X7: the reply read from the second completion reaches WhatsApp as a
    template message only when that output parses, its [format] is the text
    "template" and the formatter finds a truthy template name in it. *)
Theorem reply_becomes_template_only_when_named :
  forall (String_of : JsVal -> string) (JSON_parse : string -> option JsVal)
         (responseContent recipientId to : string)
         (tpl : WhatsAppFormatter.Template),
    WhatsAppFormatter.format String_of (Round2.parseReply JSON_parse responseContent)
                             recipientId
    = WhatsAppFormatter.WhatsappTemplateMessage to tpl ->
    exists parsed name,
      JSON_parse responseContent = Some parsed
      /\ getProp parsed "format" = Returned (JStr "template")
      /\ getProp parsed "templateName" = Returned name
      /\ truthy name = true
      /\ WhatsAppFormatter.name tpl = name.
Proof.
  intros S JSON_parse text rid to tpl Hf.
  unfold Round2.parseReply in Hf.
  destruct (JSON_parse text) as [parsed|] eqn:Hp; [|discriminate Hf].
  unfold Round2.envelopeOfParsed in Hf.
  destruct (getProp parsed "format") as [fmt|] eqn:Hpf; [|discriminate Hf].
  destruct (getProp_format_returns parsed _ "content" Hpf) as [c Hc].
  destruct (getProp_format_returns parsed _ "templateName" Hpf) as [tn Htn].
  destruct (getProp_format_returns parsed _ "templateParams" Hpf) as [tp Htp].
  destruct (getProp_format_returns parsed _ "imageUrl" Hpf) as [img Hi].
  destruct (getProp_format_returns parsed _ "caption" Hpf) as [cap Hcap].
  rewrite Hc, Htn, Htp, Hi, Hcap in Hf.
  exists parsed, tn.
  assert (Hgoal : fmt = JStr "template" /\ truthy tn = true
                  /\ WhatsAppFormatter.name tpl = tn).
  { unfold WhatsAppFormatter.format, WhatsAppFormatter.formatTemplate,
      WhatsAppFormatter.formatText in Hf.
    destruct fmt; try (destruct (truthy img); discriminate Hf).
    destruct (String.eqb_spec s "template") as [->|Hne];
      [|destruct (truthy img); discriminate Hf].
    destruct (truthy img); simpl in Hf;
      (destruct (truthy tn); [|discriminate Hf]);
      injection Hf as _ <-; repeat split; reflexivity. }
  destruct Hgoal as [-> [Ht Hn]]. repeat split; assumption.
Qed.

Lemma reply_template_witness :
  exists parsed name,
    (fun _ : string =>
       Some (JObj [("format", JStr "template"); ("content", JStr "Hi");
                   ("templateName", JStr "hello_world")])) "{}"
    = Some parsed
    /\ getProp parsed "format" = Returned (JStr "template")
    /\ getProp parsed "templateName" = Returned name
    /\ truthy name = true
    /\ WhatsAppFormatter.name
         (WhatsAppFormatter.mkTemplate (JStr "hello_world") "en_US" None) = name.
Proof.
  apply (reply_becomes_template_only_when_named refString
           (fun _ => Some (JObj [("format", JStr "template"); ("content", JStr "Hi");
                                 ("templateName", JStr "hello_world")]))
           "{}" "15550001" "15550001"
           (WhatsAppFormatter.mkTemplate (JStr "hello_world") "en_US" None)).
  reflexivity.
Defined.

(** ** Every declared capability has a case *)

Ltac eval_name_tests Hr :=
  repeat match type of Hr with
  | context [String.eqb ?a ?b] =>
      let r := eval vm_compute in (String.eqb a b) in
      change (String.eqb a b) with r in Hr
  end;
  cbv beta iota in Hr.

Ltac handled_case Hr :=
  unfold executeFunction in Hr;
  apply bind_returned in Hr;
  let user := fresh "user" in
  destruct Hr as [[user|] [? [_ Hr]]];
  [ eval_name_tests Hr;
    unfold case_add_expense, try_add_expense, case_delete_expense,
      try_delete_expense, delete_resolved,
      case_get_total_expenses_today, case_get_total_expenses_this_week,
      case_get_total_expenses_this_month, case_get_latest_expenses,
      case_get_total_expenses_all_time, case_get_all_expenses,
      case_get_expenses_by_date_range, case_get_total_expenses_by_date_range,
      case_generate_daily_expense_chart, try_generate_daily_expense_chart,
      case_generate_expense_report, try_generate_expense_report in Hr;
    invert_run Hr; no_such_error
  | invert_run Hr; no_such_error ].

(** X8: the declared capability names are pairwise distinct, and for each
    of them the executor runs a case of its own: no result it returns for a
    declared name is the error "Unknown function: <name>". *)
Theorem declared_capability_is_handled :
  forall (H : Host) (functionName : string) (args : Args.t) (userId : Z)
         (w w' : World) (v : JsVal),
    In functionName capabilityNames ->
    executeFunction H functionName args userId w = (Returned v, w') ->
    NoDup capabilityNames
    /\ ~ hasError ("Unknown function: " ++ functionName) v.
Proof.
  intros H f args userId w w' v Hin Hr. split.
  - unfold capabilityNames.
    repeat (constructor; [simpl; intuition discriminate|]). constructor.
  - unfold capabilityNames in Hin. simpl in Hin.
    repeat (destruct Hin as [<-|Hin]; [handled_case Hr|]). contradiction.
Qed.

Lemma declared_capability_witness :
  NoDup capabilityNames
  /\ ~ hasError ("Unknown function: " ++ "get_total_expenses_all_time")
                (JObj [("total", JNum 0); ("period", JStr "all time")]).
Proof.
  apply (declared_capability_is_handled refHost "get_total_expenses_all_time"
           Args.empty 1 (sampleWorld [] healthy) (sampleWorld [] healthy)).
  - simpl. tauto.
  - reflexivity.
Defined.

(** ** Queries leave the ledger alone *)

Lemma preserves_ret : forall (A : Type) (a : A), preserves_world (ret a).
Proof. intros A a w o w' Hr. unfold ret in Hr. congruence. Qed.

Lemma preserves_throw : forall (A : Type) (e : Exn), preserves_world (@throw A e).
Proof. intros A e w o w' Hr. unfold throw in Hr. congruence. Qed.

Lemma preserves_bind : forall (A B : Type) (c : M A) (k : A -> M B),
  preserves_world c -> (forall a, preserves_world (k a)) -> preserves_world (bind c k).
Proof.
  intros A B c k Hc Hk w o w' Hr. unfold bind in Hr.
  destruct (c w) as [[a|e] w1] eqn:Hcw.
  - apply Hc in Hcw. subst w1. apply (Hk a) in Hr. exact Hr.
  - apply Hc in Hcw. congruence.
Qed.

Lemma preserves_try_catch : forall (A : Type) (body : M A) (h : Exn -> M A),
  preserves_world body -> (forall e, preserves_world (h e)) ->
  preserves_world (try_catch body h).
Proof.
  intros A body h Hb Hh w o w' Hr. unfold try_catch in Hr.
  destruct (body w) as [[a|e] w1] eqn:Hbw.
  - apply Hb in Hbw. congruence.
  - apply Hb in Hbw. subst w1. apply (Hh e) in Hr. exact Hr.
Qed.

Lemma preserves_Date_now : preserves_world Date_now.
Proof. intros w o w' Hr. unfold Date_now in Hr. congruence. Qed.

Lemma preserves_findById : forall id, preserves_world (findById id).
Proof.
  intros id w o w' Hr. unfold findById in Hr.
  destruct (faulty w FindUser); congruence.
Qed.

Lemma preserves_query_range : forall H userId s e,
  preserves_world (expense_query_range H userId s e).
Proof.
  intros H userId s e w o w' Hr. unfold expense_query_range in Hr.
  destruct (faulty w QueryExpenses); [congruence|].
  destruct (sqlDate H s); [|congruence]. destruct (sqlDate H e); congruence.
Qed.

Lemma preserves_query_day : forall H userId s,
  preserves_world (expense_query_day H userId s).
Proof.
  intros H userId s w o w' Hr. unfold expense_query_day in Hr.
  destruct (faulty w QueryExpenses); [congruence|].
  destruct (sqlDate H s); congruence.
Qed.

Lemma preserves_query_sum : forall userId, preserves_world (expense_query_sum userId).
Proof.
  intros userId w o w' Hr. unfold expense_query_sum in Hr.
  destruct (faulty w QueryExpenses); [congruence|].
  destruct (filter _ (expenses w)); congruence.
Qed.

Lemma preserves_find_all : forall H userId, preserves_world (expense_find_all H userId).
Proof.
  intros H userId w o w' Hr. unfold expense_find_all in Hr.
  destruct (faulty w QueryExpenses); congruence.
Qed.

Lemma preserves_find_latest : forall userId take,
  preserves_world (expense_find_latest userId take).
Proof.
  intros userId take w o w' Hr. unfold expense_find_latest in Hr.
  destruct (faulty w QueryExpenses); [congruence|].
  destruct (Q_to_int take) as [n|]; [|congruence].
  destruct (n <? 0); congruence.
Qed.

Lemma preserves_range : forall H userId s e,
  preserves_world (getExpensesByUserAndDateRange H userId s e).
Proof. intros. unfold getExpensesByUserAndDateRange. apply preserves_query_range. Qed.

Lemma preserves_this_month : forall H userId,
  preserves_world (getTotalExpensesByUserThisMonth H userId).
Proof.
  intros H userId w o w' Hr. unfold getTotalExpensesByUserThisMonth in Hr.
  cbv zeta in Hr. revert Hr. apply preserves_bind.
  - apply preserves_range.
  - intro a. apply preserves_ret.
Qed.

Lemma preserves_log : forall d, preserves_world (log_toISOString d).
Proof.
  intros [|day ms] w o w' Hr; unfold log_toISOString, throw, ret in Hr; congruence.
Qed.

Lemma preserves_pie : forall H labels data total title,
  preserves_world (generatePieChartUrl H labels data total title).
Proof.
  intros. unfold generatePieChartUrl.
  destruct (_ || _); [apply preserves_throw|apply preserves_ret].
Qed.

Lemma preserves_bar : forall H labels data total title,
  preserves_world (generateBarChartUrl H labels data total title).
Proof.
  intros. unfold generateBarChartUrl.
  destruct (_ || _); [apply preserves_throw|apply preserves_ret].
Qed.

(** Taking a computation apart down to the store calls it is made of. *)
Ltac preserves :=
  cbv zeta;
  repeat first
    [ apply preserves_ret | apply preserves_throw | apply preserves_Date_now
    | apply preserves_findById | apply preserves_range | apply preserves_query_day
    | apply preserves_query_sum | apply preserves_find_all
    | apply preserves_find_latest | apply preserves_this_month
    | apply preserves_log | apply preserves_pie | apply preserves_bar
    | apply preserves_bind; [|intro]
    | apply preserves_try_catch; [|intro]
    | match goal with
      | |- preserves_world (if ?b then _ else _) => destruct b
      | |- preserves_world (match ?x with _ => _ end) => destruct x
      end ].

Lemma preserves_by_category : forall H userId period,
  preserves_world (getExpensesByCategory H userId period).
Proof.
  intros H userId period. unfold getExpensesByCategory. apply preserves_bind.
  - destruct (is_text period "this_month").
    + intros w o w' Hr. cbv zeta in Hr. revert Hr. apply preserves_range.
    + unfold getExpensesByUser. preserves.
  - intro a. apply preserves_ret.
Qed.

(** X9: the ten capabilities other than [add_expense] and [delete_expense]
    only read: whatever they return or throw, the users, the ledger and the
    rest of the world are afterwards exactly what they were
    ([get_total_expenses_by_date_range] is covered for calls without a
    category). *)
Theorem queries_leave_the_world_unchanged :
  forall (H : Host) (functionName : string) (args : Args.t) (userId : Z)
         (w w' : World) (o : Outcome JsVal),
    In functionName queryCapabilities ->
    (functionName = "get_total_expenses_by_date_range" ->
     truthyStr (Args.category args) = false) ->
    executeFunction H functionName args userId w = (o, w') ->
    w' = w.
Proof.
  intros H f args userId w w' o Hin Hcat. revert w o w'.
  change (preserves_world (executeFunction H f args userId)).
  unfold executeFunction. apply preserves_bind; [apply preserves_findById|].
  intros [user|]; [|apply preserves_ret].
  unfold queryCapabilities in Hin. simpl in Hin.
  repeat (destruct Hin as [<-|Hin];
          [match goal with
           | |- preserves_world ?c =>
               let c' := eval cbn [String.eqb Ascii.eqb Bool.eqb] in c in
               change (preserves_world c')
           end|]); try contradiction.
  - unfold case_get_total_expenses_today, getTotalExpensesByUserToday. preserves.
  - unfold case_get_total_expenses_this_week, getTotalExpensesByUserThisWeek. preserves.
  - unfold case_get_total_expenses_this_month. preserves.
  - unfold case_get_latest_expenses, getLatestExpenses. preserves.
  - unfold case_get_total_expenses_all_time, getTotalExpensesByUser. preserves.
  - unfold case_get_all_expenses, getExpensesByUser. preserves.
  - unfold case_get_expenses_by_date_range, endDateOf, endDateText. preserves.
  - unfold case_get_total_expenses_by_date_range, endDateOf, endDateText.
    rewrite (Hcat eq_refl). preserves.
  - unfold case_generate_expense_report, try_generate_expense_report.
    apply preserves_try_catch; [|intro; preserves].
    cbv zeta. apply preserves_bind; [apply preserves_by_category|]. intro a. preserves.
  - unfold case_generate_daily_expense_chart, try_generate_daily_expense_chart,
      chartRange, getDailyExpenses.
    preserves.
Qed.

Lemma queries_unchanged_witness :
  snd (executeFunction refHost "get_all_expenses" Args.empty 1
         (sampleWorld [lunch; snack; taxi] healthy))
  = sampleWorld [lunch; snack; taxi] healthy.
Proof.
  apply (queries_leave_the_world_unchanged refHost "get_all_expenses" Args.empty 1
           (sampleWorld [lunch; snack; taxi] healthy) _
           (fst (executeFunction refHost "get_all_expenses" Args.empty 1
                   (sampleWorld [lunch; snack; taxi] healthy)))).
  - simpl. tauto.
  - discriminate.
  - apply surjective_pairing.
Defined.

(** ** What the groupings conserve *)

Lemma fold_left_sumZ : forall (A : Type) (f : A -> Z) (l : list A) (a : Z),
  fold_left (fun sum x => sum + f x) l a = a + sumZ (map f l).
Proof.
  intros A f l. induction l as [|x l IH]; intro a; simpl.
  - lia.
  - rewrite IH. lia.
Qed.

Lemma map_set_counts : forall k v (m : list (string * Bucket)),
  sumZ (map (fun kv => count (snd kv)) (map_set k v m))
  = sumZ (map (fun kv => count (snd kv)) m) + count v - count (orZero (assoc k m)).
Proof.
  intros k v m. induction m as [|[k0 b0] m IH]; simpl.
  - lia.
  - destruct (String.eqb k k0); simpl; [lia|]. rewrite IH. lia.
Qed.

Lemma tally_conserves_from : forall H key l m,
  sumZ (map (fun kv => count (snd kv)) (fold_left (tally_step H key) l m))
  = sumZ (map (fun kv => count (snd kv)) m) + Z.of_nat (List.length l).
Proof.
  intros H key l. induction l as [|e l IH]; intro m.
  - simpl. lia.
  - simpl fold_left. rewrite (IH (tally_step H key m e)).
    unfold tally_step, map_get. rewrite map_set_counts.
    destruct (assoc (key e) m) as [b|]; simpl orZero; simpl count;
      simpl List.length; lia.
Qed.

Lemma sumZ_perm : forall l l', Permutation l l' -> sumZ l = sumZ l'.
Proof. induction 1; simpl; lia. Qed.

Lemma groupByCategory_counts : forall H rows,
  fold_left (fun sum item => sum + c_count item) (groupByCategory H rows) 0
  = Z.of_nat (List.length rows).
Proof.
  intros H rows. rewrite fold_left_sumZ.
  unfold groupByCategory. rewrite !map_map. simpl.
  unfold tally. rewrite (tally_conserves_from H (normalizedCategory H) rows []).
  simpl. lia.
Qed.

Lemma groupByDay_counts : forall H rows,
  fold_left (fun sum item => sum + d_count item) (groupByDay H rows) 0
  = Z.of_nat (List.length rows).
Proof.
  intros H rows. rewrite fold_left_sumZ. unfold groupByDay.
  set (raw := map (fun kv => mkDailyTotal (fst kv) (total (snd kv)) (count (snd kv)))
                  (tally H (fun expense => formatDate (e_date expense)) rows)).
  assert (Hperm := sort_perm (fun a b => localeCompare (d_date a) (d_date b)) raw).
  rewrite (sumZ_perm _ _ (Permutation_map d_count Hperm)).
  unfold raw. rewrite !map_map. simpl.
  unfold tally.
  rewrite (tally_conserves_from H (fun expense => formatDate (e_date expense)) rows []).
  simpl. lia.
Qed.

(** X10: the two groupings lose and invent no record: whatever the
    category texts, the date keys and the host, the counts of the category
    buckets add up to the number of records, and so do the counts of the
    daily entries; a grouping is empty only when there is no record. *)
Theorem grouping_counts_add_up :
  forall (H : Host) (rows : list Expense),
    fold_left (fun sum item => sum + c_count item) (groupByCategory H rows) 0
    = Z.of_nat (List.length rows)
    /\ fold_left (fun sum item => sum + d_count item) (groupByDay H rows) 0
       = Z.of_nat (List.length rows)
    /\ (groupByCategory H rows = [] <-> rows = [])
    /\ (groupByDay H rows = [] <-> rows = []).
Proof.
  intros H rows.
  assert (Hc := groupByCategory_counts H rows).
  assert (Hd := groupByDay_counts H rows).
  split; [exact Hc|]. split; [exact Hd|]. split; split.
  - intro He. rewrite He in Hc. simpl in Hc. destruct rows; [reflexivity|].
    simpl in Hc. lia.
  - intros ->. reflexivity.
  - intro He. rewrite He in Hd. simpl in Hd. destruct rows; [reflexivity|].
    simpl in Hd. lia.
  - intros ->. reflexivity.
Qed.

(** ** Deleting stays within the owner's rows *)

Lemma deleteExpense_effect : forall q userId w o w',
  deleteExpense q userId w = (o, w') ->
  w' = w
  \/ exists e, In e (expenses w) /\ e_userId e = userId /\ w' = withoutId (e_id e) w.
Proof.
  intros q userId w o w' Hr.
  unfold deleteExpense, bind, expense_findOne in Hr.
  destruct (faulty w FindExpense); [left; congruence|].
  destruct (Q_to_int q) as [n|]; [|left; congruence].
  destruct (find (fun e => (e_id e =? n) && (e_userId e =? userId)) (expenses w))
    as [e|] eqn:Hf.
  - apply find_some in Hf. destruct Hf as [Hin Hp].
    apply andb_true_iff in Hp. destruct Hp as [_ Hu]. apply Z.eqb_eq in Hu.
    unfold expense_remove in Hr.
    destruct (faulty w RemoveExpense); [left; congruence|].
    right. exists e. split; [exact Hin|]. split; [exact Hu|].
    unfold ret in Hr. unfold withoutId. congruence.
  - unfold ret in Hr. left. congruence.
Qed.

Lemma delete_resolved_effect : forall H q userId w o w',
  delete_resolved H q userId w = (o, w') ->
  w' = w
  \/ exists e, In e (expenses w) /\ e_userId e = userId /\ w' = withoutId (e_id e) w.
Proof.
  intros H q userId w o w' Hr. unfold delete_resolved, bind in Hr.
  destruct (deleteExpense q userId w) as [[d|ex] w1] eqn:Hd.
  - destruct (negb d); unfold ret in Hr; injection Hr as _ <-;
      apply (deleteExpense_effect _ _ _ _ _ Hd).
  - injection Hr as _ <-. apply (deleteExpense_effect _ _ _ _ _ Hd).
Qed.

Lemma case_delete_effect : forall H args userId w o w',
  case_delete_expense H args userId w = (o, w') ->
  w' = w
  \/ exists e, In e (expenses w) /\ e_userId e = userId /\ w' = withoutId (e_id e) w.
Proof.
  intros H args userId w o w' Hr. unfold case_delete_expense, try_catch in Hr.
  assert (Hbody : forall o1 w1,
    try_delete_expense H args userId w = (o1, w1) ->
    w1 = w
    \/ exists e, In e (expenses w) /\ e_userId e = userId
                 /\ w1 = withoutId (e_id e) w).
  { intros o1 w1 Hb. unfold try_delete_expense in Hb.
    destruct (negb (truthyNum (Args.expenseId args))).
    - unfold bind in Hb.
      destruct (getLatestExpenses userId 1 w) as [[l|ex] w2] eqn:Hl;
        apply preserves_find_latest in Hl; subst w2.
      + destruct l as [|latest rest].
        * unfold ret in Hb. left. congruence.
        * apply (delete_resolved_effect _ _ _ _ _ _ Hb).
      + left. congruence.
    - apply (delete_resolved_effect _ _ _ _ _ _ Hb). }
  match type of Hr with
  | (let (_, _) := ?body in _) = _ => destruct body as [[a|ex] w1] eqn:Hb
  end.
  - injection Hr as _ <-. apply (Hbody _ _ eq_refl).
  - unfold ret in Hr. injection Hr as _ <-. apply (Hbody _ _ eq_refl).
Qed.

Lemma same_id_same_row : forall (l : list Expense) a b,
  NoDup (map e_id l) -> In a l -> In b l -> e_id a = e_id b -> a = b.
Proof.
  induction l as [|x l IH]; intros a b Hnd Ha Hb Heq; [contradiction|].
  simpl in Hnd. inversion Hnd as [|? ? Hnotin Hnd']; subst.
  destruct Ha as [<-|Ha]; destruct Hb as [<-|Hb].
  - reflexivity.
  - exfalso. apply Hnotin. rewrite Heq. apply in_map. exact Hb.
  - exfalso. apply Hnotin. rewrite <- Heq. apply in_map. exact Ha.
  - apply IH; assumption.
Qed.

Lemma remove_one_row : forall (l : list Expense) e,
  NoDup (map e_id l) -> In e l ->
  (List.length (filter (fun x => negb (e_id x =? e_id e)%Z) l) + 1
   = List.length l)%nat.
Proof.
  induction l as [|x l IH]; intros e Hnd Hin; [contradiction|].
  simpl in Hnd. inversion Hnd as [|? ? Hnotin Hnd']; subst.
  simpl. destruct Hin as [<-|Hin].
  - rewrite Z.eqb_refl. simpl.
    replace (filter (fun x0 => negb (e_id x0 =? e_id x)) l) with l; [lia|].
    symmetry. apply forallb_filter_id. apply forallb_forall.
    intros y Hy. apply negb_true_iff. apply Z.eqb_neq. intro Heq.
    apply Hnotin. rewrite <- Heq. apply in_map. exact Hy.
  - destruct (Z.eqb_spec (e_id x) (e_id e)) as [Heq|Hne]; simpl.
    + exfalso. apply Hnotin. rewrite Heq. apply in_map. exact Hin.
    + rewrite <- (IH e Hnd' Hin). lia.
Qed.

(** X11: [delete_expense] never touches a row of another owner.  With
    distinct row ids, whatever the arguments and whatever the store does,
    after the call every expense of another owner is still in the ledger,
    no row has been added, at most one row is gone, and the users are the
    same. *)
Theorem delete_keeps_other_owners_rows :
  forall (H : Host) (args : Args.t) (userId : Z) (w w' : World) (o : Outcome JsVal),
    NoDup (map e_id (expenses w)) ->
    executeFunction H "delete_expense" args userId w = (o, w') ->
    users w' = users w
    /\ (forall e, In e (expenses w) -> e_userId e <> userId -> In e (expenses w'))
    /\ (forall e, In e (expenses w') -> In e (expenses w))
    /\ (List.length (expenses w) <= List.length (expenses w') + 1)%nat.
Proof.
  intros H args userId w w' o Hnd Hr.
  assert (Heff : w' = w
    \/ exists e, In e (expenses w) /\ e_userId e = userId
                 /\ w' = withoutId (e_id e) w).
  { unfold executeFunction, bind in Hr.
    destruct (findById userId w) as [[[user|]|ex] w1] eqn:Hu;
      apply preserves_findById in Hu; subst w1.
    - simpl in Hr. apply (case_delete_effect _ _ _ _ _ _ Hr).
    - unfold ret in Hr. left. congruence.
    - left. congruence. }
  destruct Heff as [->|[e [Hin [Hown ->]]]].
  - repeat split; auto; lia.
  - simpl. split; [reflexivity|]. split; [|split].
    + intros x Hx Hother. apply filter_In. split; [exact Hx|].
      apply negb_true_iff. apply Z.eqb_neq. intro Heq.
      apply Hother. rewrite (same_id_same_row _ x e Hnd Hx Hin Heq). exact Hown.
    + intros x Hx. apply filter_In in Hx. tauto.
    + rewrite <- (remove_one_row _ e Hnd Hin). lia.
Qed.

Lemma delete_other_owner_witness :
  In bobsRow
     (expenses (snd (executeFunction refHost "delete_expense"
                       (Args.mk None None None None (Some 11%Q) None None None None) 1
                       (sampleWorld [lunch; bobsRow] healthy)))).
Proof.
  destruct (delete_keeps_other_owners_rows refHost
              (Args.mk None None None None (Some 11%Q) None None None None) 1
              (sampleWorld [lunch; bobsRow] healthy)
              (snd (executeFunction refHost "delete_expense"
                      (Args.mk None None None None (Some 11%Q) None None None None) 1
                      (sampleWorld [lunch; bobsRow] healthy)))
              (fst (executeFunction refHost "delete_expense"
                      (Args.mk None None None None (Some 11%Q) None None None None) 1
                      (sampleWorld [lunch; bobsRow] healthy))))
    as [_ [Hkeep _]].
  - simpl. repeat constructor; simpl; intuition discriminate.
  - apply surjective_pairing.
  - apply Hkeep; [right; left; reflexivity|discriminate].
Defined.

(** ** Normalising a category *)














(** ** Adding an expense *)






(** ** An owner without expenses *)

Lemma filter_and_nil : forall (A : Type) (f g : A -> bool) (l : list A),
  filter f l = [] -> filter (fun x => f x && g x) l = [].
Proof.
  intros A f g l. induction l as [|x l IH]; simpl; [reflexivity|].
  destruct (f x); [discriminate|]. simpl. exact IH.
Qed.

(** X14: for an owner whose account is found and who has no expense, with
    a store that answers, the totals are zero and no error:
    [get_total_expenses_today] returns total 0 and count 0 and
    [get_total_expenses_all_time] returns total 0. *)
Theorem no_expenses_give_zero_totals :
  forall (H : Host) (args : Args.t) (userId : Z) (user : User) (w : World) (d : Z),
    Healthy w ->
    findById userId w = (Returned (Some user), w) ->
    ownedBy userId w = [] ->
    sqlDate H (formatLocalDate (nowOf w)) = Some d ->
    executeFunction H "get_total_expenses_today" args userId w
    = (Returned (JObj [("total", JNum 0); ("count", JNum (inject_Z 0));
                       ("period", JStr "today")]), w)
    /\ executeFunction H "get_total_expenses_all_time" args userId w
       = (Returned (JObj [("total", JNum 0); ("period", JStr "all time")]), w).
Proof.
  intros H args userId user w d Hw Hu Hnone Hsql. unfold ownedBy in Hnone. split.
  - unfold executeFunction, bind. rewrite Hu. simpl.
    unfold case_get_total_expenses_today, getTotalExpensesByUserToday, bind, Date_now.
    fold (nowOf w). unfold expense_query_day. rewrite Hw, Hsql.
    rewrite (filter_and_nil _ _ _ _ Hnone). reflexivity.
  - unfold executeFunction, bind. rewrite Hu. simpl.
    unfold case_get_total_expenses_all_time, getTotalExpensesByUser, bind,
      expense_query_sum.
    rewrite Hw, Hnone. reflexivity.
Qed.

Lemma no_expenses_witness :
  executeFunction refHost "get_total_expenses_today" Args.empty 1
                  (sampleWorld [] healthy)
  = (Returned (JObj [("total", JNum 0); ("count", JNum (inject_Z 0));
                     ("period", JStr "today")]), sampleWorld [] healthy).
Proof.
  apply (proj1 (no_expenses_give_zero_totals refHost Args.empty 1 alice
                  (sampleWorld [] healthy) 20397 (fun op => eq_refl) eq_refl eq_refl
                  ltac:(vm_compute; reflexivity))).
Defined.

(** ** The category report *)

Lemma groupByCategory_empty : forall H rows,
  isEmpty (groupByCategory H rows) = isEmpty rows.
Proof.
  intros H rows. assert (Hc := groupByCategory_counts H rows).
  unfold isEmpty. destruct rows as [|e rows]; [reflexivity|].
  destruct (groupByCategory H (e :: rows)) as [|c cs]; [|reflexivity].
  simpl in Hc. lia.
Qed.

Lemma all_time_rows : forall H userId p w,
  Healthy w ->
  String.eqb p "this_month" = false ->
  String.eqb p "this_week" = false ->
  getExpensesByCategory H userId (Some p) w
  = (Returned (groupByCategory H (sort (byDateDesc H) (ownedBy userId w))), w).
Proof.
  intros H userId p w Hw Hm Hk.
  unfold getExpensesByCategory, bind, is_text. rewrite Hm, Hk.
  unfold getExpensesByUser, bind, expense_find_all. rewrite Hw. reflexivity.
Qed.

(** X15: [generate_expense_report] for a period text other than
    "this_month" and "this_week" reports on all the expenses of the owner
    (account found, store answering): without any expense the result is
    the failure "No expenses found for the selected period" and no chart is
    requested; otherwise it is a success carrying a QuickChart URL and a
    [totalCount] equal to the number of the owner's expenses. *)
Theorem report_over_all_expenses :
  forall (H : Host) (args : Args.t) (userId : Z) (user : User) (w : World)
         (p : string),
    Healthy w ->
    findById userId w = (Returned (Some user), w) ->
    Args.period args = Some p ->
    p <> "" -> p <> "this_month" -> p <> "this_week" ->
    (ownedBy userId w = [] ->
     executeFunction H "generate_expense_report" args userId w
     = (Returned (failure "No expenses found for the selected period"), w))
    /\ (ownedBy userId w <> [] ->
        exists encoded categoryData total,
          executeFunction H "generate_expense_report" args userId w
          = (Returned (JObj [("success", JBool true);
                             ("chartUrl", JStr (quickChartUrl ++ "?c=" ++ encoded));
                             ("period", JStr p);
                             ("categoryData", JArr categoryData);
                             ("total", JNum total);
                             ("totalCount",
                              JNum (inject_Z (Z.of_nat
                                      (List.length (ownedBy userId w)))))]), w)).
Proof.
  intros H args userId user w p Hw Hu Hp Hne Hm Hk.
  assert (Hdisp : executeFunction H "generate_expense_report" args userId w
                  = case_generate_expense_report H args userId w).
  { unfold executeFunction, bind. rewrite Hu. reflexivity. }
  rewrite Hdisp. clear Hdisp.
  assert (Ht : truthyStr (Args.period args) = true).
  { rewrite Hp. simpl. destruct (String.eqb_spec p ""); [contradiction|reflexivity]. }
  apply String.eqb_neq in Hm, Hk.
  set (rows := sort (byDateDesc H) (ownedBy userId w)).
  assert (Hlen : List.length rows = List.length (ownedBy userId w)).
  { apply Permutation_length. apply sort_perm. }
  unfold case_generate_expense_report, try_generate_expense_report, try_catch, bind.
  rewrite Ht, Hp.
  cbn [textOf]. cbv zeta.
  rewrite (all_time_rows H userId p w Hw Hm Hk). fold rows.
  rewrite groupByCategory_empty. split.
  - intro Hnone. unfold isEmpty. rewrite Hlen, Hnone. reflexivity.
  - intro Hsome.
    assert (He : isEmpty rows = false).
    { unfold isEmpty. rewrite Hlen.
      destruct (ownedBy userId w); [contradiction|reflexivity]. }
    rewrite He. cbv beta iota.
    unfold generatePieChartUrl. rewrite !length_map.
    rewrite <- (groupByCategory_empty H) in He. unfold isEmpty in He. rewrite He.
    cbn [orb]. unfold ret. cbv beta iota.
    rewrite groupByCategory_counts, Hlen, Hm, Hk.
    eexists; eexists; eexists. reflexivity.
Qed.

Lemma report_witness :
  executeFunction refHost "generate_expense_report"
    (Args.mk None None None None None None None None (Some "last_year")) 1
    (sampleWorld [] healthy)
  = (Returned (failure "No expenses found for the selected period"),
     sampleWorld [] healthy).
Proof.
  apply (proj1 (report_over_all_expenses refHost
                  (Args.mk None None None None None None None None (Some "last_year"))
                  1 alice (sampleWorld [] healthy) "last_year"
                  (fun op => eq_refl) eq_refl eq_refl
                  ltac:(discriminate) ltac:(discriminate) ltac:(discriminate))).
  reflexivity.
Defined.

(** ** The latest expenses *)






(** ** The rows of a date range *)

(** X17: with a store that answers and two dates the database reads as the
    days [lo] and [hi], [getExpensesByUserAndDateRange] returns exactly the
    rows of the ledger that belong to the user and whose day lies between
    [lo] and [hi], both included; no row of another user is ever returned,
    and the ledger is left as it was. *)
Theorem range_query_is_scoped_to_the_owner :
  forall (H : Host) (userId : Z) (startDate endDate : Date) (lo hi : Z) (w : World),
    Healthy w ->
    sqlDate H (formatLocalDate startDate) = Some lo ->
    sqlDate H (formatLocalDate endDate) = Some hi ->
    exists rows,
      getExpensesByUserAndDateRange H userId startDate endDate w = (Returned rows, w)
      /\ (forall e, In e rows <->
            In e (expenses w) /\ e_userId e = userId
            /\ exists d, rowDay H e = Some d /\ lo <= d <= hi)
      /\ Permutation rows
           (filter (fun e => (e_userId e =? userId) && inDays H lo hi e) (expenses w)).
Proof.
  intros H userId startDate endDate lo hi w Hw Hlo Hhi.
  eexists. split; [|split].
  - unfold getExpensesByUserAndDateRange, expense_query_range.
    rewrite Hw, Hlo, Hhi. reflexivity.
  - intro e. split.
    + intro Hin. apply (Permutation_in _ (sort_perm _ _)) in Hin.
      apply filter_In in Hin. destruct Hin as [Hin Hp].
      apply andb_true_iff in Hp. destruct Hp as [Hu Hd].
      split; [exact Hin|]. split; [apply Z.eqb_eq; exact Hu|].
      unfold inDays in Hd. destruct (rowDay H e) as [d|]; [|discriminate].
      exists d. split; [reflexivity|].
      apply andb_true_iff in Hd. destruct Hd as [H1 H2].
      apply Z.leb_le in H1, H2. lia.
    + intros [Hin [Hu [d [Hd Hr]]]].
      apply (Permutation_in _ (Permutation_sym (sort_perm _ _))).
      apply filter_In. split; [exact Hin|].
      apply andb_true_iff. split; [apply Z.eqb_eq; exact Hu|].
      unfold inDays. rewrite Hd. apply andb_true_iff.
      split; apply Z.leb_le; lia.
  - apply sort_perm.
Qed.

Lemma range_query_witness :
  exists rows,
    getExpensesByUserAndDateRange refHost 1 (Date_ymd 2025 10 1) (Date_ymd 2025 10 3)
                                  (sampleWorld [lunch; bobsRow; snack] healthy)
    = (Returned rows, sampleWorld [lunch; bobsRow; snack] healthy)
    /\ (forall e, In e rows <->
          In e (expenses (sampleWorld [lunch; bobsRow; snack] healthy))
          /\ e_userId e = 1
          /\ exists d, rowDay refHost e = Some d /\ 20393 <= d <= 20395)
    /\ Permutation rows
         (filter (fun e => (e_userId e =? 1) && inDays refHost 20393 20395 e)
                 (expenses (sampleWorld [lunch; bobsRow; snack] healthy))).
Proof.
  apply (range_query_is_scoped_to_the_owner refHost 1 (Date_ymd 2025 10 1)
           (Date_ymd 2025 10 3) 20393 20395
           (sampleWorld [lunch; bobsRow; snack] healthy)).
  - intro op. reflexivity.
  - vm_compute. reflexivity.
  - vm_compute. reflexivity.
Defined.

(** ** Limits of a listing *)

(** X18: with a store that answers, [getExpensesByUser] lists the expenses
    of the user newest date first and applies the limit as [slice(0, limit)]
    does: a missing limit and the limit 0 give the whole listing, a positive
    limit [n] its first [n] rows, and a negative limit [-k] all rows but the
    last [k]. *)
Theorem listing_limit_is_a_slice :
  forall (H : Host) (userId : Z) (limit : option Q) (w : World),
    Healthy w ->
    exists rows,
      getExpensesByUser H userId limit w = (Returned rows, w)
      /\ (truthyNum limit = false ->
          rows = sort (byDateDesc H) (ownedBy userId w))
      /\ (truthyNum limit = true -> 0 <= ToInteger (numOf limit) ->
          rows = firstn (Z.to_nat (ToInteger (numOf limit)))
                        (sort (byDateDesc H) (ownedBy userId w)))
      /\ (truthyNum limit = true -> ToInteger (numOf limit) < 0 ->
          rows = firstn (List.length (sort (byDateDesc H) (ownedBy userId w))
                         - Z.to_nat (- ToInteger (numOf limit)))
                        (sort (byDateDesc H) (ownedBy userId w))).
Proof.
  intros H userId limit w Hw.
  set (all := sort (byDateDesc H) (ownedBy userId w)).
  unfold getExpensesByUser, bind, expense_find_all. rewrite Hw. fold (ownedBy userId w).
  fold all. destruct (truthyNum limit) eqn:Ht.
  - destruct limit as [q|]; [|discriminate]. simpl numOf.
    eexists. split; [reflexivity|]. split; [discriminate|].
    unfold slice0. split; intros _ Hq.
    + destruct (Z.ltb_spec (ToInteger q) 0); [lia|].
      destruct (Z.le_ge_cases (ToInteger q) (Z.of_nat (List.length all))) as [Hle|Hge].
      * rewrite Z.min_l by exact Hle. reflexivity.
      * rewrite Z.min_r by exact Hge. rewrite Nat2Z.id.
        rewrite firstn_all. symmetry. apply firstn_all2. lia.
    + destruct (Z.ltb_spec (ToInteger q) 0); [|lia].
      f_equal. lia.
  - eexists. split; [reflexivity|]. split; [reflexivity|].
    split; discriminate.
Qed.

Lemma listing_limit_witness :
  exists rows,
    getExpensesByUser refHost 1 (Some (-1)%Q) (sampleWorld [lunch; snack; taxi] healthy)
    = (Returned rows, sampleWorld [lunch; snack; taxi] healthy)
    /\ rows = [taxi; lunch].
Proof.
  destruct (listing_limit_is_a_slice refHost 1 (Some (-1)%Q)
              (sampleWorld [lunch; snack; taxi] healthy) (fun op => eq_refl))
    as [rows [Hr [_ [_ Hneg]]]].
  exists rows. split; [exact Hr|].
  rewrite (Hneg eq_refl ltac:(vm_compute; reflexivity)). vm_compute. reflexivity.
Defined.

(** ** Dates without time, and back from their texts *)

Lemma days_from_civil_day :
  forall y m d, days_from_civil y m 1 + d - 1 = days_from_civil y m d.
Proof. intros y m d. unfold days_from_civil. cbv zeta. lia. Qed.

(** The constructor [new Date(y, m - 1, d)] on the parts of a day that is
    not in the years 0..99 gives that day back. *)
Lemma Date_ymd_of_parts :
  forall z,
    representable z ->
    ~ (0 <= getFullYear z <= 99) ->
    Date_ymd (getFullYear z) (getMonth z) (getDate z) = LocalTime z 0.
Proof.
  intros z Hz Hy.
  destruct (civil_from_days_spec z) as [Hm [_ Hback]].
  unfold Date_ymd, getFullYear, getMonth, getDate in *.
  set (y := fst (fst (civil_from_days z))) in *.
  set (m := snd (fst (civil_from_days z))) in *.
  set (d := snd (civil_from_days z)) in *.
  assert (Hq : (0 <=? y) && (y <=? 99) = false).
  { destruct (Z.leb_spec 0 y); destruct (Z.leb_spec y 99); simpl; auto. lia. }
  rewrite Hq. cbv zeta.
  replace ((m - 1) / 12) with 0 by (Z.div_mod_to_equations; lia).
  replace ((m - 1) mod 12 + 1) with m by (Z.div_mod_to_equations; lia).
  replace (y + 0) with y by lia.
  rewrite days_from_civil_day, Hback.
  unfold timeClip, representable in *.
  destruct (Z.leb_spec (Z.abs (z * 86400000 + 0)) 8640000000000000); [reflexivity|lia].
Qed.

(** X19: for every day that [Date] can represent, outside the years 0 to
    99 that the [Date] constructor reads as 1900 to 1999, the copy
    [new Date(date.getFullYear(), date.getMonth(), date.getDate())] that
    [createExpense] saves is midnight of the same calendar day, whatever
    the time of day of the original. *)
Theorem date_without_time_keeps_the_day :
  forall d ms : Z,
    representable d ->
    ~ (0 <= getFullYear d <= 99) ->
    dateOnly (LocalTime d ms) = LocalTime d 0.
Proof.
  intros d ms Hd Hy. unfold dateOnly. apply Date_ymd_of_parts; assumption.
Qed.

Lemma date_without_time_witness :
  dateOnly (LocalTime wednesday 36000000) = LocalTime wednesday 0.
Proof.
  apply date_without_time_keeps_the_day.
  - unfold representable, wednesday. lia.
  - vm_compute. intros [_ Hle]. apply Hle. reflexivity.
Defined.





(** ** The webhook and the users *)

Lemma findOrCreate_outcome :
  forall phone name s,
    (userLookupFails phone s = true
     /\ findOrCreateByPhoneNumber phone name s = (Thrown StoreError, s))
    \/ (userLookupFails phone s = false
        /\ exists user s',
             findOrCreateByPhoneNumber phone name s = (Returned user, s')
             /\ phoneNumber user = phone
             /\ outbox s' = outbox s).
Proof.
  intros phone name s. unfold userLookupFails, findOrCreateByPhoneNumber.
  destruct (faulty (world s) FindUser); [left; split; reflexivity|].
  destruct (find (fun u => String.eqb (phoneNumber u) phone) (users (world s)))
    as [user|] eqn:Hf.
  - right. split; [reflexivity|]. exists user, s. repeat split.
    apply find_some in Hf. destruct Hf as [_ Heq].
    apply String.eqb_eq. exact Heq.
  - destruct (userSaveFails s); [left; split; reflexivity|].
    right. split; [reflexivity|]. eexists; eexists. repeat split.
Qed.

Lemma onWorld_outbox :
  forall (A : Type) (c : M A) s o s',
    onWorld c s = (o, s') -> outbox s' = outbox s.
Proof.
  intros A c s o s' Hc. unfold onWorld in Hc.
  destruct (c (world s)) as [o1 w1]. injection Hc as _ <-. reflexivity.
Qed.

Lemma processMessage_returns :
  forall H JSON_parse parseArguments JSON_stringify round1 round2 text userId s,
  exists response s',
    onWorld (processMessage H JSON_parse parseArguments JSON_stringify
                            round1 round2 text userId) s
    = (Returned response, s')
    /\ outbox s' = outbox s.
Proof.
  intros H JSON_parse parseArguments JSON_stringify round1 round2 text userId s.
  destruct (orchestrator_returns JSON_parse parseArguments JSON_stringify
              (round2 text)
              (fun functionName args => executeFunction H functionName args userId)
              (round1 text) (world s)) as [reply [w' Hr]].
  unfold onWorld, processMessage. rewrite Hr.
  eexists; eexists. split; reflexivity.
Qed.

(** X21: [handleIncomingMessage] on a call with a first entry and a first
    change never throws.  Either the call is ignored and nothing changes,
    or exactly one message is posted: through the phone-number id of the
    call, to the WhatsApp id of its first contact, and never a template
    message. *)
Theorem webhook_posts_one_reply :
  forall (H : Host) (JSON_parse : string -> option JsVal)
         (parseArguments : string -> option Args.t)
         (JSON_stringify : JsVal -> string)
         (round1 : string -> Outcome (option ChatMessage))
         (round2 : string -> list ToolMessage -> Outcome (option string))
         (changeValue : ChangeValue) (changes : list ChangeValue)
         (entries : list (list ChangeValue)) (s : Service),
  exists status s',
    handleIncomingMessage H JSON_parse parseArguments JSON_stringify round1 round2
                          ((changeValue :: changes) :: entries) s
    = (Returned status, s')
    /\ ((status = StatusIgnored /\ s' = s)
        \/ (status <> StatusIgnored
            /\ exists contact m,
                 firstOf (contacts changeValue) = Some contact
                 /\ outbox s'
                    = (outbox s
                       ++ [mkOutbound (phone_number_id (metadata changeValue)) m])%list
                 /\ recipient m = wa_id contact
                 /\ forall to tpl,
                      m <> WhatsAppFormatter.WhatsappTemplateMessage to tpl)).
Proof.
  intros H JSON_parse parseArguments JSON_stringify round1 round2
         changeValue changes entries s.
  assert (Hignored : exists status s',
             s_ret StatusIgnored s = (Returned status, s')
             /\ ((status = StatusIgnored /\ s' = s)
                 \/ (status <> StatusIgnored
                     /\ exists contact m,
                          firstOf (contacts changeValue) = Some contact
                          /\ outbox s'
                             = (outbox s
                                ++ [mkOutbound (phone_number_id (metadata changeValue)) m])%list
                          /\ recipient m = wa_id contact
                          /\ forall to tpl,
                               m <> WhatsAppFormatter.WhatsappTemplateMessage to tpl))).
  { exists StatusIgnored, s. split; [reflexivity|left; split; reflexivity]. }
  unfold handleIncomingMessage. cbv zeta.
  destruct (firstOf (messages changeValue)) as [message|]; [|exact Hignored].
  destruct (firstOf (contacts changeValue)) as [contact|]; [|exact Hignored].
  destruct (String.eqb (msg_from message) ""); [exact Hignored|].
  destruct (String.eqb (msg_from message)
                       (display_phone_number (metadata changeValue)));
    [exact Hignored|].
  destruct (negb (String.eqb (msg_type message) "text")
            || negb (truthyStr (msg_body message))); [exact Hignored|].
  clear Hignored. unfold replyTo, s_try_catch, s_bind.
  destruct (findOrCreate_outcome (wa_id contact) None s)
    as [[_ Hf]|[_ [user [s1 [Hf [_ Ho1]]]]]]; rewrite Hf.
  - eexists; eexists. split; [reflexivity|]. right. split; [discriminate|].
    eexists; eexists. repeat split. discriminate.
  - destruct (processMessage_returns H JSON_parse parseArguments JSON_stringify
                round1 round2 (textOf (msg_body message)) (user_id user) s1)
      as [response [s2 [Hp Ho2]]].
    rewrite Hp.
    destruct (truthy (imageUrl response));
      (eexists; eexists; split; [reflexivity|]; right; split; [discriminate|];
       eexists; eexists; split; [reflexivity|];
       split; [simpl; rewrite Ho2, Ho1; reflexivity|];
       split; [reflexivity|discriminate]).
Qed.

(** X22: a call that passes the guards is answered, not ignored.  When the
    user store fails to find or to insert the sender, the status is
    [error], the fixed apology is posted as a text message and nothing else
    changes; otherwise the status is [processed], whatever the language
    model and the executor do. *)
Theorem accepted_message_is_answered :
  forall (H : Host) (JSON_parse : string -> option JsVal)
         (parseArguments : string -> option Args.t)
         (JSON_stringify : JsVal -> string)
         (round1 : string -> Outcome (option ChatMessage))
         (round2 : string -> list ToolMessage -> Outcome (option string))
         (changeValue : ChangeValue) (changes : list ChangeValue)
         (entries : list (list ChangeValue))
         (message : InboundMessage) (contact : Contact) (s : Service),
    accepted changeValue message contact ->
    exists status s',
      handleIncomingMessage H JSON_parse parseArguments JSON_stringify round1 round2
                            ((changeValue :: changes) :: entries) s
      = (Returned status, s')
      /\ (if userLookupFails (wa_id contact) s
          then status = StatusError
               /\ s' = posted (phone_number_id (metadata changeValue))
                              (WhatsAppFormatter.WhatsappTextMessage
                                 (wa_id contact) (JStr errorReplyText)) s
          else status = StatusProcessed).
Proof.
  intros H JSON_parse parseArguments JSON_stringify round1 round2
         changeValue changes entries message contact s
         [Hm [Hc [Hfrom [Hown [Htype Hbody]]]]].
  unfold handleIncomingMessage. cbv zeta. rewrite Hm, Hc.
  destruct (String.eqb_spec (msg_from message) ""); [contradiction|].
  destruct (String.eqb_spec (msg_from message)
                            (display_phone_number (metadata changeValue)));
    [contradiction|].
  rewrite Htype, Hbody. change (negb ("text" =? "text")%string || negb true) with false.
  cbv iota. unfold replyTo, s_try_catch, s_bind.
  destruct (findOrCreate_outcome (wa_id contact) None s)
    as [[Hfail Hf]|[Hfail [user [s1 [Hf _]]]]]; rewrite Hf, Hfail.
  - eexists; eexists. split; [reflexivity|]. split; reflexivity.
  - destruct (processMessage_returns H JSON_parse parseArguments JSON_stringify
                round1 round2 (textOf (msg_body message)) (user_id user) s1)
      as [response [s2 [Hp _]]].
    rewrite Hp.
    destruct (truthy (imageUrl response));
      (eexists; eexists; split; reflexivity).
Qed.

Lemma accepted_message_witness :
  exists status s',
    handleIncomingMessage refHost (fun _ => None) (fun _ => None) (fun _ => "ok")
      (fun _ => Returned None) (fun _ _ => Returned None)
      [[mkChangeValue (mkMetadata "15559999" "pn-1")
          (Some [mkContact "15550001"])
          (Some [mkInbound "15550001" "text" (Some "spent 5 on tea")])]]
      (mkService (sampleWorld [] healthy) 2 false [])
    = (Returned status, s')
    /\ status = StatusProcessed.
Proof.
  destruct (accepted_message_is_answered refHost (fun _ => None) (fun _ => None)
              (fun _ => "ok") (fun _ => Returned None) (fun _ _ => Returned None)
              (mkChangeValue (mkMetadata "15559999" "pn-1")
                 (Some [mkContact "15550001"])
                 (Some [mkInbound "15550001" "text" (Some "spent 5 on tea")]))
              [] []
              (mkInbound "15550001" "text" (Some "spent 5 on tea"))
              (mkContact "15550001")
              (mkService (sampleWorld [] healthy) 2 false []))
    as [status [s' [Hrun Hstatus]]].
  - unfold accepted. simpl. repeat split; discriminate.
  - exists status, s'. split; [exact Hrun|exact Hstatus].
Defined.

Lemma find_app_none :
  forall (A : Type) (f : A -> bool) (l : list A) (x : A),
    find f l = None -> f x = true -> find f (l ++ [x]) = Some x.
Proof.
  intros A f l x Hl Hx. induction l as [|a l IH]; simpl in *.
  - rewrite Hx. reflexivity.
  - destruct (f a); [discriminate|]. apply IH. exact Hl.
Qed.

(** X23: [findOrCreateByPhoneNumber] returns a user of the phone number it
    was given, and asking again for the same number, with any name, returns
    the very same user and changes nothing: no second user is created. *)
Theorem find_or_create_is_idempotent :
  forall (phone : string) (name name' : option string)
         (s s' : Service) (user : User),
    findOrCreateByPhoneNumber phone name s = (Returned user, s') ->
    phoneNumber user = phone
    /\ findOrCreateByPhoneNumber phone name' s' = (Returned user, s').
Proof.
  intros phone name name' s s' user Hrun.
  unfold findOrCreateByPhoneNumber in Hrun.
  destruct (faulty (world s) FindUser) eqn:Hfaulty; [discriminate|].
  destruct (find (fun u => String.eqb (phoneNumber u) phone) (users (world s)))
    as [found|] eqn:Hf.
  - injection Hrun as <- <-. split.
    + apply find_some in Hf. destruct Hf as [_ Heq]. apply String.eqb_eq. exact Heq.
    + unfold findOrCreateByPhoneNumber. rewrite Hfaulty, Hf. reflexivity.
  - destruct (userSaveFails s); [discriminate|].
    injection Hrun as <- <-. split; [reflexivity|].
    unfold findOrCreateByPhoneNumber. cbn [world withUsers faulty users].
    rewrite Hfaulty.
    rewrite (find_app_none _ _ _ _ Hf) by (cbn [phoneNumber]; apply String.eqb_refl).
    reflexivity.
Qed.

Lemma find_or_create_witness :
  exists user s',
    findOrCreateByPhoneNumber "15550002" None
      (mkService (sampleWorld [] healthy) 2 false [])
    = (Returned user, s')
    /\ user_name user = "User 15550002"
    /\ findOrCreateByPhoneNumber "15550002" (Some "Bob") s' = (Returned user, s').
Proof.
  eexists; eexists. split; [reflexivity|]. split; [reflexivity|].
  apply (find_or_create_is_idempotent "15550002" None (Some "Bob")
           (mkService (sampleWorld [] healthy) 2 false [])).
  reflexivity.
Defined.

Lemma find_none_not_in :
  forall (phone : string) (us : list User),
    find (fun u => String.eqb (phoneNumber u) phone) us = None ->
    ~ In phone (map phoneNumber us).
Proof.
  intros phone us Hf Hin. apply in_map_iff in Hin.
  destruct Hin as [u [Hu Hin]].
  apply (find_none _ _ Hf) in Hin. simpl in Hin.
  rewrite Hu, String.eqb_refl in Hin. discriminate.
Qed.

(** X24: [findOrCreateByPhoneNumber] keeps the users' phone numbers
    distinct: if no two registered users share a phone number before the
    call, none do after it, whatever its outcome; the users registered
    before are all kept, in their order, and at most one is added. *)
Theorem one_user_per_phone_number :
  forall (phone : string) (name : option string) (s s' : Service)
         (o : Outcome User),
    NoDup (phoneNumbers s) ->
    findOrCreateByPhoneNumber phone name s = (o, s') ->
    NoDup (phoneNumbers s')
    /\ (users (world s') = users (world s)
        \/ exists user,
             o = Returned user
             /\ users (world s') = (users (world s) ++ [user])%list
             /\ ~ In phone (phoneNumbers s)).
Proof.
  intros phone name s s' o Hnd Hrun.
  unfold findOrCreateByPhoneNumber in Hrun.
  destruct (faulty (world s) FindUser);
    [injection Hrun as <- <-; split; [exact Hnd|left; reflexivity]|].
  destruct (find (fun u => String.eqb (phoneNumber u) phone) (users (world s)))
    as [found|] eqn:Hf;
    [injection Hrun as <- <-; split; [exact Hnd|left; reflexivity]|].
  destruct (userSaveFails s);
    [injection Hrun as <- <-; split; [exact Hnd|left; reflexivity]|].
  injection Hrun as <- <-.
  assert (Hnew : ~ In phone (phoneNumbers s)) by (apply find_none_not_in; exact Hf).
  split.
  - unfold phoneNumbers in *. cbn [world withUsers users].
    rewrite map_app. cbn [map phoneNumber].
    apply NoDup_app;
      [exact Hnd | repeat constructor; simpl; tauto
       | intros x Hx [<-|[]]; exact (Hnew Hx)].
  - right. eexists. repeat split. exact Hnew.
Qed.

Lemma one_user_per_phone_witness :
  NoDup (phoneNumbers
           (snd (findOrCreateByPhoneNumber "15550002" None
                   (mkService (sampleWorld [] healthy) 2 false [])))).
Proof.
  apply (one_user_per_phone_number "15550002" None
           (mkService (sampleWorld [] healthy) 2 false []) _
           (fst (findOrCreateByPhoneNumber "15550002" None
                   (mkService (sampleWorld [] healthy) 2 false [])))).
  - vm_compute. repeat constructor. simpl. tauto.
  - reflexivity.
Defined.

(** ** The window of this month *)

(** The first day of the month of [z], and the first day of the next month. *)
Lemma month_window :
  forall z,
    days_from_civil (getFullYear z) (getMonth z + 1) 1 = z - getDate z + 1
    /\ 1 <= getMonth z + 1 <= 12
    /\ z - getDate z + 1 <= z
       < days_from_civil (getFullYear z + (getMonth z + 1) / 12)
                         ((getMonth z + 1) mod 12 + 1) 1
    /\ 28 <= days_from_civil (getFullYear z + (getMonth z + 1) / 12)
                             ((getMonth z + 1) mod 12 + 1) 1
             - (z - getDate z + 1) <= 31.
Proof.
  intro z. unfold getFullYear, getMonth, getDate.
  destruct (civil_from_days_parts z)
    as [era [yoe [doy [mp [Hyoe [Hmp [Hlo [Hhi [Hnext [Hdoe [Hz Hc]]]]]]]]]]].
  rewrite Hc. cbn [fst snd].
  replace ((if mp <? 10 then mp + 3 else mp - 9) - 1 + 1)
    with (if mp <? 10 then mp + 3 else mp - 9) by lia.
  rewrite (days_from_civil_parts era yoe mp 1 Hyoe Hmp).
  assert (Hlen : mp <= 10 ->
            30 <= (153 * (mp + 1) + 2) / 5 - (153 * mp + 2) / 5 <= 31)
    by (intros; Z.div_mod_to_equations; lia).
  assert (Hshape :
    days_from_civil
      (yoe + era * 400 + (if mp <? 10 then 0 else 1)
       + (if mp <? 10 then mp + 3 else mp - 9) / 12)
      ((if mp <? 10 then mp + 3 else mp - 9) mod 12 + 1) 1
    = if mp <=? 10
      then era * 146097
           + (365 * yoe + yoe / 4 - yoe / 100 + (153 * (mp + 1) + 2) / 5) - 719468
      else if yoe <? 399
           then era * 146097
                + (365 * (yoe + 1) + (yoe + 1) / 4 - (yoe + 1) / 100) - 719468
           else (era + 1) * 146097 - 719468).
  { assert (Hcase : mp <= 8 \/ mp = 9 \/ mp = 10 \/ mp = 11) by lia.
    destruct Hcase as [Hm | [-> | [-> | ->]]].
    - destruct (Z.ltb_spec mp 10); [|lia]. destruct (Z.leb_spec mp 10); [|lia].
      replace ((mp + 3) / 12) with 0 by (Z.div_mod_to_equations; lia).
      replace ((mp + 3) mod 12 + 1) with (mp + 1 + 3) by (Z.div_mod_to_equations; lia).
      pose proof (days_from_civil_parts era yoe (mp + 1) 1 Hyoe ltac:(lia)) as Hd.
      destruct (Z.ltb_spec (mp + 1) 10); [|lia].
      replace (yoe + era * 400 + 0 + 0) with (yoe + era * 400 + 0) by lia.
      rewrite Hd. lia.
    - pose proof (days_from_civil_parts era yoe 10 1 Hyoe ltac:(lia)) as Hd.
      change (10 <? 10) with false in Hd. change (9 <? 10) with true.
      change (9 <=? 10) with true. cbv iota in *.
      change ((9 + 3) / 12) with 1. change ((9 + 3) mod 12 + 1) with (10 - 9).
      replace (yoe + era * 400 + 0 + 1) with (yoe + era * 400 + 1) by lia.
      rewrite Hd. change ((153 * (9 + 1) + 2) / 5) with ((153 * 10 + 2) / 5). lia.
    - pose proof (days_from_civil_parts era yoe 11 1 Hyoe ltac:(lia)) as Hd.
      change (11 <? 10) with false in Hd. change (10 <? 10) with false.
      change (10 <=? 10) with true. cbv iota in *.
      change ((10 - 9) / 12) with 0. change ((10 - 9) mod 12 + 1) with (11 - 9).
      replace (yoe + era * 400 + 1 + 0) with (yoe + era * 400 + 1) by lia.
      rewrite Hd. change ((153 * (10 + 1) + 2) / 5) with ((153 * 11 + 2) / 5). lia.
    - change (11 <? 10) with false. change (11 <=? 10) with false. cbv iota.
      change ((11 - 9) / 12) with 0. change ((11 - 9) mod 12 + 1) with (0 + 3).
      destruct (Z.ltb_spec yoe 399).
      + pose proof (days_from_civil_parts era (yoe + 1) 0 1 ltac:(lia) ltac:(lia)) as Hd.
        change (0 <? 10) with true in Hd. cbv iota in Hd.
        replace (yoe + era * 400 + 1 + 0) with (yoe + 1 + era * 400 + 0) by lia.
        rewrite Hd. change ((153 * 0 + 2) / 5) with 0. lia.
      + pose proof (days_from_civil_parts (era + 1) 0 0 1 ltac:(lia) ltac:(lia)) as Hd.
        change (0 <? 10) with true in Hd. cbv iota in Hd.
        replace (yoe + era * 400 + 1 + 0) with (0 + (era + 1) * 400 + 0) by lia.
        rewrite Hd. change ((153 * 0 + 2) / 5) with 0.
        change (0 / 4) with 0. change (0 / 100) with 0. lia. }
  rewrite Hshape. clear Hshape.
  split; [lia|]. split; [destruct (Z.ltb_spec mp 10); lia|].
  destruct (Z.leb_spec mp 10).
  - specialize (Hhi ltac:(lia)). specialize (Hlen ltac:(lia)). lia.
  - assert (mp = 11) by lia. subst mp.
    change ((153 * 11 + 2) / 5) with 337 in *.
    destruct (Z.ltb_spec yoe 399).
    + specialize (Hnext ltac:(lia)).
      assert (365 <= 365 * (yoe + 1) + (yoe + 1) / 4 - (yoe + 1) / 100
                     - (365 * yoe + yoe / 4 - yoe / 100) <= 366)
        by (Z.div_mod_to_equations; lia).
      lia.
    + assert (yoe = 399) by lia. subst yoe.
      change (399 / 4) with 99 in *. change (399 / 100) with 3 in *. lia.
Qed.

Lemma formatLocalDate_any_time : forall d ms ms',
  formatLocalDate (LocalTime d ms) = formatLocalDate (LocalTime d ms').
Proof. reflexivity. Qed.

(** X25: with a store that answers, on a representable day outside the
    years 0 to 99, [getTotalExpensesByUserThisMonth] queries the window
    from [new Date(y, m, 1)] to [new Date(y, m + 1, 0)]: the window starts
    [getDate() - 1] days before today, contains today and spans 28 to 31
    days; when the database reads the two date texts as those days, the
    result is the sum and the number of the user's expenses dated in it. *)
Theorem this_month_is_the_calendar_month :
  forall (H : Host) (userId : Z) (w : World),
    Healthy w ->
    -99999000 <= today w <= 99999000 ->
    ~ (0 <= getFullYear (today w) <= 99) ->
    exists first last,
      firstOfMonth (today w) = LocalTime first 0
      /\ lastOfMonth (today w) = LocalTime last 0
      /\ first = today w - getDate (today w) + 1
      /\ first <= today w <= last
      /\ 27 <= last - first <= 30
      /\ (sqlDate H (formatLocalDate (LocalTime first 0)) = Some first ->
          sqlDate H (formatLocalDate (LocalTime last 0)) = Some last ->
          getTotalExpensesByUserThisMonth H userId w
          = (Returned
               (mkBucket
                  (sumAmounts H
                     (sort (byDateDesc H)
                        (filter (fun e => (e_userId e =? userId)
                                          && inDays H first last e)
                                (expenses w))))
                  (Z.of_nat
                     (List.length
                        (sort (byDateDesc H)
                           (filter (fun e => (e_userId e =? userId)
                                             && inDays H first last e)
                                   (expenses w)))))), w)).
Proof.
  intros H userId w Hw Hrange Hyear.
  destruct (month_window (today w)) as [Hfirst [Hm [Hin Hlen]]].
  set (next := days_from_civil
                 (getFullYear (today w) + (getMonth (today w) + 1) / 12)
                 ((getMonth (today w) + 1) mod 12 + 1) 1) in *.
  assert (Hq : (0 <=? getFullYear (today w)) && (getFullYear (today w) <=? 99) = false).
  { destruct (Z.leb_spec 0 (getFullYear (today w)));
      destruct (Z.leb_spec (getFullYear (today w)) 99); simpl; auto. lia. }
  assert (Hf : firstOfMonth (today w)
               = LocalTime (today w - getDate (today w) + 1) 0).
  { unfold firstOfMonth, Date_ymd. rewrite Hq. cbv zeta.
    replace (getMonth (today w) / 12) with 0 by (Z.div_mod_to_equations; lia).
    replace (getMonth (today w) mod 12 + 1) with (getMonth (today w) + 1)
      by (Z.div_mod_to_equations; lia).
    replace (getFullYear (today w) + 0) with (getFullYear (today w)) by lia.
    rewrite Hfirst.
    replace (today w - getDate (today w) + 1 + 1 - 1)
      with (today w - getDate (today w) + 1) by lia.
    apply timeClip_in_range. lia. }
  assert (Hl : lastOfMonth (today w) = LocalTime (next - 1) 0).
  { unfold lastOfMonth, Date_ymd. rewrite Hq. cbv zeta. fold next.
    replace (next + 0 - 1) with (next - 1) by lia.
    apply timeClip_in_range. lia. }
  clearbody next.
  exists (today w - getDate (today w) + 1), (next - 1).
  split; [exact Hf|]. split; [exact Hl|]. split; [reflexivity|].
  split; [lia|]. split; [lia|].
  intros Hlo Hhi.
  unfold getTotalExpensesByUserThisMonth. cbv zeta. rewrite Hf, Hl.
  unfold setHours. rewrite timeClip_in_range by lia.
  unfold bind, getExpensesByUserAndDateRange, expense_query_range. cbv zeta.
  rewrite (formatLocalDate_any_time (next - 1) 86399999 0).
  rewrite Hw, Hlo, Hhi. reflexivity.
Qed.

Lemma this_month_witness :
  exists first last,
    firstOfMonth wednesday = LocalTime first 0
    /\ lastOfMonth wednesday = LocalTime last 0
    /\ last - first = 29
    /\ getTotalExpensesByUserThisMonth refHost 1
         (sampleWorld [lunch; snack; taxi; brunch] healthy)
       = (Returned (mkBucket 64 4), sampleWorld [lunch; snack; taxi; brunch] healthy).
Proof.
  destruct (this_month_is_the_calendar_month refHost 1
              (sampleWorld [lunch; snack; taxi; brunch] healthy))
    as [first [last [Hf [Hl [_ [_ [_ Hrun]]]]]]].
  - intro op. reflexivity.
  - vm_compute. split; discriminate.
  - vm_compute. intros [_ Hle]. apply Hle. reflexivity.
  - exists first, last.
    assert (Hf' : first = 20393) by (vm_compute in Hf; congruence).
    assert (Hl' : last = 20422) by (vm_compute in Hl; congruence).
    subst first last.
    split; [reflexivity|]. split; [reflexivity|]. split; [reflexivity|].
    rewrite Hrun by (vm_compute; reflexivity). vm_compute. reflexivity.
Defined.
